(** * Peering-session reconciliation engine of peering-manager

    A shallow embedding of [peering/models/models.py]: the neighbor
    normalizer of [Router], the session pollers of [BGPGroup] and
    [InternetExchange], session import, the available-peers query and the
    abandonment classifier, together with the properties the specification
    states about them. *)

From Stdlib Require Import ZArith NArith List String Ascii Bool Lia.
From Stdlib Require Import Permutation Sorted.
Import ListNotations.

Set Implicit Arguments.

Local Open Scope string_scope.
Local Open Scope Z_scope.

(** ** Python values and exceptions *)

(** The exceptions the modelled code can meet. *)
Inductive exn : Type :=
| DoesNotExist
| MultipleObjectsReturned
| KeyError (key : string)
| TypeError
| AttributeError
| ValueError
| IntegrityError.

(** Outcome of a Python call: a value or a raised exception. *)
Inductive result (A : Type) : Type :=
| Ok (a : A)
| Raise (e : exn).
Arguments Ok {A} a.
Arguments Raise {A} e.

(** ** The [ipaddress] module of the Python standard library

    Only what the source calls: [ipaddress.ip_address] on a string, the
    [version] attribute, [str()] of an address, and membership of an address
    in a network.  Scoped IPv6 literals (with a zone index) are not
    modelled and are rejected by the parser below. *)
Module ipaddress.

Local Open Scope N_scope.

Inductive ip_version : Type := V4 | V6.

Definition ip_version_eqb (a b : ip_version) : bool :=
  match a, b with
  | V4, V4 | V6, V6 => true
  | _, _ => false
  end.

(** An [IPv4Address] or [IPv6Address] object: its family and its integer. *)
Record IPAddress : Type := mkIP { version : ip_version; ip_int : N }.

Definition eqb (a b : IPAddress) : bool :=
  ip_version_eqb (version a) (version b) && N.eqb (ip_int a) (ip_int b).

(** [str.split(sep)] for a one-character separator. *)
Fixpoint split (sep : ascii) (s : string) : list string :=
  match s with
  | EmptyString => [EmptyString]
  | String c rest =>
      if Ascii.eqb c sep then EmptyString :: split sep rest
      else match split sep rest with
           | [] => [String c EmptyString]
           | hd :: tl => String c hd :: tl
           end
  end.

Definition digit_of (c : ascii) : option N :=
  let n := N_of_ascii c in
  if (48 <=? n)%N && (n <=? 57)%N then Some (n - 48)%N else None.

Definition hex_digit_of (c : ascii) : option N :=
  let n := N_of_ascii c in
  if (48 <=? n)%N && (n <=? 57)%N then Some (n - 48)%N
  else if (97 <=? n)%N && (n <=? 102)%N then Some (n - 87)%N
  else if (65 <=? n)%N && (n <=? 70)%N then Some (n - 55)%N
  else None.

(** [int(s, base)] on a string whose characters were checked by [digit]. *)
Fixpoint int_of (digit : ascii -> option N) (base : N) (acc : N) (s : string)
  : option N :=
  match s with
  | EmptyString => Some acc
  | String c rest =>
      match digit c with
      | Some d => int_of digit base (acc * base + d)%N rest
      | None => None
      end
  end.

(** [IPv4Address._parse_octet]: one to three decimal digits, no leading
    zero on a longer octet, at most 255. *)
Definition _parse_octet (octet_str : string) : option N :=
  match octet_str with
  | EmptyString => None
  | String c rest =>
      if (3 <? String.length octet_str)%nat then None
      else if Ascii.eqb c "0"%char && negb (String.eqb rest EmptyString) then None
      else match int_of digit_of 10 0 octet_str with
           | Some n => if (n <=? 255)%N then Some n else None
           | None => None
           end
  end.

Fixpoint pack (bits : N) (acc : N) (parts : list string)
         (parse : string -> option N) : option N :=
  match parts with
  | [] => Some acc
  | p :: rest =>
      match parse p with
      | Some n => pack bits (N.lor (N.shiftl acc bits) n) rest parse
      | None => None
      end
  end.

Definition ipv4_int_from_string (ip_str : string) : option N :=
  let octets := split "."%char ip_str in
  if negb (Nat.eqb (List.length octets) 4) then None
  else pack 8 0 octets _parse_octet.

(** [IPv6Address._parse_hextet]: one to four hexadecimal digits, either
    case. *)
Definition _parse_hextet (hextet_str : string) : option N :=
  match hextet_str with
  | EmptyString => None
  | _ =>
      if (4 <? String.length hextet_str)%nat then None
      else int_of hex_digit_of 16 0 hextet_str
  end.

Definition is_empty (s : string) : bool := String.eqb s EmptyString.

(** Indices [i] with [1 <= i < len(parts) - 1] whose part is empty. *)
Fixpoint skip_indices (i : nat) (parts : list string) : list nat :=
  match parts with
  | [] => []
  | [_] => []
  | p :: rest =>
      ((if is_empty p then [i] else []) ++ skip_indices (S i) rest)%list
  end.

Definition contains_dot (s : string) : bool :=
  negb (Nat.eqb (List.length (split "."%char s)) 1).

(** Lower-case hexadecimal of a number below 16^4, as ['%x' % n]. *)
Definition hex_char (d : N) : ascii :=
  if (d <? 10)%N then ascii_of_N (48 + d) else ascii_of_N (87 + d).

Definition hex_of (n : N) : string :=
  let d3 := (n / 4096) mod 16 in
  let d2 := (n / 256) mod 16 in
  let d1 := (n / 16) mod 16 in
  let d0 := n mod 16 in
  (if (4096 <=? n) then String (hex_char d3) EmptyString else EmptyString)
  ++ (if (256 <=? n) then String (hex_char d2) EmptyString else EmptyString)
  ++ (if (16 <=? n) then String (hex_char d1) EmptyString else EmptyString)
  ++ String (hex_char d0) EmptyString.

(** [IPv6Address._ip_int_from_string]. *)
Definition ipv6_int_from_string (ip_str : string) : option N :=
  if is_empty ip_str then None else
  let parts := split ":"%char ip_str in
  if (List.length parts <? 3)%nat then None else
  let last_part := List.last parts EmptyString in
  let parts' :=
    if contains_dot last_part then
      match ipv4_int_from_string last_part with
      | Some v4 =>
          Some (List.removelast parts
                ++ [hex_of (N.land (N.shiftr v4 16) 65535);
                    hex_of (N.land v4 65535)])%list
      | None => None
      end
    else Some parts in
  match parts' with
  | None => None
  | Some parts =>
      let len := List.length parts in
      if (9 <? len)%nat then None else
      let first_empty := is_empty (List.hd EmptyString parts) in
      let last_empty := is_empty (List.last parts EmptyString) in
      match skip_indices 1 (List.tl parts) with
      | _ :: _ :: _ => None
      | [skip_index] =>
          let parts_hi := skip_index in
          let parts_lo := (len - skip_index - 1)%nat in
          if first_empty && negb (Nat.eqb (parts_hi - 1) 0) then None else
          if last_empty && negb (Nat.eqb (parts_lo - 1) 0) then None else
          let parts_hi := if first_empty then (parts_hi - 1)%nat else parts_hi in
          let parts_lo := if last_empty then (parts_lo - 1)%nat else parts_lo in
          if (8 <=? parts_hi + parts_lo)%nat then None else
          let parts_skipped := (8 - (parts_hi + parts_lo))%nat in
          match pack 16 0 (List.firstn parts_hi parts) _parse_hextet with
          | None => None
          | Some hi =>
              pack 16 (N.shiftl hi (16 * N.of_nat parts_skipped))
                   (List.skipn (len - parts_lo) parts) _parse_hextet
          end
      | [] =>
          if negb (Nat.eqb len 8) then None
          else if first_empty || last_empty then None
          else pack 16 0 parts _parse_hextet
      end
  end.

(** [ipaddress.ip_address(address)] on a string: an IPv4 address if it
    parses as one, else an IPv6 address, else [ValueError] ([None]). *)
Definition ip_address (address : string) : option IPAddress :=
  match ipv4_int_from_string address with
  | Some n => Some (mkIP V4 n)
  | None =>
      match ipv6_int_from_string address with
      | Some n => Some (mkIP V6 n)
      | None => None
      end
  end.

Fixpoint join (sep : string) (l : list string) : string :=
  match l with
  | [] => EmptyString
  | [x] => x
  | x :: rest => x ++ sep ++ join sep rest
  end.

(** Scan of [_compress_hextets]: the first longest run of ["0"] hextets,
    as (start, length). *)
Fixpoint best_run (hextets : list string) (index : nat)
         (cur_start : option nat) (cur_len : nat)
         (best_start : nat) (best_len : nat) : nat * nat :=
  match hextets with
  | [] => (best_start, best_len)
  | h :: rest =>
      if String.eqb h "0" then
        let cur_len := S cur_len in
        let cur_start := match cur_start with
                         | None => index
                         | Some s => s
                         end in
        if (best_len <? cur_len)%nat
        then best_run rest (S index) (Some cur_start) cur_len cur_start cur_len
        else best_run rest (S index) (Some cur_start) cur_len best_start best_len
      else best_run rest (S index) None 0%nat best_start best_len
  end.

Definition _compress_hextets (hextets : list string) : list string :=
  let '(best_start, best_len) := best_run hextets 0 None 0 0%nat 0%nat in
  if (1 <? best_len)%nat then
    let best_end := (best_start + best_len)%nat in
    let hextets1 :=
      if Nat.eqb best_end (List.length hextets)
      then (hextets ++ [EmptyString])%list else hextets in
    let hextets2 :=
      (List.firstn best_start hextets1 ++ [EmptyString]
       ++ List.skipn best_end hextets1)%list in
    if Nat.eqb best_start 0 then EmptyString :: hextets2 else hextets2
  else hextets.

Definition hextets_of (n : N) : list string :=
  List.map (fun k => hex_of (N.land (N.shiftr n (16 * k)) 65535))
           [7; 6; 5; 4; 3; 2; 1; 0]%N.

Definition octets_of (n : N) : list N :=
  List.map (fun k => N.land (N.shiftr n (8 * k)) 255) [3; 2; 1; 0]%N.

Fixpoint dec_digits (fuel : nat) (n : N) (acc : string) : string :=
  match fuel with
  | O => acc
  | S fuel =>
      let acc := String (ascii_of_N (48 + n mod 10)) acc in
      if (n <? 10)%N then acc else dec_digits fuel (n / 10)%N acc
  end.

Definition dec_of (n : N) : string := dec_digits 3 n EmptyString.

(** [str(address)]. *)
Definition str (a : IPAddress) : string :=
  match version a with
  | V4 => join "." (List.map dec_of (octets_of (ip_int a)))
  | V6 => join ":" (_compress_hextets (hextets_of (ip_int a)))
  end.

End ipaddress.

(** ** Router: the neighbor normalizer *)

(** The per-peer mapping of NAPALM's [get_bgp_neighbors]; only the key the
    normalizer reads is kept.  [None] is the key [remote_as] being absent. *)
Record peer_details : Type := mkDetails { remote_as : option Z }.

(** One VRF of NAPALM's [get_bgp_neighbors]: its ["peers"] dict, in
    iteration order. *)
Record vrf_entry : Type := mkVrf { peers : list (string * peer_details) }.

(** The whole answer, a dict from VRF name to entry, in iteration order. *)
Definition napalm_dict_t : Type := list (string * vrf_entry).

(** A record of the normalizer's output. *)
Record bgp_peer : Type :=
  mkPeer { ip_address : ipaddress.IPAddress; remote_asn : Z }.

(** Body of the inner loop of [_napalm_bgp_neighbors_to_peer_list]. *)
Definition peer_step (bgp_peers : list bgp_peer)
           (entry : string * peer_details) : list bgp_peer :=
  let '(ip, details) := entry in
  match remote_as details with
  | None => bgp_peers
  | Some asn =>
      if existsb (fun i => String.eqb ip (ipaddress.str (ip_address i))) bgp_peers
      then bgp_peers
      else match ipaddress.ip_address ip with
           | Some a => bgp_peers ++ [mkPeer a asn]
           | None => bgp_peers
           end
  end.

(** Body of the loop over the VRFs. *)
Definition vrf_step (bgp_peers : list bgp_peer)
           (vrf : string * vrf_entry) : list bgp_peer :=
  fold_left peer_step (peers (snd vrf)) bgp_peers.

(** [Router._napalm_bgp_neighbors_to_peer_list]; [None] is a missing
    ([None]) argument. *)
Definition _napalm_bgp_neighbors_to_peer_list
           (napalm_dict : option napalm_dict_t) : list bgp_peer :=
  match napalm_dict with
  | None => []
  | Some [] => []
  | Some d => fold_left vrf_step d []
  end.

(** All (key, details) entries of the input, in traversal order. *)
Definition all_entries (d : napalm_dict_t) : list (string * peer_details) :=
  flat_map (fun vrf => peers (snd vrf)) d.

Definition total_peer_entries (napalm_dict : option napalm_dict_t) : nat :=
  match napalm_dict with
  | None => 0%nat
  | Some d => List.length (all_entries d)
  end.

(** A value read from a neighbor record: [Absent] when the key is missing,
    [PNone] when it is [None], else an integer. *)
Inductive pyint : Type :=
| Absent
| PNone
| PInt (z : Z).

(** A neighbor record of NAPALM's [get_bgp_neighbors_detail], with the
    four keys the pollers read.  [remote_address] is kept as the address
    the ORM compares the [ip_address] column with. *)
Record neighbor_detail : Type := mkDetail {
  remote_address : ipaddress.IPAddress;
  connection_state : string;
  received_prefix_count : pyint;
  advertised_prefix_count : pyint
}.

(** VRF name -> remote ASN -> neighbor records, in iteration order. *)
Definition neighbors_detail_t : Type :=
  list (string * list (Z * list neighbor_detail)).

(** [Router.bgp_neighbors_detail_as_list]. *)
Definition bgp_neighbors_detail_as_list
           (bgp_neighbors_detail : neighbors_detail_t) : list neighbor_detail :=
  flat_map (fun vrf => flat_map (fun asn => snd asn) (snd vrf))
           bgp_neighbors_detail.

(** [str.lower()] on ASCII text. *)
Definition lower_char (c : ascii) : ascii :=
  let n := N_of_ascii c in
  if (65 <=? n)%N && (n <=? 90)%N then ascii_of_N (n + 32) else c.

Fixpoint lower (s : string) : string :=
  match s with
  | EmptyString => EmptyString
  | String c rest => String (lower_char c) (lower rest)
  end.

(** Modelled from the spec: the members of [peering.enums.BGPState] the
    code compares with; the enumeration itself is declared outside the
    files at hand.  The states mirror the protocol's and are stored in
    lower case. *)
Module BGPState.
Definition IDLE : string := "idle".
Definition ACTIVE : string := "active".
Definition ESTABLISHED : string := "established".
End BGPState.

(** ** The stored records *)

(** Modelled from the spec: the cached PeeringDB objects of
    [peeringdb.models] ("prefix list per exchange record; member list per
    exchange record with per-member v4/v6 addresses and ASN"), declared
    outside the files at hand; the fields are the ones the code reads. *)
Module Network.
Record t : Type := mk { asn : Z; name : string; irr_as_set : string;
                        info_prefixes6 : Z; info_prefixes4 : Z }.
End Network.

Module NetworkIXLan.
Record t : Type := mk { asn : Z; ixlan : Z;
                        ipaddr6 : option ipaddress.IPAddress;
                        ipaddr4 : option ipaddress.IPAddress }.
End NetworkIXLan.

Module IXLanPrefix.
(** [prefix] is an [ipaddress] network: family, network address, length. *)
Record t : Type := mk { ixlan : Z; version : ipaddress.ip_version;
                        network_address : N; prefixlen : N }.
End IXLanPrefix.

Module AutonomousSystem.
Record t : Type := mk { pk : Z; asn : Z; name : string; irr_as_set : string;
                        ipv6_max_prefixes : Z; ipv4_max_prefixes : Z }.
End AutonomousSystem.

(** Modelled from the spec: the fields [name], [check_bgp_session_states]
    and [bgp_session_states_update] of groups and exchanges come from
    [AbstractGroup] ("check session states toggle and last-poll
    timestamp"), and the fields [autonomous_system], [ip_address],
    [bgp_state], the two prefix counts and [last_established_state] of
    sessions from [BGPSession], both declared outside the files at hand. *)
Module BGPGroup.
Record t : Type := mk { pk : Z; name : string;
                        check_bgp_session_states : bool;
                        bgp_session_states_update : option Z }.
End BGPGroup.

Module DirectPeeringSession.
Record t : Type := mk { pk : Z; autonomous_system : Z;
                        ip_address : ipaddress.IPAddress;
                        bgp_group : option Z; router : option Z;
                        bgp_state : string;
                        received_prefix_count : Z;
                        advertised_prefix_count : Z;
                        last_established_state : option Z }.
End DirectPeeringSession.

Module InternetExchange.
Record t : Type := mk { pk : Z; name : string;
                        peeringdb_ixlan : option Z;
                        local_autonomous_system : option Z;
                        check_bgp_session_states : bool;
                        bgp_session_states_update : option Z }.
End InternetExchange.

(** Modelled from the spec: [net.models.Connection], the attachment of a
    router to an IXP, "optionally linked to an external member record";
    its class is declared outside the files at hand.  The fields are the
    ones the code reads ([internet_exchange_point], [router],
    [peeringdb_netixlan]). *)
Module Connection.
Record t : Type := mk { pk : Z; internet_exchange_point : option Z;
                        router : option Z;
                        peeringdb_netixlan : option Z }.
End Connection.

Module InternetExchangePeeringSession.
Record t : Type := mk { pk : Z; autonomous_system : Z;
                        ixp_connection : option Z;
                        ip_address : ipaddress.IPAddress;
                        is_route_server : bool;
                        bgp_state : string;
                        received_prefix_count : Z;
                        advertised_prefix_count : Z;
                        last_established_state : option Z }.
End InternetExchangePeeringSession.

(** One row written by the ORM: a [save()] of an existing row or a
    [create()]. *)
Inductive write : Type :=
| SaveBGPGroup (pk : Z)
| SaveDirectPeeringSession (pk : Z)
| SaveInternetExchange (pk : Z)
| SaveInternetExchangePeeringSession (pk : Z)
| CreateAutonomousSystem (pk : Z)
| CreateInternetExchangePeeringSession (pk : Z).

(** The database, one list per table in the table's default order, the
    clock read by [timezone.now()], and the log of rows written, oldest
    first.  The one column constraint modelled is the sign of the prefix
    counters of a session ([counters_storable] below). *)
Record DB : Type := mkDB {
  networks : list Network.t;
  netixlans : list NetworkIXLan.t;
  ixlan_prefixes : list IXLanPrefix.t;
  autonomous_systems : list AutonomousSystem.t;
  bgp_groups : list BGPGroup.t;
  direct_sessions : list DirectPeeringSession.t;
  internet_exchanges : list InternetExchange.t;
  connections : list Connection.t;
  routers : list Z;
  ixp_sessions : list InternetExchangePeeringSession.t;
  now : Z;
  writes : list write
}.

(** ** Stateful code: state passing with exceptions *)

(** A computation on the database: its outcome and the database it leaves
    (an exception leaves the database as it was when it was raised). *)
Definition M (A : Type) : Type := DB -> result A * DB.

Definition ret {A : Type} (a : A) : M A := fun db => (Ok a, db).

Definition raise {A : Type} (e : exn) : M A := fun db => (Raise e, db).

Definition bind {A B : Type} (m : M A) (f : A -> M B) : M B :=
  fun db => match m db with
            | (Ok a, db') => f a db'
            | (Raise e, db') => (Raise e, db')
            end.

Notation "x <- m ;; k" := (bind m (fun x => k))
  (at level 61, m at next level, right associativity).
Notation "m ;;; k" := (bind m (fun _ => k))
  (at level 61, right associativity).

Definition lift {A : Type} (r : result A) : M A := fun db => (r, db).

Definition get_db : M DB := fun db => (Ok db, db).

(** [transaction.atomic]: the block's writes are kept when it ends
    normally (also by [return]) and undone when an exception leaves it. *)
Definition atomic {A : Type} (m : M A) : M A :=
  fun db => match m db with
            | (Ok a, db') => (Ok a, db')
            | (Raise e, _) => (Raise e, db)
            end.

(** [for x in l: body x] *)
Fixpoint for_each {A : Type} (l : list A) (body : A -> M unit) : M unit :=
  match l with
  | [] => ret tt
  | x :: rest => body x ;;; for_each rest body
  end.

(** [Model.objects.get(...)] on the rows matching the lookup. *)
Definition objects_get {A : Type} (lookup : A -> bool) (table : list A)
  : result A :=
  match List.filter lookup table with
  | [] => Raise DoesNotExist
  | [row] => Ok row
  | _ => Raise MultipleObjectsReturned
  end.

Definition option_Z_eqb (a b : option Z) : bool :=
  match a, b with
  | Some x, Some y => Z.eqb x y
  | None, None => true
  | _, _ => false
  end.

(** A foreign key equals a given object. *)
Definition fk_is (fk : option Z) (pk : Z) : bool := option_Z_eqb fk (Some pk).

Definition timezone_now : M Z := fun db => (Ok (now db), db).

(** ** Writing rows *)

Definition log_write (w : write) (db : DB) : DB :=
  mkDB (networks db) (netixlans db) (ixlan_prefixes db) (autonomous_systems db)
       (bgp_groups db) (direct_sessions db) (internet_exchanges db)
       (connections db) (routers db) (ixp_sessions db) (now db)
       (writes db ++ [w]).

Definition set_autonomous_systems (l : list AutonomousSystem.t) (db : DB) : DB :=
  mkDB (networks db) (netixlans db) (ixlan_prefixes db) l
       (bgp_groups db) (direct_sessions db) (internet_exchanges db)
       (connections db) (routers db) (ixp_sessions db) (now db) (writes db).

Definition set_bgp_groups (l : list BGPGroup.t) (db : DB) : DB :=
  mkDB (networks db) (netixlans db) (ixlan_prefixes db) (autonomous_systems db)
       l (direct_sessions db) (internet_exchanges db)
       (connections db) (routers db) (ixp_sessions db) (now db) (writes db).

Definition set_direct_sessions (l : list DirectPeeringSession.t) (db : DB) : DB :=
  mkDB (networks db) (netixlans db) (ixlan_prefixes db) (autonomous_systems db)
       (bgp_groups db) l (internet_exchanges db)
       (connections db) (routers db) (ixp_sessions db) (now db) (writes db).

Definition set_internet_exchanges (l : list InternetExchange.t) (db : DB) : DB :=
  mkDB (networks db) (netixlans db) (ixlan_prefixes db) (autonomous_systems db)
       (bgp_groups db) (direct_sessions db) l
       (connections db) (routers db) (ixp_sessions db) (now db) (writes db).

Definition set_ixp_sessions (l : list InternetExchangePeeringSession.t)
           (db : DB) : DB :=
  mkDB (networks db) (netixlans db) (ixlan_prefixes db) (autonomous_systems db)
       (bgp_groups db) (direct_sessions db) (internet_exchanges db)
       (connections db) (routers db) l (now db) (writes db).

(** The clock moves between two calls, by the environment. *)
Definition set_now (t : Z) (db : DB) : DB :=
  mkDB (networks db) (netixlans db) (ixlan_prefixes db) (autonomous_systems db)
       (bgp_groups db) (direct_sessions db) (internet_exchanges db)
       (connections db) (routers db) (ixp_sessions db) t (writes db).

(** [obj.save()] of a row that exists: the row with the object's key is
    replaced by the object. *)
Definition replace_row {A : Type} (key : A -> Z) (obj : A) (table : list A)
  : list A :=
  List.map (fun row => if key row =? key obj then obj else row) table.

Definition BGPGroup_save (self : BGPGroup.t) : M unit :=
  fun db =>
    (Ok tt, log_write (SaveBGPGroup (BGPGroup.pk self))
              (set_bgp_groups (replace_row BGPGroup.pk self (bgp_groups db)) db)).

(** Modelled from the spec: the prefix counters of a session are
    "non-negative integers" (columns of [BGPSession], declared outside the
    files at hand).  The database refuses a row with a negative counter:
    [save()] raises [IntegrityError] and writes nothing. *)
Definition counters_storable (received advertised : Z) : bool :=
  (0 <=? received) && (0 <=? advertised).

Definition DirectPeeringSession_save (self : DirectPeeringSession.t) : M unit :=
  fun db =>
    if counters_storable (DirectPeeringSession.received_prefix_count self)
                         (DirectPeeringSession.advertised_prefix_count self)
    then
      (Ok tt, log_write (SaveDirectPeeringSession (DirectPeeringSession.pk self))
                (set_direct_sessions
                   (replace_row DirectPeeringSession.pk self (direct_sessions db))
                   db))
    else (Raise IntegrityError, db).

Definition InternetExchange_save (self : InternetExchange.t) : M unit :=
  fun db =>
    (Ok tt, log_write (SaveInternetExchange (InternetExchange.pk self))
              (set_internet_exchanges
                 (replace_row InternetExchange.pk self (internet_exchanges db)) db)).

Definition InternetExchangePeeringSession_save
           (self : InternetExchangePeeringSession.t) : M unit :=
  fun db =>
    if counters_storable
         (InternetExchangePeeringSession.received_prefix_count self)
         (InternetExchangePeeringSession.advertised_prefix_count self)
    then
      (Ok tt, log_write (SaveInternetExchangePeeringSession
                           (InternetExchangePeeringSession.pk self))
                (set_ixp_sessions
                   (replace_row InternetExchangePeeringSession.pk self
                                (ixp_sessions db)) db))
    else (Raise IntegrityError, db).

(** ** Reading a neighbor record *)

(** [session[key]]: [KeyError] when the key is missing, else the value
    ([None] or an integer). *)
Definition getitem (key : string) (v : pyint) : result (option Z) :=
  match v with
  | Absent => Raise (KeyError key)
  | PNone => Ok None
  | PInt z => Ok (Some z)
  end.

(** [count if count > 0 else 0]; comparing [None] with [0] is a
    [TypeError]. *)
Definition positive_or_zero (count : option Z) : result Z :=
  match count with
  | None => Raise TypeError
  | Some z => Ok (if z >? 0 then z else 0)
  end.

(** [count or 0]: [None] and [0] are falsy, any other integer is kept. *)
Definition or_zero (count : option Z) : Z :=
  match count with
  | None => 0
  | Some z => if z =? 0 then 0 else z
  end.

(** The stamp of [last_established_state]: [timezone.now()] when the state
    just assigned is [BGPState.ESTABLISHED], else the value it had. *)
Definition stamp (bgp_state : string) (t : Z) (previous : option Z) : option Z :=
  if String.eqb bgp_state BGPState.ESTABLISHED then Some t else previous.

(** ** The update step *)

(** The "update fields" block of [BGPGroup.poll_peering_sessions] (and,
    with the same expressions, of [DirectPeeringSession.poll]): the
    session object after the assignments, ready to be saved at time [t]. *)
Definition DirectPeeringSession_update_fields
           (peering_session : DirectPeeringSession.t)
           (session : neighbor_detail) (t : Z)
  : result DirectPeeringSession.t :=
  let state := lower (connection_state session) in
  match getitem "received_prefix_count" (received_prefix_count session) with
  | Raise e => Raise e
  | Ok received =>
  match getitem "advertised_prefix_count" (advertised_prefix_count session) with
  | Raise e => Raise e
  | Ok advertised =>
  match positive_or_zero received with
  | Raise e => Raise e
  | Ok received_count =>
  match positive_or_zero advertised with
  | Raise e => Raise e
  | Ok advertised_count =>
      Ok (DirectPeeringSession.mk
            (DirectPeeringSession.pk peering_session)
            (DirectPeeringSession.autonomous_system peering_session)
            (DirectPeeringSession.ip_address peering_session)
            (DirectPeeringSession.bgp_group peering_session)
            (DirectPeeringSession.router peering_session)
            state received_count advertised_count
            (stamp state t
               (DirectPeeringSession.last_established_state peering_session)))
  end end end end.

(** The "update fields" block of [InternetExchange.poll_peering_sessions]. *)
Definition InternetExchangePeeringSession_update_fields
           (ixp_session : InternetExchangePeeringSession.t)
           (session : neighbor_detail) (t : Z)
  : result InternetExchangePeeringSession.t :=
  let state := lower (connection_state session) in
  match getitem "received_prefix_count" (received_prefix_count session) with
  | Raise e => Raise e
  | Ok received =>
  match getitem "advertised_prefix_count" (advertised_prefix_count session) with
  | Raise e => Raise e
  | Ok advertised =>
      Ok (InternetExchangePeeringSession.mk
            (InternetExchangePeeringSession.pk ixp_session)
            (InternetExchangePeeringSession.autonomous_system ixp_session)
            (InternetExchangePeeringSession.ixp_connection ixp_session)
            (InternetExchangePeeringSession.ip_address ixp_session)
            (InternetExchangePeeringSession.is_route_server ixp_session)
            state (or_zero received) (or_zero advertised)
            (stamp state t
               (InternetExchangePeeringSession.last_established_state
                  ixp_session)))
  end end.

Section Polling.

(** The device adapter: what [router.get_bgp_neighbors_detail()] answers
    for the router with a given key; empty when the device could not be
    reached or reported nothing. *)
Variable get_bgp_neighbors_detail : Z -> neighbors_detail_t.

(** *** [BGPGroup.poll_peering_sessions] *)

(** The first loop: one adapter call per distinct router, answers kept in
    a dict keyed by router, in insertion order.  A session without a
    router makes [session.router.get_bgp_neighbors_detail()] an
    [AttributeError]. *)
Fixpoint gather_details (peering_sessions : list DirectPeeringSession.t)
         (bgp_neighbors_detail : list (Z * list neighbor_detail))
  : result (list (Z * list neighbor_detail)) :=
  match peering_sessions with
  | [] => Ok bgp_neighbors_detail
  | session :: rest =>
      match DirectPeeringSession.router session with
      | None => Raise AttributeError
      | Some router =>
          if existsb (fun e => fst e =? router) bgp_neighbors_detail
          then gather_details rest bgp_neighbors_detail
          else gather_details rest
                 (bgp_neighbors_detail
                  ++ [(router, bgp_neighbors_detail_as_list
                                 (get_bgp_neighbors_detail router))])
      end
  end.

(** The lookup of the match step. *)
Definition direct_lookup (self : BGPGroup.t) (router : Z)
           (ip : ipaddress.IPAddress) (s : DirectPeeringSession.t) : bool :=
  ipaddress.eqb (DirectPeeringSession.ip_address s) ip
  && fk_is (DirectPeeringSession.bgp_group s) (BGPGroup.pk self)
  && fk_is (DirectPeeringSession.router s) router.

(** Body of the inner loop, one live neighbor record. *)
Definition BGPGroup_poll_one (self : BGPGroup.t) (router : Z)
           (session : neighbor_detail) : M unit :=
  db <- get_db ;;
  match objects_get (direct_lookup self router (remote_address session))
                    (direct_sessions db) with
  | Raise DoesNotExist => ret tt
  | Raise e => raise e
  | Ok peering_session =>
      t <- timezone_now ;;
      updated <- lift (DirectPeeringSession_update_fields
                         peering_session session t) ;;
      DirectPeeringSession_save updated
  end.

Definition BGPGroup_stamp (self : BGPGroup.t) (t : Z) : BGPGroup.t :=
  BGPGroup.mk (BGPGroup.pk self) (BGPGroup.name self)
              (BGPGroup.check_bgp_session_states self) (Some t).

(** The block under [with transaction.atomic()]. *)
Definition BGPGroup_poll_block (self : BGPGroup.t)
           (bgp_neighbors_detail : list (Z * list neighbor_detail)) : M unit :=
  for_each bgp_neighbors_detail
           (fun entry => for_each (snd entry)
                                  (BGPGroup_poll_one self (fst entry))) ;;;
  t <- timezone_now ;;
  BGPGroup_save (BGPGroup_stamp self t).

Definition BGPGroup_poll_peering_sessions (self : BGPGroup.t) : M bool :=
  if negb (BGPGroup.check_bgp_session_states self) then ret false else
  db <- get_db ;;
  match List.filter (fun s => fk_is (DirectPeeringSession.bgp_group s)
                                    (BGPGroup.pk self))
                    (direct_sessions db) with
  | [] => ret false
  | peering_sessions =>
      bgp_neighbors_detail <- lift (gather_details peering_sessions []) ;;
      match bgp_neighbors_detail with
      | [] => ret false
      | _ =>
          atomic (BGPGroup_poll_block self bgp_neighbors_detail) ;;;
          ret true
      end
  end.

(** *** [InternetExchange.poll_peering_sessions] *)

(** [InternetExchange.get_connections]. *)
Definition InternetExchange_get_connections (self : InternetExchange.t)
           (db : DB) : list Connection.t :=
  List.filter (fun c => fk_is (Connection.internet_exchange_point c)
                              (InternetExchange.pk self))
              (connections db).

(** [InternetExchange.get_routers]: the routers whose key is the router
    of one of the connections. *)
Definition InternetExchange_get_routers (self : InternetExchange.t)
           (db : DB) : list Z :=
  List.filter
    (fun r => existsb (fun c => fk_is (Connection.router c) r)
                      (InternetExchange_get_connections self db))
    (routers db).

(** Body of the innermost loop, one live neighbor record. *)
Definition InternetExchange_poll_one (self : InternetExchange.t)
           (session : neighbor_detail) : M unit :=
  db <- get_db ;;
  match objects_get
          (fun s => ipaddress.eqb (InternetExchangePeeringSession.ip_address s)
                                  (remote_address session))
          (ixp_sessions db) with
  | Raise DoesNotExist => ret tt
  | Raise e => raise e
  | Ok ixp_session =>
      t <- timezone_now ;;
      updated <- lift (InternetExchangePeeringSession_update_fields
                         ixp_session session t) ;;
      InternetExchangePeeringSession_save updated
  end.

Definition InternetExchange_stamp (self : InternetExchange.t) (t : Z)
  : InternetExchange.t :=
  InternetExchange.mk (InternetExchange.pk self) (InternetExchange.name self)
                      (InternetExchange.peeringdb_ixlan self)
                      (InternetExchange.local_autonomous_system self)
                      (InternetExchange.check_bgp_session_states self)
                      (Some t).

(** Body of the loop over the VRFs of one router's answer: the sessions
    of every ASN of the VRF, then the save of the last-poll time. *)
Definition InternetExchange_poll_vrf (self : InternetExchange.t)
           (as_details : list (Z * list neighbor_detail)) : M unit :=
  for_each as_details
           (fun sessions => for_each (snd sessions)
                                     (InternetExchange_poll_one self)) ;;;
  t <- timezone_now ;;
  InternetExchange_save (InternetExchange_stamp self t).

(** The loop over the connected routers; [return False] inside it ends
    the method. *)
Fixpoint InternetExchange_poll_routers (self : InternetExchange.t)
         (connected_routers : list Z) : M bool :=
  match connected_routers with
  | [] => ret true
  | router :: rest =>
      match get_bgp_neighbors_detail router with
      | [] => ret false
      | bgp_neighbors_detail =>
          for_each bgp_neighbors_detail
                   (fun vrf => InternetExchange_poll_vrf self (snd vrf)) ;;;
          InternetExchange_poll_routers self rest
      end
  end.

Definition InternetExchange_poll_peering_sessions (self : InternetExchange.t)
  : M bool :=
  atomic (
    db <- get_db ;;
    let connected_routers := InternetExchange_get_routers self db in
    if Z.of_nat (List.length connected_routers) <? 0 then ret false
    else if negb (InternetExchange.check_bgp_session_states self) then ret false
    else InternetExchange_poll_routers self connected_routers).

End Polling.

(** ** Related objects *)

(** Following a foreign key: [None] when the key is null, the row when it
    exists, [DoesNotExist] when it dangles. *)
Definition related {A : Type} (key : A -> Z) (table : list A) (fk : option Z)
  : result (option A) :=
  match fk with
  | None => Ok None
  | Some k =>
      match List.find (fun row => key row =? k) table with
      | Some row => Ok (Some row)
      | None => Raise DoesNotExist
      end
  end.

(** Reading an attribute of a related object; of [None] it is an
    [AttributeError]. *)
Definition attr {A B : Type} (obj : result (option A)) (field : A -> B)
  : result B :=
  match obj with
  | Raise e => Raise e
  | Ok None => Raise AttributeError
  | Ok (Some row) => Ok (field row)
  end.

(** A key not used by any row of the table, for a row to be created. *)
Definition fresh_pk {A : Type} (key : A -> Z) (table : list A) : Z :=
  1 + List.fold_right (fun row m => Z.max (key row) m) 0 table.

(** ** [AutonomousSystem] *)

(** The [peeringdb_network] property: the cached network of this ASN, or
    [None]. *)
Definition AutonomousSystem_peeringdb_network (self : AutonomousSystem.t)
           (db : DB) : result (option Network.t) :=
  match objects_get (fun n => Network.asn n =? AutonomousSystem.asn self)
                    (networks db) with
  | Ok network => Ok (Some network)
  | Raise DoesNotExist => Ok None
  | Raise e => Raise e
  end.

Definition AutonomousSystem_create (obj : AutonomousSystem.t) : M unit :=
  fun db =>
    (Ok tt, log_write (CreateAutonomousSystem (AutonomousSystem.pk obj))
              (set_autonomous_systems (autonomous_systems db ++ [obj]) db)).

(** [AutonomousSystem.create_from_peeringdb]: [None] without a cached
    network; else the local record of that ASN, created when missing
    ([get_or_create]). *)
Definition AutonomousSystem_create_from_peeringdb (asn : Z)
  : M (option AutonomousSystem.t) :=
  db <- get_db ;;
  match objects_get (fun n => Network.asn n =? asn) (networks db) with
  | Raise DoesNotExist => ret None
  | Raise e => raise e
  | Ok network =>
      match objects_get (fun a => AutonomousSystem.asn a =? Network.asn network)
                        (autonomous_systems db) with
      | Ok autonomous_system => ret (Some autonomous_system)
      | Raise DoesNotExist =>
          let autonomous_system :=
            AutonomousSystem.mk
              (fresh_pk AutonomousSystem.pk (autonomous_systems db))
              (Network.asn network) (Network.name network)
              (Network.irr_as_set network)
              (Network.info_prefixes6 network)
              (Network.info_prefixes4 network) in
          AutonomousSystem_create autonomous_system ;;;
          ret (Some autonomous_system)
      | Raise e => raise e
      end
  end.

(** ** [InternetExchange]: import and available peers *)

(** [InternetExchange.get_prefixes]. *)
Definition InternetExchange_get_prefixes (self : InternetExchange.t) (db : DB)
  : list IXLanPrefix.t :=
  match InternetExchange.peeringdb_ixlan self with
  | None => []
  | Some ixlan =>
      List.filter (fun p => IXLanPrefix.ixlan p =? ixlan) (ixlan_prefixes db)
  end.

Definition max_prefixlen (v : ipaddress.ip_version) : N :=
  match v with
  | ipaddress.V4 => 32
  | ipaddress.V6 => 128
  end.

(** [ip_address in p.prefix]: same family and equal network bits. *)
Definition prefix_contains (p : IXLanPrefix.t) (ip : ipaddress.IPAddress)
  : bool :=
  let host_bits := (max_prefixlen (IXLanPrefix.version p)
                    - IXLanPrefix.prefixlen p)%N in
  ipaddress.ip_version_eqb (IXLanPrefix.version p) (ipaddress.version ip)
  && N.eqb (N.shiftl (N.shiftr (ipaddress.ip_int ip) host_bits) host_bits)
           (IXLanPrefix.network_address p).

(** The local function [is_valid] of [import_sessions]. *)
Definition is_valid (allowed_prefixes : list IXLanPrefix.t)
           (ip_address : ipaddress.IPAddress) : bool :=
  existsb (fun p =>
             ipaddress.ip_version_eqb (IXLanPrefix.version p)
                                      (ipaddress.version ip_address)
             && prefix_contains p ip_address)
          allowed_prefixes.

Definition InternetExchangePeeringSession_create
           (obj : InternetExchangePeeringSession.t) : M unit :=
  fun db =>
    (Ok tt, log_write (CreateInternetExchangePeeringSession
                         (InternetExchangePeeringSession.pk obj))
              (set_ixp_sessions (ixp_sessions db ++ [obj]) db)).

(** The lookup [ixp_connection=connection, ip_address=ip]. *)
Definition import_lookup (connection : Connection.t)
           (ip : ipaddress.IPAddress) (s : InternetExchangePeeringSession.t)
  : bool :=
  fk_is (InternetExchangePeeringSession.ixp_connection s)
        (Connection.pk connection)
  && ipaddress.eqb (InternetExchangePeeringSession.ip_address s) ip.

(** The loop variables of [import_sessions]. *)
Record import_state : Type := mkImport {
  session_number : Z;
  asn_number : Z;
  ignored_autonomous_systems : list Z
}.

(** Body of the loop of [import_sessions], one live neighbor. *)
Definition import_one (allowed_prefixes : list IXLanPrefix.t)
           (connection : Connection.t) (st : import_state)
           (session : bgp_peer) : M import_state :=
  let ip := ip_address session in
  if negb (is_valid allowed_prefixes ip) then ret st else
  let remote_asn := remote_asn session in
  db <- get_db ;;
  match objects_get (import_lookup connection ip) (ixp_sessions db) with
  | Ok _ => ret st
  | Raise DoesNotExist =>
      autonomous_system <- AutonomousSystem_create_from_peeringdb remote_asn ;;
      match autonomous_system with
      | Some a =>
          db' <- get_db ;;
          InternetExchangePeeringSession_create
            (InternetExchangePeeringSession.mk
               (fresh_pk InternetExchangePeeringSession.pk (ixp_sessions db'))
               (AutonomousSystem.pk a) (Some (Connection.pk connection)) ip
               false "" 0 0 None) ;;;
          ret (mkImport (session_number st + 1) (asn_number st + 1)
                        (ignored_autonomous_systems st))
      | None =>
          ret (mkImport (session_number st) (asn_number st)
                 (if existsb (Z.eqb remote_asn) (ignored_autonomous_systems st)
                  then ignored_autonomous_systems st
                  else ignored_autonomous_systems st ++ [remote_asn]))
      end
  | Raise e => raise e
  end.

Fixpoint import_loop (allowed_prefixes : list IXLanPrefix.t)
         (connection : Connection.t) (sessions : list bgp_peer)
         (st : import_state) : M import_state :=
  match sessions with
  | [] => ret st
  | session :: rest =>
      st' <- import_one allowed_prefixes connection st session ;;
      import_loop allowed_prefixes connection rest st'
  end.

Section SessionImport.

(** The device adapter: the raw answer of [get_bgp_neighbors] of the
    router with a given key, [None] when the device could not be
    reached. *)
Variable device_get_bgp_neighbors : Z -> option napalm_dict_t.

(** [Router.get_bgp_neighbors]. *)
Definition Router_get_bgp_neighbors (router : Z) : list bgp_peer :=
  _napalm_bgp_neighbors_to_peer_list (device_get_bgp_neighbors router).

(** [InternetExchange.import_sessions]. *)
Definition InternetExchange_import_sessions (self : InternetExchange.t)
           (connection : Connection.t) : M (Z * Z) :=
  atomic (
    db <- get_db ;;
    let allowed_prefixes := InternetExchange_get_prefixes self db in
    match Connection.router connection with
    | None => raise AttributeError
    | Some router =>
        let sessions := Router_get_bgp_neighbors router in
        st <- import_loop allowed_prefixes connection sessions
                          (mkImport 0 0 []) ;;
        ret (session_number st, asn_number st)
    end).

End SessionImport.

(** [InternetExchange.get_peering_sessions]: the sessions whose connection
    is one of this IXP's. *)
Definition InternetExchange_get_peering_sessions (self : InternetExchange.t)
           (db : DB) : list InternetExchangePeeringSession.t :=
  List.filter
    (fun s => existsb
                (fun c => fk_is (InternetExchangePeeringSession.ixp_connection s)
                                (Connection.pk c))
                (List.filter
                   (fun c => fk_is (Connection.internet_exchange_point c)
                                   (InternetExchange.pk self))
                   (connections db)))
    (ixp_sessions db).

(** The addresses of one family among the existing sessions. *)
Definition session_ips (v : ipaddress.ip_version)
           (existing_sessions : list InternetExchangePeeringSession.t)
  : list ipaddress.IPAddress :=
  List.filter (fun ip => ipaddress.ip_version_eqb (ipaddress.version ip) v)
              (List.map InternetExchangePeeringSession.ip_address
                        existing_sessions).

(** [Q(field__in=values)] on a nullable column: a null is in no list. *)
Definition Q_in (field : option ipaddress.IPAddress)
           (values : list ipaddress.IPAddress) : bool :=
  match field with
  | None => false
  | Some ip => existsb (ipaddress.eqb ip) values
  end.

(** The filter of [get_available_peers]. *)
Definition available_filter (local_asn ixlan : Z)
           (ipv6_sessions ipv4_sessions : list ipaddress.IPAddress)
           (m : NetworkIXLan.t) : bool :=
  negb (NetworkIXLan.asn m =? local_asn)
  && (NetworkIXLan.ixlan m =? ixlan)
  && (negb (Q_in (NetworkIXLan.ipaddr6 m) ipv6_sessions)
      || negb (Q_in (NetworkIXLan.ipaddr4 m) ipv4_sessions)).

(** [order_by("asn")], as a stable insertion sort. *)
Fixpoint insert_by_asn (m : NetworkIXLan.t) (l : list NetworkIXLan.t)
  : list NetworkIXLan.t :=
  match l with
  | [] => [m]
  | x :: rest =>
      if NetworkIXLan.asn m <? NetworkIXLan.asn x then m :: l
      else x :: insert_by_asn m rest
  end.

Definition order_by_asn (l : list NetworkIXLan.t) : list NetworkIXLan.t :=
  List.fold_right insert_by_asn [] l.

(** [InternetExchange.get_available_peers]. *)
Definition InternetExchange_get_available_peers (self : InternetExchange.t)
           (db : DB) : result (list NetworkIXLan.t) :=
  match InternetExchange.peeringdb_ixlan self with
  | None => Ok []
  | Some ixlan =>
      let existing_sessions := InternetExchange_get_peering_sessions self db in
      let ipv6_sessions := session_ips ipaddress.V6 existing_sessions in
      let ipv4_sessions := session_ips ipaddress.V4 existing_sessions in
      match attr (related AutonomousSystem.pk (autonomous_systems db)
                          (InternetExchange.local_autonomous_system self))
                 AutonomousSystem.asn with
      | Raise e => Raise e
      | Ok local_asn =>
          Ok (order_by_asn
                (List.filter
                   (available_filter local_asn ixlan ipv6_sessions ipv4_sessions)
                   (netixlans db)))
      end
  end.

(** ** [InternetExchangePeeringSession]: abandonment *)

(** [Connection.linked_to_peeringdb]: the connection has a PeeringDB member
    record (see [InternetExchange.link_to_peeringdb], which reads
    [connection.peeringdb_netixlan] under this test). *)
Definition Connection_linked_to_peeringdb (self : Connection.t) : bool :=
  match Connection.peeringdb_netixlan self with
  | Some _ => true
  | None => false
  end.

(** [InternetExchange.linked_to_peeringdb]. *)
Definition InternetExchange_linked_to_peeringdb (self : InternetExchange.t)
  : bool :=
  match InternetExchange.peeringdb_ixlan self with
  | Some _ => true
  | None => false
  end.

(** The lookup [ipaddr<version>=str(self.ip_address)]. *)
Definition member_lookup (ip : ipaddress.IPAddress) (m : NetworkIXLan.t)
  : bool :=
  match ipaddress.version ip with
  | ipaddress.V6 => match NetworkIXLan.ipaddr6 m with
                    | Some a => ipaddress.eqb a ip
                    | None => false
                    end
  | ipaddress.V4 => match NetworkIXLan.ipaddr4 m with
                    | Some a => ipaddress.eqb a ip
                    | None => false
                    end
  end.

(** [InternetExchangePeeringSession.exists_in_peeringdb]. *)
Definition InternetExchangePeeringSession_exists_in_peeringdb
           (self : InternetExchangePeeringSession.t) (db : DB) : result bool :=
  match objects_get
          (member_lookup (InternetExchangePeeringSession.ip_address self))
          (netixlans db) with
  | Ok _ => Ok true
  | Raise DoesNotExist => Ok false
  | Raise e => Raise e
  end.

Definition is_none {A : Type} (o : option A) : bool :=
  match o with
  | None => true
  | Some _ => false
  end.

(** [a or b] with Python's short circuit: [b] is evaluated only when [a]
    is false. *)
Definition por (a : result bool) (b : result bool) : result bool :=
  match a with
  | Raise e => Raise e
  | Ok true => Ok true
  | Ok false => b
  end.

Definition rmap {A B : Type} (f : A -> B) (r : result A) : result B :=
  match r with
  | Ok a => Ok (f a)
  | Raise e => Raise e
  end.

Definition rbind {A B : Type} (r : result A) (f : A -> result B) : result B :=
  match r with
  | Ok a => f a
  | Raise e => Raise e
  end.

(** [InternetExchangePeeringSession.is_abandoned]. *)
Definition InternetExchangePeeringSession_is_abandoned
           (self : InternetExchangePeeringSession.t) (db : DB) : result bool :=
  let ixp_connection :=
    related Connection.pk (connections db)
            (InternetExchangePeeringSession.ixp_connection self) in
  let internet_exchange_point :=
    rbind (attr ixp_connection Connection.internet_exchange_point)
          (related InternetExchange.pk (internet_exchanges db)) in
  let autonomous_system :=
    related AutonomousSystem.pk (autonomous_systems db)
            (Some (InternetExchangePeeringSession.autonomous_system self)) in
  rmap negb
    (por (rmap negb (attr ixp_connection Connection_linked_to_peeringdb))
    (por (rmap negb (attr internet_exchange_point
                          InternetExchange.check_bgp_session_states))
    (por (rmap is_none
               (rbind (attr autonomous_system (fun a => a))
                      (fun a => AutonomousSystem_peeringdb_network a db)))
    (por (InternetExchangePeeringSession_exists_in_peeringdb self db)
         (Ok (negb
                (existsb
                   (String.eqb (InternetExchangePeeringSession.bgp_state self))
                   [BGPState.IDLE; BGPState.ACTIVE]))))))).

(** * Scenarios and predicates

    The concrete databases and device answers the properties are
    evaluated on (two exchanges, two routers, the neighbors 203.0.113.1
    and 203.0.113.2 of AS 65001), and the predicates the statements use. *)

(** A key is canonical when it is the text [str()] gives back for the
    address it denotes. *)
Definition canonical (k : string) : Prop :=
  forall a, ipaddress.ip_address k = Some a -> ipaddress.str a = k.

(** A router's answer with one IPv6 neighbor seen in two VRFs, its address
    written with capital hexadecimal digits. *)
Definition duplicate_input : napalm_dict_t :=
  [("default", mkVrf [("2001:DB8::1", mkDetails (Some 65001))]);
   ("customers", mkVrf [("2001:DB8::1", mkDetails (Some 65001))])].

Definition ip_203_0_113_1 : ipaddress.IPAddress :=
  ipaddress.mkIP ipaddress.V4 3405803777.

Definition ip_203_0_113_2 : ipaddress.IPAddress :=
  ipaddress.mkIP ipaddress.V4 3405803778.

Definition ix_a : InternetExchange.t :=
  InternetExchange.mk 1 "ix-a" (Some 7) (Some 1) true None.

Definition ix_b : InternetExchange.t :=
  InternetExchange.mk 2 "ix-b" (Some 8) (Some 1) true None.

(** A database with the two exchanges, routers 10 and 20, the given
    connections and IXP sessions, at time 100. *)
Definition ixp_world (conns : list Connection.t)
           (sessions : list InternetExchangePeeringSession.t) : DB :=
  mkDB [] [] [] [] [] [] [ix_a; ix_b] conns [10; 20] sessions 100 [].

(** A stored IXP session of AS 1, idle, never seen established. *)
Definition idle_session (pk connection : Z) (ip : ipaddress.IPAddress)
  : InternetExchangePeeringSession.t :=
  InternetExchangePeeringSession.mk pk 1 (Some connection) ip false "idle"
                                    0 0 None.

(** A live neighbor reported as established. *)
Definition live (ip : ipaddress.IPAddress) (received advertised : pyint)
  : neighbor_detail :=
  mkDetail ip "Established" received advertised.

(** Router 10 reports 203.0.113.1 in one VRF; router 20 reports nothing. *)
Definition one_neighbor_on_10 (router : Z) : neighbors_detail_t :=
  if router =? 10
  then [("global", [(65001, [live ip_203_0_113_1 (PInt 10) (PInt 5)])])]
  else [].

(** Router 10 is attached to ix-a, router 20 to ix-b; the only stored
    session with address 203.0.113.1 is on ix-b. *)
Definition foreign_session_db : DB :=
  ixp_world [Connection.mk 1 (Some 1) (Some 10) (Some 70);
             Connection.mk 2 (Some 2) (Some 20) (Some 80)]
            [idle_session 1 2 ip_203_0_113_1].

Definition group_1 : BGPGroup.t := BGPGroup.mk 1 "transit" true None.

(** One direct session of group 1 on router 10, idle, at time 100. *)
Definition direct_db : DB :=
  mkDB [] [] [] [] [group_1]
       [DirectPeeringSession.mk 1 1 ip_203_0_113_1 (Some 1) (Some 10)
                                "idle" 0 0 None]
       [] [] [10] [] 100 [].

(** The database after a first poll of group 1. *)
Definition direct_db_polled_once : DB :=
  snd (BGPGroup_poll_peering_sessions one_neighbor_on_10 group_1 direct_db).

(** The same snapshot applied a second time, at time 200. *)
Definition direct_db_polled_twice : DB :=
  snd (BGPGroup_poll_peering_sessions one_neighbor_on_10 group_1
                                      (set_now 200 direct_db_polled_once)).

(** Router 10 reports 203.0.113.1 with the given counts. *)
Definition counts_on_10 (received advertised : pyint) (router : Z)
  : neighbors_detail_t :=
  if router =? 10
  then [("global", [(65001, [live ip_203_0_113_1 received advertised])])]
  else [].

(** Router 10 is attached to ix-a and the session 203.0.113.1 is on that
    connection. *)
Definition own_session_db : DB :=
  ixp_world [Connection.mk 1 (Some 1) (Some 10) (Some 70)]
            [idle_session 1 1 ip_203_0_113_1].

(** What a report in state [state], handled at time [t], does to a stamp
    [before] of [last_established_state]: it becomes [t] when the state,
    lower-cased, is "established", and keeps its value otherwise. *)
Definition stamped (state : string) (t : Z) (before after : option Z) : Prop :=
  (lower state = "established" -> after = Some t)
  /\ (lower state <> "established" -> after = before).

(** The writes of a computation: the rows it appended to the log. *)
Definition appends (allowed : write -> Prop) (db db' : DB) : Prop :=
  exists ws, writes db' = (writes db ++ ws)%list /\ Forall allowed ws.

Definition is_direct_session_save (w : write) : Prop :=
  exists pk, w = SaveDirectPeeringSession pk.

(** Router 10 reports 203.0.113.1 in one VRF and 203.0.113.2 in another. *)
Definition two_vrfs_on_10 (router : Z) : neighbors_detail_t :=
  if router =? 10
  then [("global", [(65001, [live ip_203_0_113_1 (PInt 10) (PInt 5)])]);
        ("customers", [(65001, [live ip_203_0_113_2 (PInt 7) (PInt 3)])])]
  else [].

(** Router 10 is attached to ix-a, with both sessions on that connection. *)
Definition two_sessions_db : DB :=
  ixp_world [Connection.mk 1 (Some 1) (Some 10) (Some 70)]
            [idle_session 1 1 ip_203_0_113_1; idle_session 2 1 ip_203_0_113_2].

(** Router 20 reports 203.0.113.1; router 10 reports nothing. *)
Definition one_neighbor_on_20 (router : Z) : neighbors_detail_t :=
  if router =? 20
  then [("global", [(65001, [live ip_203_0_113_1 (PInt 10) (PInt 5)])])]
  else [].

(** Routers 10 and 20 are both attached to ix-a; the session
    203.0.113.1 is on router 20's connection. *)
Definition session_on_20_db : DB :=
  ixp_world [Connection.mk 1 (Some 1) (Some 10) (Some 70);
             Connection.mk 2 (Some 1) (Some 20) (Some 71)]
            [idle_session 1 2 ip_203_0_113_1].

(** Routers 10 and 20 are both attached to ix-a; the session
    203.0.113.1 is on router 10's connection. *)
Definition session_on_10_db : DB :=
  ixp_world [Connection.mk 1 (Some 1) (Some 10) (Some 70);
             Connection.mk 2 (Some 1) (Some 20) (Some 71)]
            [idle_session 1 1 ip_203_0_113_1].

Definition connection_1 : Connection.t :=
  Connection.mk 1 (Some 1) (Some 10) (Some 70).

Definition as_64500 : AutonomousSystem.t :=
  AutonomousSystem.mk 1 64500 "local" "" 0 0.

Definition as_65001 : AutonomousSystem.t :=
  AutonomousSystem.mk 2 65001 "Example" "AS-EXAMPLE" 10 100.

(** PeeringDB knows AS 65001 and the prefix 203.0.113.0/24 of ix-a's LAN;
    router 10 is attached to ix-a and no session is stored. *)
Definition import_db (local_records : list AutonomousSystem.t) : DB :=
  mkDB [Network.mk 65001 "Example" "AS-EXAMPLE" 10 100] []
       [IXLanPrefix.mk 7 ipaddress.V4 3405803776 24]
       local_records [] [] [ix_a; ix_b] [connection_1] [10; 20] [] 100 [].

(** Router 10 has two neighbors of AS 65001 on the exchange LAN, one
    neighbor outside it and one neighbor of an AS unknown to PeeringDB. *)
Definition import_neighbors (router : Z) : option napalm_dict_t :=
  if router =? 10
  then Some [("global",
              mkVrf [("203.0.113.1", mkDetails (Some 65001));
                     ("203.0.113.2", mkDetails (Some 65001));
                     ("198.51.100.5", mkDetails (Some 65001));
                     ("203.0.113.9", mkDetails (Some 65009))])]
  else None.

(** A neighbor the loop body passes over without a write and without a
    count: its address is outside the allowed prefixes, or its session on
    this connection is stored, or its AS is unknown to PeeringDB. *)
Definition quiet (allowed : list IXLanPrefix.t) (connection : Connection.t)
           (db : DB) (n : bgp_peer) : Prop :=
  is_valid allowed (ip_address n) = false
  \/ (exists s, List.filter (import_lookup connection (ip_address n))
                            (ixp_sessions db) = [s])
  \/ (List.filter (import_lookup connection (ip_address n)) (ixp_sessions db)
      = []
      /\ objects_get (fun x => Network.asn x =? remote_asn n) (networks db)
         = Raise DoesNotExist).

(** An idle session of AS 65001 (local record 2) on connection 1, at an
    address without PeeringDB member record. *)
Definition idle_65001 : InternetExchangePeeringSession.t :=
  InternetExchangePeeringSession.mk 1 2 (Some 1) ip_203_0_113_1 false "idle"
                                    0 0 None.

(** PeeringDB knows AS 65001 and has no member record; the exchange polls
    session states; the exchange and the connection are linked to
    PeeringDB as given. *)
Definition abandonment_db (ixlan netixlan : option Z) : DB :=
  mkDB [Network.mk 65001 "Example" "AS-EXAMPLE" 10 100] [] []
       [as_64500; as_65001] [] []
       [InternetExchange.mk 1 "ix-a" ixlan (Some 1) true None]
       [Connection.mk 1 (Some 1) (Some 10) netixlan] [10] [idle_65001] 100 [].

(** Reduction of the short-circuit disjunction of [is_abandoned] once its
    next operand is known. *)
Ltac reduce_or := cbn [rmap por rbind attr negb is_none].






(** ix-a has a v4 session with 203.0.113.1 of AS 65001; PeeringDB lists
    that member with a v4 and a v6 address, the local AS 64500 itself and
    a member of another exchange. *)
Definition member_65001 : NetworkIXLan.t :=
  NetworkIXLan.mk 65001 7
    (Some (ipaddress.mkIP ipaddress.V6 42540766411282592856903984951653826561))
    (Some ip_203_0_113_1).

Definition peers_db : DB :=
  mkDB [Network.mk 65001 "Example" "AS-EXAMPLE" 10 100]
       [NetworkIXLan.mk 65002 7 None (Some ip_203_0_113_2);
        member_65001;
        NetworkIXLan.mk 64500 7 None None;
        NetworkIXLan.mk 65003 8 None None]
       [] [as_64500; as_65001] [] [] [ix_a; ix_b] [connection_1] [10; 20]
       [InternetExchangePeeringSession.mk 1 2 (Some 1) ip_203_0_113_1 false
                                          "established" 10 5 (Some 50)]
       100 [].


(** * Predicates of the further properties *)

(** What a poll leaves alone: the PeeringDB cache, the AS records, the
    connections, the routers and the clock are unchanged, and no group,
    exchange or session row is created or removed. *)
Definition keeps_rows (db db' : DB) : Prop :=
  networks db' = networks db
  /\ netixlans db' = netixlans db
  /\ ixlan_prefixes db' = ixlan_prefixes db
  /\ autonomous_systems db' = autonomous_systems db
  /\ connections db' = connections db
  /\ routers db' = routers db
  /\ now db' = now db
  /\ List.map BGPGroup.pk (bgp_groups db') = List.map BGPGroup.pk (bgp_groups db)
  /\ List.map DirectPeeringSession.pk (direct_sessions db')
     = List.map DirectPeeringSession.pk (direct_sessions db)
  /\ List.map InternetExchange.pk (internet_exchanges db')
     = List.map InternetExchange.pk (internet_exchanges db)
  /\ List.map InternetExchangePeeringSession.pk (ixp_sessions db')
     = List.map InternetExchangePeeringSession.pk (ixp_sessions db).


(** The direct sessions a computation may not touch: the keys are kept
    and, keys being distinct, every session satisfying [spared] is still
    stored as it was. *)
Definition spares_direct (spared : DirectPeeringSession.t -> Prop)
           (db db' : DB) : Prop :=
  List.map DirectPeeringSession.pk (direct_sessions db')
  = List.map DirectPeeringSession.pk (direct_sessions db)
  /\ (NoDup (List.map DirectPeeringSession.pk (direct_sessions db)) ->
      forall s, In s (direct_sessions db) -> spared s ->
                In s (direct_sessions db')).

(** The same for the IXP sessions. *)
Definition spares_ixp (spared : InternetExchangePeeringSession.t -> Prop)
           (db db' : DB) : Prop :=
  List.map InternetExchangePeeringSession.pk (ixp_sessions db')
  = List.map InternetExchangePeeringSession.pk (ixp_sessions db)
  /\ (NoDup (List.map InternetExchangePeeringSession.pk (ixp_sessions db)) ->
      forall s, In s (ixp_sessions db) -> spared s ->
                In s (ixp_sessions db')).

(** No two stored sessions of a connection have one address. *)
Definition unique_on (connection : Connection.t) (db : DB) : Prop :=
  forall ip,
    (List.length (List.filter (import_lookup connection ip) (ixp_sessions db))
     <= 1)%nat.


(** * More of [Router], [InternetExchange] and the sessions *)

(** ** The fetch step of [BGPGroup.poll_peering_sessions], call by call *)

(** The first loop of [BGPGroup.poll_peering_sessions] once more, this
    time with the calls it makes: beside the dict, the routers whose
    [get_bgp_neighbors_detail()] was called, one entry per call, oldest
    first.  A router already in the dict is not asked. *)
Fixpoint gather_details_asking
         (get_bgp_neighbors_detail : Z -> neighbors_detail_t)
         (peering_sessions : list DirectPeeringSession.t)
         (bgp_neighbors_detail : list (Z * list neighbor_detail))
         (asked : list Z)
  : result (list (Z * list neighbor_detail)) * list Z :=
  match peering_sessions with
  | [] => (Ok bgp_neighbors_detail, asked)
  | session :: rest =>
      match DirectPeeringSession.router session with
      | None => (Raise AttributeError, asked)
      | Some router =>
          if existsb (fun e => fst e =? router) bgp_neighbors_detail
          then gather_details_asking get_bgp_neighbors_detail rest
                                     bgp_neighbors_detail asked
          else
            let detail := get_bgp_neighbors_detail router in
            gather_details_asking get_bgp_neighbors_detail rest
              (bgp_neighbors_detail
               ++ [(router, bgp_neighbors_detail_as_list detail)])%list
              (asked ++ [router])%list
      end
  end.

(** ** [Router.find_bgp_neighbor_detail] *)

(** A neighbor record as the device gives it, with the four keys the code
    reads; the address is still text. *)
Record napalm_neighbor : Type := mkNeighbor {
  neighbor_remote_address : string;
  neighbor_connection_state : string;
  neighbor_received_prefix_count : pyint;
  neighbor_advertised_prefix_count : pyint
}.

(** What [get_..._bgp_neighbors_detail] holds before it looks for one
    neighbor: the device's dict, or something that is no dict (the empty
    list it starts from when the device could not be opened). *)
Inductive napalm_answer : Type :=
| NotADict
| Dict (d : list (string * list (Z * list napalm_neighbor))).

(** The [ip_address] argument: text or an address object. *)
Inductive address_arg : Type :=
| AsText (s : string)
| AsAddress (a : ipaddress.IPAddress).

(** The three nested loops of [find_bgp_neighbor_detail]; [Ok None] is a
    loop that ended without [return]. *)
Fixpoint find_in_neighbors (ip : ipaddress.IPAddress)
         (neighbors : list napalm_neighbor) : result (option napalm_neighbor) :=
  match neighbors with
  | [] => Ok None
  | neighbor :: rest =>
      match ipaddress.ip_address (neighbor_remote_address neighbor) with
      | None => Raise ValueError
      | Some neighbor_ip_address =>
          if ipaddress.eqb ip neighbor_ip_address then Ok (Some neighbor)
          else find_in_neighbors ip rest
      end
  end.

Fixpoint find_in_asns (ip : ipaddress.IPAddress)
         (asn : list (Z * list napalm_neighbor))
  : result (option napalm_neighbor) :=
  match asn with
  | [] => Ok None
  | neighbors :: rest =>
      match find_in_neighbors ip (snd neighbors) with
      | Ok None => find_in_asns ip rest
      | found_or_raised => found_or_raised
      end
  end.

Fixpoint find_in_vrfs (ip : ipaddress.IPAddress)
         (bgp_neighbors : list (string * list (Z * list napalm_neighbor)))
  : result (option napalm_neighbor) :=
  match bgp_neighbors with
  | [] => Ok None
  | asn :: rest =>
      match find_in_asns ip (snd asn) with
      | Ok None => find_in_vrfs ip rest
      | found_or_raised => found_or_raised
      end
  end.

(** [Router.find_bgp_neighbor_detail]. *)
Definition Router_find_bgp_neighbor_detail (bgp_neighbors : napalm_answer)
           (ip_address : address_arg) : result (option napalm_neighbor) :=
  match bgp_neighbors with
  | NotADict => Ok None
  | Dict d =>
      match ip_address with
      | AsAddress a => find_in_vrfs a d
      | AsText s =>
          match ipaddress.ip_address s with
          | Some a => find_in_vrfs a d
          | None => Raise ValueError
          end
      end
  end.

(** The records of a VRF -> ASN -> records dict in iteration order, as
    [bgp_neighbors_detail_as_list] lists them. *)
Definition records_of {A : Type} (d : list (string * list (Z * list A)))
  : list A :=
  flat_map (fun vrf => flat_map (fun asn => snd asn) (snd vrf)) d.

(** ** [InternetExchangePeeringSession.poll] *)

(** The assignments of [InternetExchangePeeringSession.poll] to [self],
    from the neighbor found, at time [t]. *)
Definition InternetExchangePeeringSession_poll_fields
           (self : InternetExchangePeeringSession.t)
           (bgp_neighbor_detail : napalm_neighbor) (t : Z)
  : result InternetExchangePeeringSession.t :=
  match getitem "received_prefix_count"
                (neighbor_received_prefix_count bgp_neighbor_detail) with
  | Raise e => Raise e
  | Ok received =>
  match getitem "advertised_prefix_count"
                (neighbor_advertised_prefix_count bgp_neighbor_detail) with
  | Raise e => Raise e
  | Ok advertised =>
  let bgp_state := lower (neighbor_connection_state bgp_neighbor_detail) in
  match positive_or_zero received with
  | Raise e => Raise e
  | Ok received_count =>
  match positive_or_zero advertised with
  | Raise e => Raise e
  | Ok advertised_count =>
      Ok (InternetExchangePeeringSession.mk
            (InternetExchangePeeringSession.pk self)
            (InternetExchangePeeringSession.autonomous_system self)
            (InternetExchangePeeringSession.ixp_connection self)
            (InternetExchangePeeringSession.ip_address self)
            (InternetExchangePeeringSession.is_route_server self)
            bgp_state received_count advertised_count
            (stamp bgp_state t
               (InternetExchangePeeringSession.last_established_state self)))
  end end end end.

Section SessionPoll.

(** The platform of the router with a given key ([None]: no platform). *)
Variable router_platform : Z -> option Z.

(** What the router with a given key holds as neighbor detail when asked:
    its device's dict, or no dict when the device could not be opened. *)
Variable device_bgp_neighbors_detail : Z -> napalm_answer.

(** [Router.get_bgp_neighbors_detail(ip_address=...)] with an address
    object, which is never falsy: the one neighbor sought. *)
Definition Router_get_bgp_neighbor_detail (router : Z)
           (ip_address : ipaddress.IPAddress)
  : result (option napalm_neighbor) :=
  Router_find_bgp_neighbor_detail (device_bgp_neighbors_detail router)
                                  (AsAddress ip_address).

(** [InternetExchangePeeringSession.poll]. *)
Definition InternetExchangePeeringSession_poll
           (self : InternetExchangePeeringSession.t) : M bool :=
  db <- get_db ;;
  router <- lift (attr (related Connection.pk (connections db)
                                (InternetExchangePeeringSession.ixp_connection
                                   self))
                       Connection.router) ;;
  router <- lift (related (fun r : Z => r) (routers db) router) ;;
  match router with
  | None => ret false
  | Some router =>
      match router_platform router with
      | None => ret false
      | Some _ =>
          bgp_neighbor_detail <-
            lift (Router_get_bgp_neighbor_detail
                    router (InternetExchangePeeringSession.ip_address self)) ;;
          match bgp_neighbor_detail with
          | None => ret false
          | Some detail =>
              t <- timezone_now ;;
              updated <- lift (InternetExchangePeeringSession_poll_fields
                                 self detail t) ;;
              InternetExchangePeeringSession_save updated ;;;
              ret true
          end
      end
  end.

End SessionPoll.

(** ** [InternetExchange]: its connections and its PeeringDB link *)

(** [InternetExchange.has_connected_routers]. *)
Definition InternetExchange_has_connected_routers (self : InternetExchange.t)
           (db : DB) : bool :=
  0 <? Z.of_nat
         (List.length
            (List.filter
               (fun c => fk_is (Connection.internet_exchange_point c)
                               (InternetExchange.pk self)
                         && negb (is_none (Connection.router c)))
               (connections db))).

Definition InternetExchange_link (self : InternetExchange.t) (ixlan : Z)
  : InternetExchange.t :=
  InternetExchange.mk (InternetExchange.pk self) (InternetExchange.name self)
                      (Some ixlan)
                      (InternetExchange.local_autonomous_system self)
                      (InternetExchange.check_bgp_session_states self)
                      (InternetExchange.bgp_session_states_update self).

Section LinkToPeeringDB.

(** The exchange LAN of the PeeringDB member record with a given key
    ([connection.peeringdb_netixlan.ixlan]). *)
Variable netixlan_ixlan : Z -> Z.

(** The loop of [link_to_peeringdb]; [None] is its [return None], else
    the value of [peeringdb_ixlan] when the loop ends. *)
Fixpoint link_scan (connections : list Connection.t)
         (peeringdb_ixlan : option Z) : option (option Z) :=
  match connections with
  | [] => Some peeringdb_ixlan
  | connection :: rest =>
      match Connection.peeringdb_netixlan connection with
      | None => link_scan rest peeringdb_ixlan
      | Some netixlan =>
          match peeringdb_ixlan with
          | None => link_scan rest (Some (netixlan_ixlan netixlan))
          | Some ixlan =>
              if negb (ixlan =? netixlan_ixlan netixlan) then None
              else link_scan rest peeringdb_ixlan
          end
      end
  end.

(** [InternetExchange.link_to_peeringdb]. *)
Definition InternetExchange_link_to_peeringdb (self : InternetExchange.t)
  : M (option Z) :=
  db <- get_db ;;
  match link_scan (List.filter
                     (fun c => fk_is (Connection.internet_exchange_point c)
                                     (InternetExchange.pk self))
                     (connections db))
                  None with
  | None => ret None
  | Some None => ret None
  | Some (Some peeringdb_ixlan) =>
      InternetExchange_save (InternetExchange_link self peeringdb_ixlan) ;;;
      ret (Some peeringdb_ixlan)
  end.

End LinkToPeeringDB.

(** * [Router] and its device *)

(** The double quote, for the messages that hold one. *)
Definition dquote : string := String (ascii_of_N 34) EmptyString.

(** Modelled from the spec: [peering.enums.DeviceState.DISABLED], of the
    "device operational-state enum (enabled/disabled/maintenance)",
    declared outside the files at hand. *)
Module DeviceState.
Definition DISABLED : string := "disabled".
End DeviceState.

(** A [dict] with text keys, in insertion order. *)
Definition dict : Type := list (string * string).

Fixpoint dict_get (k : string) (d : dict) : option string :=
  match d with
  | [] => None
  | (k', v) :: rest => if String.eqb k' k then Some v else dict_get k rest
  end.

(** [d[k] = v] *)
Fixpoint dict_set (k v : string) (d : dict) : dict :=
  match d with
  | [] => [(k, v)]
  | (k', v') :: rest =>
      if String.eqb k' k then (k, v) :: rest else (k', v') :: dict_set k v rest
  end.

(** [d.update(other)] *)
Definition dict_update (d other : dict) : dict :=
  List.fold_left (fun acc kv => dict_set (fst kv) (snd kv) acc) other d.

(** Modelled from the spec: [devices.Platform], which "determines
    device-driver capability", declared outside the files at hand; the
    fields are the ones the code reads. *)
Module Platform.
Record t : Type := mk { napalm_driver : option string;
                        napalm_args : option dict }.
End Platform.

(** The fields of [Router] that its device methods read. *)
Module Router.
Record t : Type := mk { pk : Z; hostname : string;
                        platform : option Platform.t;
                        device_state : string;
                        netbox_device_id : Z;
                        napalm_username : option string;
                        napalm_password : option string;
                        napalm_timeout : Z;
                        napalm_args : option dict }.
End Router.

(** Modelled from the spec: the process-wide defaults of
    [django.conf.settings] that [get_napalm_device] reads ("falling back
    to platform/process defaults").  [NAPALM_ARGS] is one dict object,
    shared by every call. *)
Record settings_t : Type := mkSettings {
  NAPALM_USERNAME : string;
  NAPALM_PASSWORD : string;
  NAPALM_TIMEOUT : Z;
  NAPALM_ARGS : dict
}.

(** A NAPALM driver instance: the arguments it was built with. *)
Record napalm_device : Type := mkDevice {
  device_hostname : string;
  device_username : string;
  device_password : string;
  device_timeout : Z;
  optional_args : dict
}.

(** Python truth of a text or a dict that may be [None]. *)
Definition text_truthy (s : option string) : bool :=
  match s with
  | None => false
  | Some s => negb (String.eqb s EmptyString)
  end.

Definition dict_truthy (d : option dict) : bool :=
  match d with
  | None | Some [] => false
  | Some _ => true
  end.

(** [a or b] on texts and numbers. *)
Definition text_or (a : option string) (b : string) : string :=
  match a with
  | Some s => if String.eqb s EmptyString then b else s
  | None => b
  end.

Definition number_or (a b : Z) : Z := if a =? 0 then b else a.

(** [Router.is_netbox_device]. *)
Definition Router_is_netbox_device (self : Router.t) : bool :=
  negb (Router.netbox_device_id self =? 0).

(** What the device does when called; an exception is given by its
    message. *)
Inductive device_exception : Type :=
| ConnectionException (message : string)
| MergeConfigException (message : string)
| OtherException (message : string).

Definition exception_text (e : device_exception) : string :=
  match e with
  | ConnectionException m | MergeConfigException m | OtherException m => m
  end.

Inductive outcome (A : Type) : Type :=
| Done (a : A)
| Raised (e : device_exception).
Arguments Done {A} a.
Arguments Raised {A} e.

Record napalm_behaviour : Type := mkBehaviour {
  on_open : outcome unit;
  on_is_alive : bool;
  on_load_merge_candidate : string -> outcome unit;
  on_compare_config : outcome string;
  on_commit_config : outcome unit;
  on_discard_config : outcome unit;
  on_close : outcome unit;
  on_get_bgp_neighbors : outcome napalm_dict_t
}.

(** The calls made on a device, oldest first. *)
Inductive device_call : Type :=
| CallOpen
| CallIsAlive
| CallLoadMergeCandidate (config : string)
| CallCompareConfig
| CallCommitConfig
| CallDiscardConfig
| CallClose
| CallGetBgpNeighbors.

(** [Router.is_usable_for_task]; a job result is given by the messages it
    was marked errored with. *)
Definition Router_is_usable_for_task (self : Router.t)
           (job_result : option (list string)) : bool * option (list string) :=
  let mark_errored message :=
    match job_result with
    | Some marks => Some (marks ++ [message])%list
    | None => None
    end in
  if String.eqb (Router.device_state self) DeviceState.DISABLED
  then (false, mark_errored "Router is not enabled.")
  else match Router.platform self with
       | None => (false, mark_errored "Router has no assigned platform.")
       | Some platform =>
           if negb (text_truthy (Platform.napalm_driver platform))
           then (false, mark_errored "Router's platform has no NAPALM driver.")
           else (true, job_result)
       end.

Section Napalm.

(** Whether [napalm.get_network_driver] finds a driver of that name; when
    it does not it raises [ModuleImportError]. *)
Variable driver_installed : string -> bool.

(** How the device behind a driver instance answers. *)
Variable behaviour : napalm_device -> napalm_behaviour.

(** [Router.get_napalm_device]: the driver instance or [None], and the
    settings after the call. *)
Definition Router_get_napalm_device (self : Router.t) (settings : settings_t)
  : option napalm_device * settings_t :=
  match Router.platform self with
  | None => (None, settings)
  | Some platform =>
      match Platform.napalm_driver platform with
      | None => (None, settings)
      | Some napalm_driver =>
          if String.eqb napalm_driver EmptyString then (None, settings)
          else if negb (driver_installed napalm_driver) then (None, settings)
          else
            let args := NAPALM_ARGS settings in
            let args :=
              if dict_truthy (Platform.napalm_args platform)
              then dict_update args (match Platform.napalm_args platform with
                                     | Some d => d
                                     | None => []
                                     end)
              else args in
            let args :=
              if dict_truthy (Router.napalm_args self)
              then dict_update args (match Router.napalm_args self with
                                     | Some d => d
                                     | None => []
                                     end)
              else args in
            (Some (mkDevice
                     (Router.hostname self)
                     (text_or (Router.napalm_username self)
                              (NAPALM_USERNAME settings))
                     (text_or (Router.napalm_password self)
                              (NAPALM_PASSWORD settings))
                     (number_or (Router.napalm_timeout self)
                                (NAPALM_TIMEOUT settings))
                     args),
             mkSettings (NAPALM_USERNAME settings) (NAPALM_PASSWORD settings)
                        (NAPALM_TIMEOUT settings) args)
      end
  end.

(** [Router.open_napalm_device]: whether the connection is open, and the
    calls made. *)
Definition Router_open_napalm_device (device : option napalm_device)
           (calls : list device_call) : bool * list device_call :=
  match device with
  | None => (false, calls)
  | Some d =>
      match on_open (behaviour d) with
      | Done _ => (true, calls ++ [CallOpen])
      | Raised _ => (false, calls ++ [CallOpen])
      end
  end%list.

(** [Router.close_napalm_device]. *)
Definition Router_close_napalm_device (device : option napalm_device)
           (calls : list device_call) : outcome bool * list device_call :=
  match device with
  | None => (Done false, calls)
  | Some d =>
      match on_close (behaviour d) with
      | Done _ => (Done true, calls ++ [CallClose])
      | Raised e => (Raised e, calls ++ [CallClose])
      end
  end%list.

(** [Router.test_napalm_connection]: the truth of its answer. *)
Definition Router_test_napalm_connection (self : Router.t)
           (settings : settings_t)
  : outcome bool * settings_t * list device_call :=
  let '(device, settings) := Router_get_napalm_device self settings in
  let '(opened, calls) := Router_open_napalm_device device [] in
  if opened then
    match device with
    | None => (Done false, settings, calls)
    | Some d =>
        let alive := on_is_alive (behaviour d) in
        let calls := (calls ++ [CallIsAlive])%list in
        if alive then
          match Router_close_napalm_device device calls with
          | (Done closed, calls) => (Done (opened && closed && alive),
                                     settings, calls)
          | (Raised e, calls) => (Raised e, settings, calls)
          end
        else (Done false, settings, calls)
    end
  else (Done false, settings, calls).

(** The [config] argument of [set_napalm_configuration]: [None], an
    object that is no text, or a text. *)
Inductive config_arg : Type :=
| ConfigNone
| ConfigNotText
| ConfigText (config : string).

(** The characters [str.strip()] removes, among the ASCII ones. *)
Definition is_space (c : ascii) : bool :=
  let n := N_of_ascii c in
  ((9 <=? n)%N && (n <=? 13)%N) || ((28 <=? n)%N && (n <=? 32)%N).

(** [not config.strip()] *)
Fixpoint blank (config : string) : bool :=
  match config with
  | EmptyString => true
  | String c rest => is_space c && blank rest
  end.

Definition merge_error (self : Router.t) (e : device_exception) : string :=
  ("unable to merge configuration on " ++ Router.hostname self ++ " reason "
   ++ dquote ++ exception_text e ++ dquote)%string.

(** The [try] block of [set_napalm_configuration] with its [except]
    clauses: the error, the changes and the calls made. *)
Definition merge_candidate (self : Router.t) (d : napalm_device)
           (config : string) (commit : bool) (calls : list device_call)
  : option string * option string * list device_call :=
  let calls := (calls ++ [CallLoadMergeCandidate config])%list in
  match on_load_merge_candidate (behaviour d) config with
  | Raised e => (Some (merge_error self e), None, calls)
  | Done _ =>
      let calls := (calls ++ [CallCompareConfig])%list in
      match on_compare_config (behaviour d) with
      | Raised e => (Some (merge_error self e), None, calls)
      | Done changes =>
          if commit then
            let calls := (calls ++ [CallCommitConfig])%list in
            match on_commit_config (behaviour d) with
            | Raised e => (Some (merge_error self e), None, calls)
            | Done _ => (None, Some changes, calls)
            end
          else
            let calls := (calls ++ [CallDiscardConfig])%list in
            match on_discard_config (behaviour d) with
            | Raised e => (Some (merge_error self e), None, calls)
            | Done _ => (None, Some changes, calls)
            end
      end
  end.

(** [Router.set_napalm_configuration]: the pair (error, changes), or the
    exception that leaves the method, with the settings and the calls
    made on the device. *)
Definition Router_set_napalm_configuration (self : Router.t)
           (config : config_arg) (commit : bool) (settings : settings_t)
  : outcome (option string * option string) * settings_t * list device_call :=
  if String.eqb (Router.device_state self) DeviceState.DISABLED
  then (Done (Some "device is disabled, cannot deploy config", None),
        settings, [])
  else
    match config with
    | ConfigNone | ConfigNotText =>
        (Done (Some "no configuration found to be merged", None), settings, [])
    | ConfigText text =>
        if blank text
        then (Done (Some "no configuration found to be merged", None),
              settings, [])
        else
          let '(device, settings) := Router_get_napalm_device self settings in
          let '(opened, calls) := Router_open_napalm_device device [] in
          if opened then
            match device with
            | None => (Done (None, None), settings, calls)
            | Some d =>
                let '(error, changes, calls) :=
                  merge_candidate self d text commit calls in
                match Router_close_napalm_device device calls with
                | (Done _, calls) => (Done (error, changes), settings, calls)
                | (Raised e, calls) => (Raised e, settings, calls)
                end
            end
          else (Done (Some ("unable to connect to " ++ Router.hostname self)%string,
                      None),
                settings, calls)
    end.

(** [Router.get_napalm_bgp_neighbors]. *)
Definition Router_get_napalm_bgp_neighbors (self : Router.t)
           (settings : settings_t)
  : outcome (list bgp_peer) * settings_t * list device_call :=
  let '(device, settings) := Router_get_napalm_device self settings in
  let '(opened, calls) := Router_open_napalm_device device [] in
  if opened then
    match device with
    | None => (Done [], settings, calls)
    | Some d =>
        let calls := (calls ++ [CallGetBgpNeighbors])%list in
        match on_get_bgp_neighbors (behaviour d) with
        | Raised e => (Raised e, settings, calls)
        | Done bgp_neighbors =>
            let bgp_sessions :=
              _napalm_bgp_neighbors_to_peer_list (Some bgp_neighbors) in
            match Router_close_napalm_device device calls with
            | (Done _, calls) => (Done bgp_sessions, settings, calls)
            | (Raised e, calls) => (Raised e, settings, calls)
            end
        end
    end
  else (Done [], settings, calls).

End Napalm.

(** The entries of an args field that may be [None]. *)
Definition args_of (d : option dict) : dict :=
  match d with
  | Some d => d
  | None => []
  end.

(** The keys of a dict are distinct. *)
Definition distinct_keys (d : dict) : Prop := NoDup (List.map fst d).

(** ** A router, its platform and devices to try the methods on *)

Definition junos : Platform.t :=
  Platform.mk (Some "junos") (Some [("port", "830"); ("keepalive", "5")]).

Definition edge1 : Router.t :=
  Router.mk 10 "edge1.example.net" (Some junos) "enabled" 0 None (Some "") 0
            (Some [("port", "22")]).

Definition edge2 : Router.t :=
  Router.mk 20 "edge2.example.net" (Some (Platform.mk (Some "junos") None))
            "maintenance" 0 (Some "ops") None 60 None.

Definition process_settings : settings_t :=
  mkSettings "napalm" "secret" 30 [("port", "443"); ("transport", "ssh")].

Definition any_driver (name : string) : bool := true.

(** A device that answers every call. *)
Definition healthy : napalm_behaviour :=
  mkBehaviour (Done tt) true (fun _ => Done tt) (Done "+ neighbor 203.0.113.1")
              (Done tt) (Done tt) (Done tt)
              (Done [("default",
                      mkVrf [("203.0.113.1", mkDetails (Some 65001))])]).

(** A device that opens, refuses the candidate and closes. *)
Definition refusing : napalm_behaviour :=
  mkBehaviour (Done tt) true
              (fun _ => Raised (MergeConfigException "syntax error"))
              (Done "") (Done tt) (Done tt) (Done tt)
              (Raised (OtherException "timeout")).

(** A device that opens but does not report itself alive. *)
Definition stale : napalm_behaviour :=
  mkBehaviour (Done tt) false (fun _ => Done tt) (Done "") (Done tt) (Done tt)
              (Done tt) (Done []).
(** * Properties *)

(** ** The [ipaddress] model on sample texts *)

Example ip_address_samples :
  ipaddress.ip_address "203.0.113.1"
  = Some (ipaddress.mkIP ipaddress.V4 3405803777)
  /\ ipaddress.ip_address "2001:db8::1"
     = Some (ipaddress.mkIP ipaddress.V6
                            42540766411282592856903984951653826561)
  /\ ipaddress.ip_address "2001:DB8:0:0:0:0:0:1"
     = Some (ipaddress.mkIP ipaddress.V6
                            42540766411282592856903984951653826561)
  /\ ipaddress.ip_address "203.0.113.256" = None
  /\ ipaddress.ip_address "203.0.113" = None
  /\ ipaddress.ip_address "2001:db8::1::2" = None
  /\ ipaddress.ip_address "not-an-address" = None.
Proof. repeat split; vm_compute; reflexivity. Qed.

Example str_samples :
  ipaddress.str (ipaddress.mkIP ipaddress.V4 3405803777) = "203.0.113.1"
  /\ ipaddress.str (ipaddress.mkIP ipaddress.V6 1) = "::1"
  /\ ipaddress.str (ipaddress.mkIP ipaddress.V6
                                   338288524927261089654018896841347694593)
     = "fe80::1".
Proof. repeat split; vm_compute; reflexivity. Qed.

(** ** The normalizer *)

(** The answer of the end-to-end scenario: one peer with [remote_as], one
    without; only the first is kept. *)
Example normalizer_end_to_end :
  _napalm_bgp_neighbors_to_peer_list
    (Some [("default", mkVrf [("203.0.113.1", mkDetails (Some 65001));
                              ("203.0.113.2", mkDetails None)])])
  = [mkPeer (ipaddress.mkIP ipaddress.V4 3405803777) 65001].
Proof. vm_compute. reflexivity. Qed.

Lemma ip_version_eqb_eq (a b : ipaddress.ip_version) :
  ipaddress.ip_version_eqb a b = true <-> a = b.
Proof. destruct a, b; simpl; split; congruence. Qed.

Lemma ipaddress_eqb_eq (a b : ipaddress.IPAddress) :
  ipaddress.eqb a b = true <-> a = b.
Proof.
  destruct a as [va na], b as [vb nb]; unfold ipaddress.eqb; simpl.
  rewrite andb_true_iff, ip_version_eqb_eq, N.eqb_eq.
  split; [intros [-> ->]; reflexivity | intros H; inversion H; auto].
Qed.

Lemma ipaddress_eqb_refl (a : ipaddress.IPAddress) : ipaddress.eqb a a = true.
Proof. apply ipaddress_eqb_eq; reflexivity. Qed.

(** The two nested loops visit the entries of all VRFs in order. *)
Lemma peer_list_flat (d : napalm_dict_t) :
  _napalm_bgp_neighbors_to_peer_list (Some d)
  = fold_left peer_step (all_entries d) [].
Proof.
  assert (G : forall (l : napalm_dict_t) acc,
             fold_left vrf_step l acc
             = fold_left peer_step (all_entries l) acc).
  { induction l as [|v l IH]; intros acc; simpl; [reflexivity|].
    unfold all_entries in *; simpl. rewrite fold_left_app. apply IH. }
  destruct d as [|v l]; [reflexivity|]. simpl. apply (G (v :: l)).
Qed.

(** One step adds at most one record, at the end. *)
Lemma peer_step_cases (acc : list bgp_peer) (e : string * peer_details) :
  peer_step acc e = acc
  \/ exists a asn,
       peer_step acc e = (acc ++ [mkPeer a asn])%list
       /\ remote_as (snd e) = Some asn
       /\ ipaddress.ip_address (fst e) = Some a
       /\ existsb (fun i => String.eqb (fst e) (ipaddress.str (ip_address i)))
                  acc = false.
Proof.
  destruct e as [k det]; unfold peer_step; simpl.
  destruct (remote_as det) as [asn|]; [|left; reflexivity].
  destruct (existsb _ acc) eqn:E; [left; reflexivity|].
  destruct (ipaddress.ip_address k) as [a|]; [|left; reflexivity].
  right; exists a, asn; auto.
Qed.

Lemma peer_fold_length (l : list (string * peer_details)) :
  forall acc,
    (List.length (fold_left peer_step l acc)
     <= List.length acc + List.length l)%nat.
Proof.
  induction l as [|e l IH]; intros acc; simpl; [lia|].
  specialize (IH (peer_step acc e)).
  destruct (peer_step_cases acc e) as [H | (a & asn & H & _)];
    rewrite H in *; [|rewrite length_app in IH; simpl in IH]; lia.
Qed.

(** The output is never longer than the number of peer entries read. *)
Lemma peer_list_length (napalm_dict : option napalm_dict_t) :
  (List.length (_napalm_bgp_neighbors_to_peer_list napalm_dict)
   <= total_peer_entries napalm_dict)%nat.
Proof.
  destruct napalm_dict as [d|]; [|simpl; lia].
  rewrite peer_list_flat. simpl. apply (peer_fold_length (all_entries d) []).
Qed.

Lemma peer_fold_sound (l : list (string * peer_details)) :
  forall acc r,
    In r (fold_left peer_step l acc) ->
    In r acc
    \/ exists k det, In (k, det) l
                     /\ remote_as det = Some (remote_asn r)
                     /\ ipaddress.ip_address k = Some (ip_address r).
Proof.
  induction l as [|e l IH]; intros acc r Hin; simpl in *; [auto|].
  destruct (IH _ _ Hin) as [Hacc | (k & det & Hk & Hr)].
  - destruct (peer_step_cases acc e) as [H | (a & asn & H & Has & Hip & _)];
      rewrite H in Hacc; [auto|].
    apply in_app_or in Hacc. destruct Hacc as [Hacc | [<- | []]]; [auto|].
    right. destruct e as [k det]. exists k, det. simpl in *. auto.
  - right. exists k, det. tauto.
Qed.

(** Every output record stems from an entry that has [remote_as] and whose
    key parses to the record's address: an entry without [remote_as], or
    with a key that is not an address, gives no record. *)
Lemma peer_list_sound (d : napalm_dict_t) (r : bgp_peer) :
  In r (_napalm_bgp_neighbors_to_peer_list (Some d)) ->
  exists k det, In (k, det) (all_entries d)
                /\ remote_as det = Some (remote_asn r)
                /\ ipaddress.ip_address k = Some (ip_address r).
Proof.
  rewrite peer_list_flat. intros Hin.
  destruct (peer_fold_sound _ _ _ Hin) as [[] | H]. exact H.
Qed.

(** A key that is not an address drops its entry only: the traversal goes
    on as if the entry were not there. *)
Lemma peer_list_skips_unparseable
      (before after : list (string * peer_details))
      (k : string) (det : peer_details) (acc : list bgp_peer) :
  ipaddress.ip_address k = None ->
  fold_left peer_step (before ++ (k, det) :: after) acc
  = fold_left peer_step (before ++ after) acc.
Proof.
  intros Hk. rewrite !fold_left_app. simpl. f_equal.
  destruct (peer_step_cases (fold_left peer_step before acc) (k, det))
    as [H | (a & asn & _ & _ & Hip & _)]; [exact H|].
  simpl in Hip. congruence.
Qed.

(** Missing or empty input gives the empty list. *)
Lemma peer_list_empty :
  _napalm_bgp_neighbors_to_peer_list None = []
  /\ _napalm_bgp_neighbors_to_peer_list (Some []) = [].
Proof. split; reflexivity. Qed.

Lemma peer_fold_nodup (l : list (string * peer_details)) :
  Forall (fun e => canonical (fst e)) l ->
  forall acc,
    NoDup (List.map ip_address acc) ->
    NoDup (List.map ip_address (fold_left peer_step l acc)).
Proof.
  induction 1 as [|e l He _ IH]; intros acc Hnd; simpl; [exact Hnd|].
  apply IH.
  destruct (peer_step_cases acc e) as [H | (a & asn & H & _ & Hip & Hex)];
    rewrite H; [exact Hnd|].
  rewrite map_app; simpl.
  assert (Hnotin : ~ In a (List.map ip_address acc)).
  { intros Hin. apply in_map_iff in Hin. destruct Hin as (r & Hr & Hin).
    assert (existsb (fun i => String.eqb (fst e) (ipaddress.str (ip_address i)))
                    acc = true) as Hc; [|congruence].
    apply existsb_exists. exists r. split; [exact Hin|].
    apply String.eqb_eq. rewrite Hr. symmetry. apply He. exact Hip. }
  clear - Hnd Hnotin.
  induction (List.map ip_address acc) as [|x xs IHx]; simpl.
  - constructor; [intros []|constructor].
  - inversion Hnd; subst. constructor.
    + rewrite in_app_iff. simpl. intros [Hx | [Hx | []]]; [auto|].
      apply Hnotin. left. auto.
    + apply IHx; [assumption|]. intros Hx. apply Hnotin. right. exact Hx.
Qed.

(** When every key is canonical text, no two output records share an
    address. *)
Lemma peer_list_nodup_canonical (d : napalm_dict_t) :
  Forall (fun e => canonical (fst e)) (all_entries d) ->
  NoDup (List.map ip_address (_napalm_bgp_neighbors_to_peer_list (Some d))).
Proof.
  intros H. rewrite peer_list_flat. apply peer_fold_nodup; [exact H|constructor].
Qed.

(** C7: the normalizer is meant to return no two records with one IP
    address, the first occurrence winning; on [duplicate_input] it
    returns the address 2001:db8::1 twice, because the raw key is compared
    with the canonical text of the addresses already kept. *)
Theorem normalizer_keeps_duplicate_ip :
  _napalm_bgp_neighbors_to_peer_list (Some duplicate_input)
  = [mkPeer (ipaddress.mkIP ipaddress.V6 42540766411282592856903984951653826561)
            65001;
     mkPeer (ipaddress.mkIP ipaddress.V6 42540766411282592856903984951653826561)
            65001]
  /\ ipaddress.str
       (ipaddress.mkIP ipaddress.V6 42540766411282592856903984951653826561)
     = "2001:db8::1".
Proof. split; vm_compute; reflexivity. Qed.

(** ** Scenarios *)

Lemma scenario_addresses :
  ipaddress.ip_address "203.0.113.1" = Some ip_203_0_113_1
  /\ ipaddress.ip_address "203.0.113.2" = Some ip_203_0_113_2.
Proof. split; vm_compute; reflexivity. Qed.

(** ** The match step *)

(** C1: the stored session updated for a live neighbor is meant to be
    looked up by remote IP, scope and router; the poll of ix-a on
    [foreign_session_db] finds no session of ix-a, yet it updates the
    session of ix-b that has the same address, because the lookup of
    [InternetExchange.poll_peering_sessions] is by address alone. *)
Theorem ixp_poll_updates_session_of_other_ixp :
  InternetExchange_get_peering_sessions ix_a foreign_session_db = []
  /\ InternetExchange_get_peering_sessions ix_b foreign_session_db
     = [idle_session 1 2 ip_203_0_113_1]
  /\ fst (InternetExchange_poll_peering_sessions one_neighbor_on_10 ix_a
                                                 foreign_session_db)
     = Ok true
  /\ ixp_sessions
       (snd (InternetExchange_poll_peering_sessions one_neighbor_on_10 ix_a
                                                    foreign_session_db))
     = [InternetExchangePeeringSession.mk 1 1 (Some 2) ip_203_0_113_1 false
                                          "established" 10 5 (Some 100)].
Proof. repeat split; vm_compute; reflexivity. Qed.

Lemma replace_row_other {A : Type} (key : A -> Z) (obj : A) (table : list A)
      (row : A) :
  In row table -> key row <> key obj ->
  In row (replace_row key obj table).
Proof.
  intros Hin Hne. unfold replace_row. apply in_map_iff. exists row.
  split; [|exact Hin]. destruct (key row =? key obj) eqn:E; [|reflexivity].
  apply Z.eqb_eq in E. contradiction.
Qed.

Lemma objects_get_ok {A : Type} (lookup : A -> bool) (table : list A) (row : A) :
  objects_get lookup table = Ok row ->
  In row table /\ lookup row = true
  /\ forall other, In other table -> lookup other = true -> other = row.
Proof.
  unfold objects_get. intros H.
  destruct (List.filter lookup table) as [|x [|y l]] eqn:E; try discriminate.
  inversion H; subst x.
  assert (Hin : In row (List.filter lookup table)) by (rewrite E; left; auto).
  apply filter_In in Hin. destruct Hin as [Hin Hl]. repeat split; auto.
  intros other Ho Hlo.
  assert (Hin' : In other (List.filter lookup table))
    by (apply filter_In; auto).
  rewrite E in Hin'. destruct Hin' as [<- | []]. reflexivity.
Qed.

(** ** Saving a session *)

Lemma counters_storable_iff (received advertised : Z) :
  counters_storable received advertised = true
  <-> 0 <= received /\ 0 <= advertised.
Proof.
  unfold counters_storable. rewrite andb_true_iff, !Z.leb_le. tauto.
Qed.

(** The expression of the BGP group poll never yields a negative count. *)
Lemma positive_or_zero_nonneg (count : option Z) (z : Z) :
  positive_or_zero count = Ok z -> 0 <= z.
Proof.
  destruct count as [c|]; simpl; [|discriminate].
  intros H; inversion H; subst. destruct (c >? 0) eqn:E; lia.
Qed.

(** A direct session is never saved with a negative count. *)
Lemma direct_counts_nonneg
      (s s' : DirectPeeringSession.t) (session : neighbor_detail) (t : Z) :
  DirectPeeringSession_update_fields s session t = Ok s' ->
  0 <= DirectPeeringSession.received_prefix_count s'
  /\ 0 <= DirectPeeringSession.advertised_prefix_count s'.
Proof.
  unfold DirectPeeringSession_update_fields. intros H.
  destruct (getitem _ (received_prefix_count session)); [|discriminate].
  destruct (getitem _ (advertised_prefix_count session)); [|discriminate].
  destruct (positive_or_zero a) eqn:Ha; [|discriminate].
  destruct (positive_or_zero a0) eqn:Hb; [|discriminate].
  inversion H; subst; simpl.
  split; eapply positive_or_zero_nonneg; eassumption.
Qed.

Lemma replace_row_in {A : Type} (key : A -> Z) (obj : A) (table : list A)
      (row : A) :
  In row table -> key row = key obj -> In obj (replace_row key obj table).
Proof.
  intros Hin Heq. unfold replace_row. apply in_map_iff. exists row.
  split; [|exact Hin]. rewrite Heq, Z.eqb_refl. reflexivity.
Qed.

Lemma direct_update_keeps_pk (s s' : DirectPeeringSession.t)
      (session : neighbor_detail) (t : Z) :
  DirectPeeringSession_update_fields s session t = Ok s' ->
  DirectPeeringSession.pk s' = DirectPeeringSession.pk s.
Proof.
  unfold DirectPeeringSession_update_fields. intros U.
  repeat match type of U with
         | match ?x with _ => _ end = _ => destruct x; try discriminate
         end.
  inversion U; reflexivity.
Qed.

Lemma ixp_update_keeps_pk (s s' : InternetExchangePeeringSession.t)
      (session : neighbor_detail) (t : Z) :
  InternetExchangePeeringSession_update_fields s session t = Ok s' ->
  InternetExchangePeeringSession.pk s' = InternetExchangePeeringSession.pk s.
Proof.
  unfold InternetExchangePeeringSession_update_fields. intros U.
  repeat match type of U with
         | match ?x with _ => _ end = _ => destruct x; try discriminate
         end.
  inversion U; reflexivity.
Qed.

(** The session a BGP group poll hands to [save()] is stored. *)
Lemma DirectPeeringSession_save_updated
      (s s' : DirectPeeringSession.t) (session : neighbor_detail) (t : Z)
      (db : DB) :
  DirectPeeringSession_update_fields s session t = Ok s' ->
  DirectPeeringSession_save s' db
  = (Ok tt, log_write (SaveDirectPeeringSession (DirectPeeringSession.pk s'))
              (set_direct_sessions
                 (replace_row DirectPeeringSession.pk s' (direct_sessions db))
                 db)).
Proof.
  intros U. apply direct_counts_nonneg in U. unfold DirectPeeringSession_save.
  apply counters_storable_iff in U. rewrite U. reflexivity.
Qed.

(** [save()] of an IXP session stores it, or raises [IntegrityError] and
    leaves the database as it was. *)
Lemma InternetExchangePeeringSession_save_cases
      (self : InternetExchangePeeringSession.t) (db : DB) :
  (0 <= InternetExchangePeeringSession.received_prefix_count self
   /\ 0 <= InternetExchangePeeringSession.advertised_prefix_count self
   /\ InternetExchangePeeringSession_save self db
      = (Ok tt, log_write (SaveInternetExchangePeeringSession
                             (InternetExchangePeeringSession.pk self))
                  (set_ixp_sessions
                     (replace_row InternetExchangePeeringSession.pk self
                                  (ixp_sessions db)) db)))
  \/ (InternetExchangePeeringSession_save self db = (Raise IntegrityError, db)).
Proof.
  unfold InternetExchangePeeringSession_save.
  destruct (counters_storable _ _) eqn:E; [left|right; reflexivity].
  apply counters_storable_iff in E. tauto.
Qed.

(** In the poll of a BGP group, a live neighbor touches no stored session
    other than the one with its address, this group and this router. *)
Lemma BGPGroup_poll_one_exact
      (self : BGPGroup.t) (router : Z) (session : neighbor_detail) (db : DB)
      (s : DirectPeeringSession.t) :
  NoDup (List.map DirectPeeringSession.pk (direct_sessions db)) ->
  In s (direct_sessions db) ->
  direct_lookup self router (remote_address session) s = false ->
  In s (direct_sessions (snd (BGPGroup_poll_one self router session db))).
Proof.
  intros Hnd Hin Hno. unfold BGPGroup_poll_one, bind, get_db.
  destruct (objects_get _ (direct_sessions db)) as [found|e] eqn:G.
  - apply objects_get_ok in G. destruct G as (Hf & Hl & _).
    unfold timezone_now, lift.
    destruct (DirectPeeringSession_update_fields found session (now db))
      as [updated|e] eqn:U; [|exact Hin].
    assert (Hpk : DirectPeeringSession.pk updated
                  = DirectPeeringSession.pk found).
    { unfold DirectPeeringSession_update_fields in U.
      repeat match type of U with
             | match ?x with _ => _ end = _ => destruct x; try discriminate
             end.
      inversion U; reflexivity. }
    rewrite (@DirectPeeringSession_save_updated _ _ _ _ db U).
    simpl. apply replace_row_other; [exact Hin|].
    rewrite Hpk. intros Heq.
    assert (s = found); [|subst; congruence].
    clear - Hnd Hin Hf Heq.
    induction (direct_sessions db) as [|x l IH]; [destruct Hin|].
    simpl in Hnd. inversion Hnd as [|? ? Hx Hl]; subst.
    destruct Hin as [-> | Hin], Hf as [-> | Hf]; auto.
    + exfalso. apply Hx. rewrite Heq. apply in_map. exact Hf.
    + exfalso. apply Hx. rewrite <- Heq. apply in_map. exact Hin.
  - destruct e; exact Hin.
Qed.

(** ** The update step: the stamp of [last_established_state] *)

(** C2, as stated, fails: after a first poll the session is established
    and stamped 100; the same snapshot applied again at time 200 moves the
    stamp to 200. *)
Lemma second_application_restamps :
  List.map DirectPeeringSession.bgp_state (direct_sessions direct_db_polled_once)
  = ["established"]
  /\ List.map DirectPeeringSession.last_established_state
              (direct_sessions direct_db_polled_once)
     = [Some 100]
  /\ List.map DirectPeeringSession.bgp_state
              (direct_sessions direct_db_polled_twice)
     = ["established"]
  /\ List.map DirectPeeringSession.last_established_state
              (direct_sessions direct_db_polled_twice)
     = [Some 200]
  /\ List.map DirectPeeringSession.last_established_state
              (direct_sessions direct_db_polled_twice)
     <> List.map DirectPeeringSession.last_established_state
                 (direct_sessions direct_db_polled_once).
Proof. repeat split; vm_compute; try reflexivity. discriminate. Qed.

(** What a matched live neighbor does to the database: the stored session
    is replaced by the updated one, computed at the current time. *)
Lemma BGPGroup_poll_one_saves (self : BGPGroup.t) (router : Z)
      (session : neighbor_detail) (db : DB)
      (found updated : DirectPeeringSession.t) :
  objects_get (direct_lookup self router (remote_address session))
              (direct_sessions db) = Ok found ->
  DirectPeeringSession_update_fields found session (now db) = Ok updated ->
  BGPGroup_poll_one self router session db
  = DirectPeeringSession_save updated db.
Proof.
  intros G U. unfold BGPGroup_poll_one, bind, get_db, timezone_now, lift.
  rewrite G, U. reflexivity.
Qed.

Lemma InternetExchange_poll_one_saves
      (self : InternetExchange.t) (session : neighbor_detail) (db : DB)
      (found updated : InternetExchangePeeringSession.t) :
  objects_get (fun s => ipaddress.eqb (InternetExchangePeeringSession.ip_address s)
                                      (remote_address session))
              (ixp_sessions db) = Ok found ->
  InternetExchangePeeringSession_update_fields found session (now db)
  = Ok updated ->
  InternetExchange_poll_one self session db
  = InternetExchangePeeringSession_save updated db.
Proof.
  intros G U. unfold InternetExchange_poll_one, bind, get_db, timezone_now, lift.
  rewrite G, U. reflexivity.
Qed.

(** The stamp computed by [stamp] is the one [stamped] describes. *)
Lemma stamp_stamped (state : string) (t : Z) (before : option Z) :
  stamped state t before (stamp (lower state) t before).
Proof.
  unfold stamped, stamp, BGPState.ESTABLISHED. split; intros H.
  - apply String.eqb_eq in H. rewrite H. reflexivity.
  - apply String.eqb_neq in H. rewrite H. reflexivity.
Qed.

Lemma direct_update_stamped (direct direct' : DirectPeeringSession.t)
      (session : neighbor_detail) (t : Z) :
  DirectPeeringSession_update_fields direct session t = Ok direct' ->
  stamped (connection_state session) t
          (DirectPeeringSession.last_established_state direct)
          (DirectPeeringSession.last_established_state direct').
Proof.
  unfold DirectPeeringSession_update_fields. intros U.
  repeat match type of U with
         | match ?x with _ => _ end = _ => destruct x; try discriminate
         end.
  inversion U; subst; simpl. apply stamp_stamped.
Qed.

Lemma ixp_update_stamped (ixp ixp' : InternetExchangePeeringSession.t)
      (session : neighbor_detail) (t : Z) :
  InternetExchangePeeringSession_update_fields ixp session t = Ok ixp' ->
  stamped (connection_state session) t
          (InternetExchangePeeringSession.last_established_state ixp)
          (InternetExchangePeeringSession.last_established_state ixp').
Proof.
  unfold InternetExchangePeeringSession_update_fields. intros U.
  repeat match type of U with
         | match ?x with _ => _ end = _ => destruct x; try discriminate
         end.
  inversion U; subst; simpl. apply stamp_stamped.
Qed.

Lemma ixp_poll_fields_stamped (self self' : InternetExchangePeeringSession.t)
      (detail : napalm_neighbor) (t : Z) :
  InternetExchangePeeringSession_poll_fields self detail t = Ok self' ->
  stamped (neighbor_connection_state detail) t
          (InternetExchangePeeringSession.last_established_state self)
          (InternetExchangePeeringSession.last_established_state self').
Proof.
  unfold InternetExchangePeeringSession_poll_fields. intros U.
  repeat match type of U with
         | match ?x with _ => _ end = _ => destruct x; try discriminate
         end.
  inversion U; subst; simpl. apply stamp_stamped.
Qed.

Lemma ixp_poll_fields_keeps_pk (self self' : InternetExchangePeeringSession.t)
      (detail : napalm_neighbor) (t : Z) :
  InternetExchangePeeringSession_poll_fields self detail t = Ok self' ->
  InternetExchangePeeringSession.pk self'
  = InternetExchangePeeringSession.pk self.
Proof.
  unfold InternetExchangePeeringSession_poll_fields. intros U.
  repeat match type of U with
         | match ?x with _ => _ end = _ => destruct x; try discriminate
         end.
  inversion U; reflexivity.
Qed.

(** A step of the BGP group poll that found its session and ended
    normally stored the updated session, computed at the current time. *)
Lemma BGPGroup_poll_one_stored (self : BGPGroup.t) (router : Z)
      (session : neighbor_detail) (db : DB) (found : DirectPeeringSession.t) :
  objects_get (direct_lookup self router (remote_address session))
              (direct_sessions db) = Ok found ->
  fst (BGPGroup_poll_one self router session db) = Ok tt ->
  exists updated,
    DirectPeeringSession_update_fields found session (now db) = Ok updated
    /\ In updated
          (direct_sessions (snd (BGPGroup_poll_one self router session db))).
Proof.
  intros G. unfold BGPGroup_poll_one, bind, get_db, timezone_now, lift.
  rewrite G.
  destruct (DirectPeeringSession_update_fields found session (now db))
    as [updated|e] eqn:U; [|discriminate].
  rewrite (@DirectPeeringSession_save_updated _ _ _ _ db U). intros _.
  exists updated. split; [reflexivity|]. simpl.
  apply objects_get_ok in G. destruct G as (Hin & _).
  apply replace_row_in with (row := found); [exact Hin|].
  symmetry. eapply direct_update_keeps_pk. exact U.
Qed.

(** The same for a step of the exchange poll. *)
Lemma InternetExchange_poll_one_stored (self : InternetExchange.t)
      (session : neighbor_detail) (db : DB)
      (found : InternetExchangePeeringSession.t) :
  objects_get (fun s => ipaddress.eqb (InternetExchangePeeringSession.ip_address s)
                                      (remote_address session))
              (ixp_sessions db) = Ok found ->
  fst (InternetExchange_poll_one self session db) = Ok tt ->
  exists updated,
    InternetExchangePeeringSession_update_fields found session (now db)
    = Ok updated
    /\ In updated
          (ixp_sessions (snd (InternetExchange_poll_one self session db))).
Proof.
  intros G. unfold InternetExchange_poll_one, bind, get_db, timezone_now, lift.
  rewrite G.
  destruct (InternetExchangePeeringSession_update_fields found session (now db))
    as [updated|e] eqn:U; [|discriminate].
  destruct (InternetExchangePeeringSession_save_cases updated db)
    as [(_ & _ & ->) | ->]; [|discriminate].
  intros _. exists updated. split; [reflexivity|]. simpl.
  apply objects_get_ok in G. destruct G as (Hin & _).
  apply replace_row_in with (row := found); [exact Hin|].
  symmetry. eapply ixp_update_keeps_pk. exact U.
Qed.

(** [InternetExchangePeeringSession.poll] returns true only after it found
    the session's neighbor on the router of the session's connection and
    saved the session with the fields computed at the current time. *)
Lemma InternetExchangePeeringSession_poll_true
      (router_platform : Z -> option Z) (device : Z -> napalm_answer)
      (self : InternetExchangePeeringSession.t) (db db' : DB) :
  InternetExchangePeeringSession_poll router_platform device self db
  = (Ok true, db') ->
  exists connection router detail updated,
    related Connection.pk (connections db)
            (InternetExchangePeeringSession.ixp_connection self)
    = Ok (Some connection)
    /\ Connection.router connection = Some router
    /\ router_platform router <> None
    /\ Router_find_bgp_neighbor_detail
         (device router)
         (AsAddress (InternetExchangePeeringSession.ip_address self))
       = Ok (Some detail)
    /\ InternetExchangePeeringSession_poll_fields self detail (now db)
       = Ok updated
    /\ InternetExchangePeeringSession_save updated db = (Ok tt, db').
Proof.
  unfold InternetExchangePeeringSession_poll, bind, get_db, lift.
  destruct (related Connection.pk (connections db)
                    (InternetExchangePeeringSession.ixp_connection self))
    as [[c|]|e] eqn:Hc; simpl; try discriminate.
  destruct (Connection.router c) as [r|] eqn:Hr; simpl; [|discriminate].
  destruct (List.find (fun row => row =? r) (routers db)) as [r'|] eqn:Hf;
    [|discriminate].
  assert (r' = r).
  { apply find_some in Hf. destruct Hf as [_ Hf]. apply Z.eqb_eq in Hf.
    exact Hf. }
  subst r'.
  destruct (router_platform r) as [p|] eqn:Hp; [|discriminate].
  unfold Router_get_bgp_neighbor_detail.
  destruct (Router_find_bgp_neighbor_detail (device r) _) as [[detail|]|e]
    eqn:Hd; try discriminate.
  unfold timezone_now.
  destruct (InternetExchangePeeringSession_poll_fields self detail (now db))
    as [updated|e] eqn:U; [|discriminate].
  destruct (InternetExchangePeeringSession_save updated db) as [[u|e] db1]
    eqn:S; [|discriminate].
  unfold ret. intros H; inversion H; subst db1; clear H. destruct u.
  exists c, r, detail, updated. rewrite Hp.
  repeat split; auto. discriminate.
Qed.

(** C2, amended: every update of a polled session stamps
    [last_established_state] with the current time whenever the reported
    state, lower-cased, is "established", whatever state the session was in
    before (so a second application of the same snapshot stamps again);
    with any other reported state the stamp keeps its value.  This holds,
    each on its own, for the update block of
    [BGPGroup.poll_peering_sessions] and [DirectPeeringSession.poll], for
    the one of [InternetExchange.poll_peering_sessions] (a count of [None]
    included) and for the one of [InternetExchangePeeringSession.poll];
    and the session so updated, at the time of the database, is the one
    the two polls and [InternetExchangePeeringSession.poll] store. *)
Theorem stamp_on_every_established_report :
  (forall (direct direct' : DirectPeeringSession.t)
          (session : neighbor_detail) (t : Z),
      DirectPeeringSession_update_fields direct session t = Ok direct' ->
      stamped (connection_state session) t
              (DirectPeeringSession.last_established_state direct)
              (DirectPeeringSession.last_established_state direct'))
  /\ (forall (ixp ixp' : InternetExchangePeeringSession.t)
             (session : neighbor_detail) (t : Z),
         InternetExchangePeeringSession_update_fields ixp session t = Ok ixp' ->
         stamped (connection_state session) t
                 (InternetExchangePeeringSession.last_established_state ixp)
                 (InternetExchangePeeringSession.last_established_state ixp'))
  /\ (forall (self self' : InternetExchangePeeringSession.t)
             (detail : napalm_neighbor) (t : Z),
         InternetExchangePeeringSession_poll_fields self detail t = Ok self' ->
         stamped (neighbor_connection_state detail) t
                 (InternetExchangePeeringSession.last_established_state self)
                 (InternetExchangePeeringSession.last_established_state self'))
  /\ (forall (self : BGPGroup.t) (router : Z) (session : neighbor_detail)
             (db : DB) (found : DirectPeeringSession.t),
         objects_get (direct_lookup self router (remote_address session))
                     (direct_sessions db) = Ok found ->
         fst (BGPGroup_poll_one self router session db) = Ok tt ->
         exists updated,
           In updated
              (direct_sessions (snd (BGPGroup_poll_one self router session db)))
           /\ DirectPeeringSession.pk updated = DirectPeeringSession.pk found
           /\ stamped (connection_state session) (now db)
                      (DirectPeeringSession.last_established_state found)
                      (DirectPeeringSession.last_established_state updated))
  /\ (forall (self : InternetExchange.t) (session : neighbor_detail)
             (db : DB) (found : InternetExchangePeeringSession.t),
         objects_get
           (fun s => ipaddress.eqb (InternetExchangePeeringSession.ip_address s)
                                   (remote_address session))
           (ixp_sessions db) = Ok found ->
         fst (InternetExchange_poll_one self session db) = Ok tt ->
         exists updated,
           In updated
              (ixp_sessions (snd (InternetExchange_poll_one self session db)))
           /\ InternetExchangePeeringSession.pk updated
              = InternetExchangePeeringSession.pk found
           /\ stamped (connection_state session) (now db)
                      (InternetExchangePeeringSession.last_established_state
                         found)
                      (InternetExchangePeeringSession.last_established_state
                         updated))
  /\ (forall (router_platform : Z -> option Z) (device : Z -> napalm_answer)
             (self : InternetExchangePeeringSession.t) (db db' : DB),
         InternetExchangePeeringSession_poll router_platform device self db
         = (Ok true, db') ->
         exists connection router detail updated,
           related Connection.pk (connections db)
                   (InternetExchangePeeringSession.ixp_connection self)
           = Ok (Some connection)
           /\ Connection.router connection = Some router
           /\ Router_find_bgp_neighbor_detail
                (device router)
                (AsAddress (InternetExchangePeeringSession.ip_address self))
              = Ok (Some detail)
           /\ InternetExchangePeeringSession_save updated db = (Ok tt, db')
           /\ InternetExchangePeeringSession.pk updated
              = InternetExchangePeeringSession.pk self
           /\ stamped (neighbor_connection_state detail) (now db)
                      (InternetExchangePeeringSession.last_established_state
                         self)
                      (InternetExchangePeeringSession.last_established_state
                         updated)).
Proof.
  split; [|split; [|split; [|split; [|split]]]].
  - intros direct direct' session t. apply direct_update_stamped.
  - intros ixp ixp' session t. apply ixp_update_stamped.
  - intros self self' detail t. apply ixp_poll_fields_stamped.
  - intros self router session db found G H.
    destruct (BGPGroup_poll_one_stored _ _ _ _ G H) as (updated & U & Hin).
    exists updated. split; [exact Hin|]. split.
    + eapply direct_update_keeps_pk. exact U.
    + eapply direct_update_stamped. exact U.
  - intros self session db found G H.
    destruct (InternetExchange_poll_one_stored self _ _ G H)
      as (updated & U & Hin).
    exists updated. split; [exact Hin|]. split.
    + eapply ixp_update_keeps_pk. exact U.
    + eapply ixp_update_stamped. exact U.
  - intros router_platform device self db db' H.
    apply InternetExchangePeeringSession_poll_true in H.
    destruct H as (c & r & detail & updated & Hc & Hr & _ & Hd & U & S).
    exists c, r, detail, updated.
    split; [exact Hc|]. split; [exact Hr|]. split; [exact Hd|].
    split; [exact S|]. split.
    + eapply ixp_poll_fields_keeps_pk. exact U.
    + eapply ixp_poll_fields_stamped. exact U.
Qed.

(** Sessions already established and stamped 100 are stamped 200 by a
    report at time 200: a direct session, an IXP session whose neighbor
    reports no received count, and an IXP session polled on its own. *)
Lemma stamp_on_every_established_report_witness :
  stamped "Established" 200 (Some 100) (Some 200)
  /\ stamped "Established" 200 (Some 100) (Some 200)
  /\ stamped "Established" 200 (Some 100) (Some 200).
Proof.
  split; [|split].
  - apply (proj1 stamp_on_every_established_report
             (DirectPeeringSession.mk 1 1 ip_203_0_113_1 (Some 1) (Some 10)
                                      "established" 10 5 (Some 100))
             (DirectPeeringSession.mk 1 1 ip_203_0_113_1 (Some 1) (Some 10)
                                      "established" 10 5 (Some 200))
             (live ip_203_0_113_1 (PInt 10) (PInt 5)) 200).
    reflexivity.
  - apply (proj1 (proj2 stamp_on_every_established_report)
             (InternetExchangePeeringSession.mk 1 1 (Some 1) ip_203_0_113_1
                                                false "established" 10 5
                                                (Some 100))
             (InternetExchangePeeringSession.mk 1 1 (Some 1) ip_203_0_113_1
                                                false "established" 0 5
                                                (Some 200))
             (live ip_203_0_113_1 PNone (PInt 5)) 200).
    reflexivity.
  - apply (proj1 (proj2 (proj2 stamp_on_every_established_report))
             (InternetExchangePeeringSession.mk 1 1 (Some 1) ip_203_0_113_1
                                                false "established" 10 5
                                                (Some 100))
             (InternetExchangePeeringSession.mk 1 1 (Some 1) ip_203_0_113_1
                                                false "established" 10 5
                                                (Some 200))
             (mkNeighbor "203.0.113.1" "Established" (PInt 10) (PInt 5)) 200).
    reflexivity.
Defined.

(** ** The update step: prefix counts *)

(** The expression of the IXP poll turns [None] into 0 and keeps every
    integer, negative ones too. *)
Lemma or_zero_spec (count : option Z) :
  or_zero count = match count with
                  | None => 0
                  | Some z => z
                  end.
Proof.
  destruct count as [z|]; simpl; [|reflexivity].
  destruct (z =? 0) eqn:E; [apply Z.eqb_eq in E; auto|reflexivity].
Qed.

(** C6: a negative or absent count is meant to be stored as 0 and the
    update is meant never to raise.  The exchange poll hands the reported
    -1 to [save()] as it is ([received or 0]): the save is refused, and the
    poll ends with [IntegrityError], the stored count being what it was.
    The BGP group poll raises [TypeError] on a count that is [None]
    ([received > 0]), and both raise [KeyError] on a count whose key is
    missing. *)
Theorem ixp_poll_hands_negative_count_to_save :
  (exists handed,
      InternetExchangePeeringSession_update_fields
        (idle_session 1 1 ip_203_0_113_1)
        (live ip_203_0_113_1 (PInt (-1)) (PInt 5)) (now own_session_db)
      = Ok handed
      /\ InternetExchangePeeringSession.received_prefix_count handed = -1
      /\ InternetExchange_poll_one
           ix_a (live ip_203_0_113_1 (PInt (-1)) (PInt 5)) own_session_db
         = InternetExchangePeeringSession_save handed own_session_db
      /\ InternetExchangePeeringSession_save handed own_session_db
         = (Raise IntegrityError, own_session_db))
  /\ InternetExchange_poll_peering_sessions
       (counts_on_10 (PInt (-1)) (PInt 5)) ix_a own_session_db
     = (Raise IntegrityError, own_session_db)
  /\ fst (BGPGroup_poll_peering_sessions (counts_on_10 PNone (PInt 5))
                                         group_1 direct_db)
     = Raise TypeError
  /\ fst (BGPGroup_poll_peering_sessions (counts_on_10 Absent (PInt 5))
                                         group_1 direct_db)
     = Raise (KeyError "received_prefix_count")
  /\ fst (InternetExchange_poll_peering_sessions
            (counts_on_10 Absent (PInt 5)) ix_a own_session_db)
     = Raise (KeyError "received_prefix_count").
Proof.
  split.
  - eexists. split; [reflexivity|]. repeat split; vm_compute; reflexivity.
  - repeat split; vm_compute; reflexivity.
Qed.

(** ** The transaction and the last-poll time *)

Lemma atomic_rollback {A : Type} (m : M A) (db db' : DB) (e : exn) :
  atomic m db = (Raise e, db') -> db' = db.
Proof.
  unfold atomic. destruct (m db) as [[a|e'] db1]; intros H; inversion H; auto.
Qed.

(** An exception leaving the IXP poll undoes every write of the cycle. *)
Lemma InternetExchange_poll_rollback
      (get_detail : Z -> neighbors_detail_t) (self : InternetExchange.t)
      (db db' : DB) (e : exn) :
  InternetExchange_poll_peering_sessions get_detail self db = (Raise e, db') ->
  db' = db.
Proof. apply atomic_rollback. Qed.

(** An exception leaving the BGP group poll undoes every write of the
    cycle. *)
Lemma BGPGroup_poll_rollback
      (get_detail : Z -> neighbors_detail_t) (self : BGPGroup.t)
      (db db' : DB) (e : exn) :
  BGPGroup_poll_peering_sessions get_detail self db = (Raise e, db') ->
  db' = db.
Proof.
  unfold BGPGroup_poll_peering_sessions.
  destruct (negb (BGPGroup.check_bgp_session_states self)); [discriminate|].
  unfold bind at 1, get_db.
  destruct (List.filter _ (direct_sessions db)) as [|s l]; [discriminate|].
  unfold bind at 1, lift.
  destruct (gather_details get_detail (s :: l) []) as [[|d ds]|e'];
    [discriminate| |intros H; inversion H; auto].
  unfold bind. destruct (atomic _ db) as [[u|e'] db1] eqn:Hat.
  - discriminate.
  - intros H; inversion H; subst. eapply atomic_rollback; eassumption.
Qed.

Lemma appends_refl (allowed : write -> Prop) (db : DB) : appends allowed db db.
Proof. exists []. rewrite app_nil_r. auto. Qed.

Lemma appends_trans (allowed : write -> Prop) (a b c : DB) :
  appends allowed a b -> appends allowed b c -> appends allowed a c.
Proof.
  intros (w1 & H1 & F1) (w2 & H2 & F2). exists (w1 ++ w2)%list.
  rewrite H2, H1, app_assoc. split; [reflexivity|].
  apply Forall_app; auto.
Qed.

Lemma for_each_appends {A : Type} (allowed : write -> Prop)
      (body : A -> M unit) (l : list A) :
  (forall x db, appends allowed db (snd (body x db))) ->
  forall db, appends allowed db (snd (for_each l body db)).
Proof.
  intros Hb. induction l as [|x l IH]; intros db; simpl.
  - apply appends_refl.
  - unfold bind. specialize (Hb x db).
    destruct (body x db) as [[u|e] db1]; simpl in *; [|exact Hb].
    eapply appends_trans; [exact Hb|apply IH].
Qed.

Lemma BGPGroup_poll_one_appends (self : BGPGroup.t) (router : Z)
      (session : neighbor_detail) (db : DB) :
  appends is_direct_session_save db
          (snd (BGPGroup_poll_one self router session db)).
Proof.
  unfold BGPGroup_poll_one, bind, get_db, timezone_now, lift.
  destruct (objects_get _ (direct_sessions db)) as [found|e].
  - destruct (DirectPeeringSession_update_fields found session (now db))
      as [updated|e] eqn:U; simpl; [|apply appends_refl].
    rewrite (@DirectPeeringSession_save_updated _ _ _ _ db U). simpl.
    exists [SaveDirectPeeringSession (DirectPeeringSession.pk updated)].
    split; [reflexivity|]. constructor; [eexists; reflexivity|constructor].
  - destruct e; simpl; apply appends_refl.
Qed.

(** A poll of a BGP group that returns true wrote the group's last-poll
    time exactly once, as its last write, after the session updates. *)
Lemma BGPGroup_poll_stamps_once_at_the_end
      (get_detail : Z -> neighbors_detail_t) (self : BGPGroup.t)
      (db db' : DB) :
  BGPGroup_poll_peering_sessions get_detail self db = (Ok true, db') ->
  exists ws,
    writes db' = (writes db ++ ws ++ [SaveBGPGroup (BGPGroup.pk self)])%list
    /\ Forall is_direct_session_save ws
    /\ List.find (fun g => BGPGroup.pk g =? BGPGroup.pk self) (bgp_groups db')
       = option_map (fun _ => BGPGroup_stamp self (now db))
                    (List.find (fun g => BGPGroup.pk g =? BGPGroup.pk self)
                               (bgp_groups db)).
Proof.
  unfold BGPGroup_poll_peering_sessions.
  destruct (negb (BGPGroup.check_bgp_session_states self)); [discriminate|].
  unfold bind at 1, get_db.
  destruct (List.filter _ (direct_sessions db)) as [|s l]; [discriminate|].
  unfold bind at 1, lift.
  destruct (gather_details get_detail (s :: l) []) as [[|d ds]|e'];
    [discriminate| |discriminate].
  unfold bind at 1, atomic, BGPGroup_poll_block. unfold bind at 1.
  pose proof (for_each_appends (allowed := is_direct_session_save)
                (fun entry => for_each (snd entry)
                                       (BGPGroup_poll_one self (fst entry)))
                (d :: ds)) as Hloop.
  specialize (Hloop
    (fun x db0 => for_each_appends (BGPGroup_poll_one self (fst x)) (snd x)
                    (fun y db1 => BGPGroup_poll_one_appends self (fst x) y db1)
                    db0) db).
  assert (Hkeep : forall (l0 : list (Z * list neighbor_detail)) db0,
             let db1 := snd (for_each l0
                               (fun entry => for_each (snd entry)
                                  (BGPGroup_poll_one self (fst entry))) db0) in
             bgp_groups db1 = bgp_groups db0 /\ now db1 = now db0).
  { assert (Hone : forall r y db0,
               let db1 := snd (BGPGroup_poll_one self r y db0) in
               bgp_groups db1 = bgp_groups db0 /\ now db1 = now db0).
    { intros r y db0. unfold BGPGroup_poll_one, bind, get_db, timezone_now, lift.
      destruct (objects_get _ (direct_sessions db0)) as [found|e].
      - destruct (DirectPeeringSession_update_fields found y (now db0))
          as [updated|e] eqn:U; simpl; auto.
        rewrite (@DirectPeeringSession_save_updated _ _ _ _ db0 U).
        simpl; auto.
      - destruct e; simpl; auto. }
    assert (Hin : forall r (l1 : list neighbor_detail) db0,
               let db1 := snd (for_each l1 (BGPGroup_poll_one self r) db0) in
               bgp_groups db1 = bgp_groups db0 /\ now db1 = now db0).
    { intros r l1. induction l1 as [|y l1 IH]; intros db0; simpl; [auto|].
      unfold bind. pose proof (Hone r y db0) as H1.
      destruct (BGPGroup_poll_one self r y db0) as [[u|e] db1]; simpl in *;
        [|exact H1].
      destruct (IH db1) as [A B]. destruct H1 as [C D].
      split; congruence. }
    intros l0. induction l0 as [|x l0 IH]; intros db0; simpl; [auto|].
    unfold bind. pose proof (Hin (fst x) (snd x) db0) as H1.
    destruct (for_each (snd x) (BGPGroup_poll_one self (fst x)) db0)
      as [[u|e] db1]; simpl in *; [|exact H1].
    destruct (IH db1) as [A B]. destruct H1 as [C D]. split; congruence. }
  specialize (Hkeep (d :: ds) db).
  destruct (for_each (d :: ds) _ db) as [[u|e] db1]; [|discriminate].
  simpl in Hloop, Hkeep. destruct Hkeep as [Hg Hn].
  unfold bind, timezone_now, BGPGroup_save, ret. simpl.
  intros H; inversion H; subst db'; clear H.
  destruct Hloop as (ws & Hw & Hf). exists ws. simpl.
  rewrite Hw, Hg, Hn, <- app_assoc. repeat split; auto.
  clear. induction (bgp_groups db) as [|g gs IH]; simpl; [reflexivity|].
  destruct (BGPGroup.pk g =? BGPGroup.pk self) eqn:E; simpl.
  - rewrite Z.eqb_refl. reflexivity.
  - rewrite E. exact IH.
Qed.

(** C3: the last-poll time of the scope is meant to be written exactly
    once, after all session updates of the cycle.  The poll of ix-a on
    [two_sessions_db] writes it twice, the first time before the second
    session is updated: [InternetExchange.poll_peering_sessions] saves it
    at the end of every VRF of every router. *)
Theorem ixp_poll_writes_timestamp_per_vrf :
  InternetExchange_poll_peering_sessions two_vrfs_on_10 ix_a two_sessions_db
  = (Ok true,
     mkDB [] [] [] [] [] []
          [InternetExchange.mk 1 "ix-a" (Some 7) (Some 1) true (Some 100); ix_b]
          [Connection.mk 1 (Some 1) (Some 10) (Some 70)] [10; 20]
          [InternetExchangePeeringSession.mk 1 1 (Some 1) ip_203_0_113_1 false
                                             "established" 10 5 (Some 100);
           InternetExchangePeeringSession.mk 2 1 (Some 1) ip_203_0_113_2 false
                                             "established" 7 3 (Some 100)]
          100
          [SaveInternetExchangePeeringSession 1; SaveInternetExchange 1;
           SaveInternetExchangePeeringSession 2; SaveInternetExchange 1]).
Proof. vm_compute. reflexivity. Qed.

(** ** A router without data *)

Lemma InternetExchange_poll_routers_app
      (get_detail : Z -> neighbors_detail_t) (self : InternetExchange.t)
      (first rest : list Z) :
  forall db,
    InternetExchange_poll_routers get_detail self (first ++ rest) db
    = match InternetExchange_poll_routers get_detail self first db with
      | (Ok true, db1) => InternetExchange_poll_routers get_detail self rest db1
      | other => other
      end.
Proof.
  induction first as [|r first IH]; intros db;
    cbn [app InternetExchange_poll_routers].
  - reflexivity.
  - destruct (get_detail r) as [|vrf vrfs]; [reflexivity|].
    unfold bind.
    match goal with
    | |- context [for_each ?l ?b db] =>
        destruct (for_each l b db) as [[u|e] db1]
    end; [apply IH|reflexivity].
Qed.

(** C4, as stated, fails.  When router 10 has no data, router 20 is not
    polled: its matched session stays idle and the poll returns false.
    When router 10 was polled and router 20 has no data, the poll returns
    false although one router was polled. *)
Lemma router_without_data_ends_the_poll :
  InternetExchange_get_routers ix_a session_on_20_db = [10; 20]
  /\ InternetExchange_poll_peering_sessions one_neighbor_on_20 ix_a
                                            session_on_20_db
     = (Ok false, session_on_20_db)
  /\ fst (InternetExchange_poll_peering_sessions one_neighbor_on_10 ix_a
                                                 session_on_10_db)
     = Ok false
  /\ List.map InternetExchangePeeringSession.bgp_state
              (ixp_sessions
                 (snd (InternetExchange_poll_peering_sessions
                         one_neighbor_on_10 ix_a session_on_10_db)))
     = ["established"].
Proof. repeat split; vm_compute; reflexivity. Qed.

(** C4, amended: during an InternetExchange poll, the first connected
    router (in query order) that yields no neighbor data ends the poll:
    the poll returns false, no router after it is polled, and the
    database is as the routers before it left it. *)
Theorem router_without_data_stops_ixp_poll
        (get_detail : Z -> neighbors_detail_t) (self : InternetExchange.t)
        (db db1 : DB) (before after : list Z) (router : Z) (polled : bool) :
  InternetExchange.check_bgp_session_states self = true ->
  InternetExchange_get_routers self db = (before ++ router :: after)%list ->
  get_detail router = [] ->
  InternetExchange_poll_routers get_detail self before db = (Ok polled, db1) ->
  InternetExchange_poll_peering_sessions get_detail self db = (Ok false, db1).
Proof.
  intros Hcheck Hrouters Hempty Hbefore.
  unfold InternetExchange_poll_peering_sessions, atomic, bind, get_db.
  rewrite Hrouters, Hcheck.
  destruct (Z.of_nat (List.length (before ++ router :: after)) <? 0) eqn:E;
    [apply Z.ltb_lt in E; lia|].
  cbn [negb]. rewrite InternetExchange_poll_routers_app, Hbefore.
  destruct polled; [|reflexivity].
  simpl. rewrite Hempty. reflexivity.
Qed.

(** Router 10 is polled, router 20 has no data: the poll returns false and
    keeps what router 10's answer changed. *)
Lemma router_without_data_stops_ixp_poll_witness :
  InternetExchange_poll_peering_sessions one_neighbor_on_10 ix_a
                                         session_on_10_db
  = (Ok false,
     snd (InternetExchange_poll_routers one_neighbor_on_10 ix_a [10]
                                        session_on_10_db)).
Proof.
  apply (@router_without_data_stops_ixp_poll one_neighbor_on_10 ix_a
           session_on_10_db _ [10] [] 20 true);
    vm_compute; reflexivity.
Defined.

(** ** Session import *)

(** C5: the second count is meant to be the number of distinct
    AutonomousSystem records created by the call.  With AS 65001 already
    stored, the import creates two sessions and no AS record, and returns
    (2, 2); with AS 65001 not yet stored it creates one AS record and
    returns (2, 2) again: the counter goes up for every neighbor whose AS
    could be resolved. *)
Theorem import_counts_resolved_neighbors :
  fst (InternetExchange_import_sessions import_neighbors ix_a connection_1
                                        (import_db [as_64500; as_65001]))
  = Ok (2, 2)
  /\ autonomous_systems
       (snd (InternetExchange_import_sessions import_neighbors ix_a connection_1
                                              (import_db [as_64500; as_65001])))
     = [as_64500; as_65001]
  /\ fst (InternetExchange_import_sessions import_neighbors ix_a connection_1
                                           (import_db [as_64500]))
     = Ok (2, 2)
  /\ autonomous_systems
       (snd (InternetExchange_import_sessions import_neighbors ix_a connection_1
                                              (import_db [as_64500])))
     = [as_64500; as_65001].
Proof. repeat split; vm_compute; reflexivity. Qed.

(** What [create_from_peeringdb] leaves behind. *)
Lemma create_from_peeringdb_effect (asn : Z) (db db' : DB)
      (r : option AutonomousSystem.t) :
  AutonomousSystem_create_from_peeringdb asn db = (Ok r, db') ->
  networks db' = networks db
  /\ ixp_sessions db' = ixp_sessions db
  /\ (r = None ->
      db' = db
      /\ objects_get (fun n => Network.asn n =? asn) (networks db)
         = Raise DoesNotExist).
Proof.
  unfold AutonomousSystem_create_from_peeringdb, bind, get_db.
  destruct (objects_get _ (networks db)) as [network|e] eqn:G.
  - destruct (objects_get _ (autonomous_systems db)) as [a|e].
    + intros H; inversion H; subst. repeat split; auto; discriminate.
    + destruct e; try (intros H; discriminate H).
      intros H; inversion H; subst. simpl. repeat split; auto; discriminate.
  - destruct e; try (intros H; discriminate H).
    intros H; inversion H; subst. auto.
Qed.

(** The two counters go up together. *)
Lemma import_one_counts (allowed : list IXLanPrefix.t) (connection : Connection.t)
      (st st' : import_state) (session : bgp_peer) (db db' : DB) :
  import_one allowed connection st session db = (Ok st', db') ->
  asn_number st = session_number st ->
  asn_number st' = session_number st'.
Proof.
  unfold import_one.
  destruct (negb (is_valid allowed (ip_address session)));
    [intros H; inversion H; subst; auto|].
  unfold bind at 1, get_db.
  destruct (objects_get _ (ixp_sessions db)) as [found|e];
    [intros H; inversion H; subst; auto|].
  destruct e; try (intros H; discriminate H).
  unfold bind at 1.
  destruct (AutonomousSystem_create_from_peeringdb (remote_asn session) db)
    as [[[a|]|e] db1]; try (intros H; discriminate H).
  - unfold bind, get_db, InternetExchangePeeringSession_create, ret.
    intros H; inversion H; subst; simpl. intros ->. reflexivity.
  - unfold ret. intros H; inversion H; subst; simpl. auto.
Qed.

Lemma import_loop_counts (allowed : list IXLanPrefix.t)
      (connection : Connection.t) (sessions : list bgp_peer) :
  forall st st' db db',
    import_loop allowed connection sessions st db = (Ok st', db') ->
    asn_number st = session_number st ->
    asn_number st' = session_number st'.
Proof.
  induction sessions as [|s l IH]; intros st st' db db'; simpl.
  - intros H; inversion H; subst; auto.
  - unfold bind.
    destruct (import_one allowed connection st s db) as [[st1|e] db1] eqn:E;
      [|discriminate].
    intros H Heq. eapply IH; [exact H|].
    eapply import_one_counts; eassumption.
Qed.

(** The second count always equals the first: it counts the sessions
    created, not the AS records created. *)
Lemma import_counts_equal
      (device : Z -> option napalm_dict_t) (self : InternetExchange.t)
      (connection : Connection.t) (db db' : DB) (sessions asns : Z) :
  InternetExchange_import_sessions device self connection db
  = (Ok (sessions, asns), db') ->
  asns = sessions.
Proof.
  unfold InternetExchange_import_sessions, atomic, bind, get_db.
  destruct (Connection.router connection) as [router|]; [|discriminate].
  destruct (import_loop _ connection _ _ db) as [[st|e] db1] eqn:E;
    [|discriminate].
  unfold ret. intros H; inversion H; subst.
  eapply import_loop_counts; [exact E|reflexivity].
Qed.

(** *** Importing twice *)

Lemma import_one_quiet (allowed : list IXLanPrefix.t)
      (connection : Connection.t) (st : import_state) (n : bgp_peer) (db : DB) :
  quiet allowed connection db n ->
  exists st',
    import_one allowed connection st n db = (Ok st', db)
    /\ session_number st' = session_number st
    /\ asn_number st' = asn_number st.
Proof.
  intros Hq. unfold import_one.
  destruct (is_valid allowed (ip_address n)) eqn:V; simpl;
    [|exists st; auto].
  destruct Hq as [Hq | [(s & Hs) | (Hnone & Hnet)]]; [congruence| |].
  - unfold bind, get_db, objects_get. rewrite Hs. exists st; auto.
  - unfold bind at 1, get_db. unfold objects_get at 1. rewrite Hnone.
    unfold bind at 1, AutonomousSystem_create_from_peeringdb.
    unfold bind at 1, get_db. rewrite Hnet. unfold ret.
    eexists; split; [reflexivity|]. simpl; auto.
Qed.

Lemma import_one_effect (allowed : list IXLanPrefix.t)
      (connection : Connection.t) (st st' : import_state) (n : bgp_peer)
      (db db' : DB) :
  import_one allowed connection st n db = (Ok st', db') ->
  networks db' = networks db
  /\ ixlan_prefixes db' = ixlan_prefixes db
  /\ ((ixp_sessions db' = ixp_sessions db /\ quiet allowed connection db n)
      \/ exists s,
           ixp_sessions db' = (ixp_sessions db ++ [s])%list
           /\ List.filter (import_lookup connection (ip_address n))
                          (ixp_sessions db) = []
           /\ InternetExchangePeeringSession.ip_address s = ip_address n
           /\ InternetExchangePeeringSession.ixp_connection s
              = Some (Connection.pk connection)).
Proof.
  unfold import_one.
  destruct (is_valid allowed (ip_address n)) eqn:V; simpl.
  2:{ intros H; inversion H; subst. repeat split; auto.
      left; split; [reflexivity|left; exact V]. }
  unfold bind at 1, get_db. unfold objects_get at 1.
  destruct (List.filter _ (ixp_sessions db)) as [|s0 [|s1 l]] eqn:F.
  - unfold bind at 1.
    destruct (AutonomousSystem_create_from_peeringdb (remote_asn n) db)
      as [[r|e] db1] eqn:C; [|discriminate].
    destruct (create_from_peeringdb_effect _ _ C) as (Hn & Hs & Hnone).
    destruct r as [a|].
    + unfold bind, get_db, InternetExchangePeeringSession_create, ret.
      intros H; inversion H; subst; simpl.
      assert (Hp : ixlan_prefixes db1 = ixlan_prefixes db).
      { clear - C. unfold AutonomousSystem_create_from_peeringdb, bind, get_db in C.
        destruct (objects_get _ (networks db)) as [nw|e];
          [|destruct e; inversion C; reflexivity].
        destruct (objects_get _ (autonomous_systems db)) as [x|e];
          [inversion C; reflexivity|].
        destruct e; inversion C; reflexivity. }
      repeat split; auto. right. eexists. rewrite Hs.
      split; [reflexivity|]. simpl. auto.
    + destruct (Hnone eq_refl) as [-> Hnet]. unfold ret.
      intros H; inversion H; subst. repeat split; auto.
      left; split; [reflexivity|]. right; right. auto.
  - unfold ret. intros H; inversion H; subst. repeat split; auto.
    left; split; [reflexivity|]. right; left. exists s0. exact F.
  - discriminate.
Qed.

Lemma import_lookup_created (connection : Connection.t)
      (s : InternetExchangePeeringSession.t) (ip : ipaddress.IPAddress) :
  InternetExchangePeeringSession.ixp_connection s
  = Some (Connection.pk connection) ->
  import_lookup connection ip s
  = ipaddress.eqb (InternetExchangePeeringSession.ip_address s) ip.
Proof.
  intros H. unfold import_lookup, fk_is. rewrite H. simpl.
  rewrite Z.eqb_refl. reflexivity.
Qed.

(** A neighbor just processed is quiet afterwards. *)
Lemma import_one_settles (allowed : list IXLanPrefix.t)
      (connection : Connection.t) (st st' : import_state) (n : bgp_peer)
      (db db' : DB) :
  import_one allowed connection st n db = (Ok st', db') ->
  quiet allowed connection db' n.
Proof.
  intros H. destruct (import_one_effect _ _ _ _ _ H)
    as (Hn & _ & [[Hs Hq] | (s & Hs & Hnone & Hip & Hc)]).
  - unfold quiet in *. rewrite Hs, Hn. exact Hq.
  - right; left. exists s. rewrite Hs, filter_app, Hnone. simpl.
    rewrite (import_lookup_created _ _ _ Hc), Hip, ipaddress_eqb_refl.
    reflexivity.
Qed.

(** A quiet neighbor stays quiet when another neighbor is processed. *)
Lemma import_one_keeps_quiet (allowed : list IXLanPrefix.t)
      (connection : Connection.t) (st st' : import_state) (m n : bgp_peer)
      (db db' : DB) :
  import_one allowed connection st m db = (Ok st', db') ->
  quiet allowed connection db n ->
  quiet allowed connection db' n.
Proof.
  intros H Hq. destruct (import_one_effect _ _ _ _ _ H)
    as (Hn & _ & [[Hs _] | (s & Hs & Hnone & Hip & Hc)]).
  - unfold quiet in *. rewrite Hs, Hn. exact Hq.
  - unfold quiet in *. rewrite Hs, Hn, filter_app. simpl.
    rewrite (import_lookup_created _ _ _ Hc), Hip.
    destruct Hq as [Hq | [(s0 & Hs0) | (Hn0 & Hnet)]]; [auto| |].
    + right; left. exists s0. rewrite Hs0.
      destruct (ipaddress.eqb (ip_address m) (ip_address n)) eqn:E;
        [|reflexivity].
      apply ipaddress_eqb_eq in E. rewrite E in Hnone. congruence.
    + rewrite Hn0.
      destruct (ipaddress.eqb (ip_address m) (ip_address n)) eqn:E.
      * right; left. exists s. reflexivity.
      * right; right. auto.
Qed.

Lemma import_loop_keeps_quiet (allowed : list IXLanPrefix.t)
      (connection : Connection.t) (n : bgp_peer) (l : list bgp_peer) :
  forall st st' db db',
    import_loop allowed connection l st db = (Ok st', db') ->
    quiet allowed connection db n ->
    quiet allowed connection db' n.
Proof.
  induction l as [|m l IH]; intros st st' db db'; simpl.
  - intros H; inversion H; subst; auto.
  - unfold bind.
    destruct (import_one allowed connection st m db) as [[st1|e] db1] eqn:E;
      [|discriminate].
    intros H Hq. eapply IH; [exact H|].
    eapply import_one_keeps_quiet; eassumption.
Qed.

(** After a successful run of the loop every neighbor of the list is
    quiet, and the PeeringDB prefixes are as before. *)
Lemma import_loop_settles (allowed : list IXLanPrefix.t)
      (connection : Connection.t) (l : list bgp_peer) :
  forall st st' db db',
    import_loop allowed connection l st db = (Ok st', db') ->
    Forall (quiet allowed connection db') l
    /\ ixlan_prefixes db' = ixlan_prefixes db.
Proof.
  induction l as [|m l IH]; intros st st' db db'; simpl.
  - intros H; inversion H; subst; auto.
  - unfold bind.
    destruct (import_one allowed connection st m db) as [[st1|e] db1] eqn:E;
      [|discriminate].
    intros H. destruct (IH _ _ _ _ H) as [Hall Hp].
    destruct (import_one_effect _ _ _ _ _ E) as (_ & Hp1 & _).
    split; [|congruence]. constructor; [|exact Hall].
    eapply import_loop_keeps_quiet; [exact H|].
    eapply import_one_settles; exact E.
Qed.

(** Over quiet neighbors the loop writes nothing and counts nothing. *)
Lemma import_loop_quiet (allowed : list IXLanPrefix.t)
      (connection : Connection.t) (db : DB) (l : list bgp_peer) :
  Forall (quiet allowed connection db) l ->
  forall st,
  exists st',
    import_loop allowed connection l st db = (Ok st', db)
    /\ session_number st' = session_number st
    /\ asn_number st' = asn_number st.
Proof.
  induction 1 as [|n l Hn _ IH]; intros st; simpl.
  - exists st; auto.
  - destruct (@import_one_quiet allowed connection st n db Hn)
      as (st1 & H1 & Hs1 & Ha1).
    destruct (IH st1) as (st2 & H2 & Hs2 & Ha2).
    exists st2. unfold bind. rewrite H1. split; [exact H2|]. split; congruence.
Qed.

(** C8: session import is idempotent per connection.  After a first
    successful [import_sessions] of a connection, running it again on the
    unchanged live-neighbor set returns (0, 0) and leaves the database as
    it is: no session and no AS record is created. *)
Theorem import_sessions_idempotent
        (device : Z -> option napalm_dict_t) (self : InternetExchange.t)
        (connection : Connection.t) (db db' : DB) (sessions asns : Z) :
  InternetExchange_import_sessions device self connection db
  = (Ok (sessions, asns), db') ->
  InternetExchange_import_sessions device self connection db'
  = (Ok (0, 0), db').
Proof.
  unfold InternetExchange_import_sessions, atomic, bind, get_db.
  destruct (Connection.router connection) as [router|]; [|discriminate].
  destruct (import_loop _ connection _ _ db) as [[st|e] db1] eqn:E;
    [|discriminate].
  unfold ret. intros H; inversion H; subst; clear H.
  destruct (import_loop_settles _ _ _ _ _ E) as [Hall Hp].
  assert (Hpre : InternetExchange_get_prefixes self db'
                 = InternetExchange_get_prefixes self db).
  { unfold InternetExchange_get_prefixes. rewrite Hp. reflexivity. }
  rewrite Hpre.
  destruct (import_loop_quiet Hall (mkImport 0 0 [])) as (st2 & H2 & Hs & Ha).
  rewrite H2. simpl in Hs, Ha. rewrite Hs, Ha. reflexivity.
Qed.

(** The import of the sample neighbors, run again on its own result. *)
Lemma import_sessions_idempotent_witness :
  InternetExchange_import_sessions
    import_neighbors ix_a connection_1
    (snd (InternetExchange_import_sessions import_neighbors ix_a connection_1
                                           (import_db [as_64500])))
  = (Ok (0, 0),
     snd (InternetExchange_import_sessions import_neighbors ix_a connection_1
                                           (import_db [as_64500]))).
Proof.
  apply (@import_sessions_idempotent import_neighbors ix_a connection_1
           (import_db [as_64500]) _ 2 2).
  vm_compute. reflexivity.
Defined.

(** ** Abandonment *)

(** C9: a session is meant to be abandoned only if its connection's IXP
    is linked to a PeeringDB record.  [is_abandoned] reads the link of the
    connection instead ([self.ixp_connection.linked_to_peeringdb]): with
    the connection linked and the IXP not linked the session is
    abandoned, and with the IXP linked and the connection not linked it
    is not, all other conditions holding. *)
Theorem is_abandoned_reads_connection_link :
  InternetExchange_linked_to_peeringdb
    (InternetExchange.mk 1 "ix-a" None (Some 1) true None) = false
  /\ InternetExchangePeeringSession_is_abandoned
       idle_65001 (abandonment_db None (Some 70))
     = Ok true
  /\ InternetExchange_linked_to_peeringdb
       (InternetExchange.mk 1 "ix-a" (Some 7) (Some 1) true None) = true
  /\ InternetExchangePeeringSession_is_abandoned
       idle_65001 (abandonment_db (Some 7) None)
     = Ok false.
Proof. repeat split; vm_compute; reflexivity. Qed.

(** What the code decides on: a session is abandoned exactly when its
    connection is linked to PeeringDB, the connection's IXP polls session
    states, the session's AS has a cached network, no member record has
    the session's address, and the state is idle or active. *)
Lemma is_abandoned_iff (self : InternetExchangePeeringSession.t) (db : DB) :
  InternetExchangePeeringSession_is_abandoned self db = Ok true
  <-> exists connection ixp autonomous_system network,
        related Connection.pk (connections db)
                (InternetExchangePeeringSession.ixp_connection self)
        = Ok (Some connection)
        /\ Connection_linked_to_peeringdb connection = true
        /\ related InternetExchange.pk (internet_exchanges db)
                   (Connection.internet_exchange_point connection)
           = Ok (Some ixp)
        /\ InternetExchange.check_bgp_session_states ixp = true
        /\ related AutonomousSystem.pk (autonomous_systems db)
                   (Some (InternetExchangePeeringSession.autonomous_system self))
           = Ok (Some autonomous_system)
        /\ AutonomousSystem_peeringdb_network autonomous_system db
           = Ok (Some network)
        /\ InternetExchangePeeringSession_exists_in_peeringdb self db = Ok false
        /\ (InternetExchangePeeringSession.bgp_state self = "idle"
            \/ InternetExchangePeeringSession.bgp_state self = "active").
Proof.
  unfold InternetExchangePeeringSession_is_abandoned. split.
  - destruct (related Connection.pk (connections db)
                      (InternetExchangePeeringSession.ixp_connection self))
      as [[c|]|e] eqn:Hc; reduce_or; try discriminate.
    destruct (Connection_linked_to_peeringdb c) eqn:L; reduce_or;
      try discriminate.
    destruct (related InternetExchange.pk (internet_exchanges db)
                      (Connection.internet_exchange_point c))
      as [[ix|]|e] eqn:Hix; reduce_or; try discriminate.
    destruct (InternetExchange.check_bgp_session_states ix) eqn:K; reduce_or;
      try discriminate.
    destruct (related AutonomousSystem.pk (autonomous_systems db)
                (Some (InternetExchangePeeringSession.autonomous_system self)))
      as [[a|]|e] eqn:Ha; reduce_or; try discriminate.
    destruct (AutonomousSystem_peeringdb_network a db) as [[nw|]|e] eqn:Hn;
      reduce_or; try discriminate.
    destruct (InternetExchangePeeringSession_exists_in_peeringdb self db)
      as [[|]|e] eqn:Hm; reduce_or; try discriminate.
    unfold BGPState.IDLE, BGPState.ACTIVE. cbn [existsb].
    destruct (String.eqb (InternetExchangePeeringSession.bgp_state self) "idle")
      eqn:E1; cbn [existsb orb negb].
    + apply String.eqb_eq in E1. intros _.
      exists c, ix, a, nw. repeat split; auto.
    + destruct (String.eqb (InternetExchangePeeringSession.bgp_state self)
                           "active") eqn:E2; cbn [existsb orb negb];
        try discriminate.
      apply String.eqb_eq in E2. intros _.
      exists c, ix, a, nw. repeat split; auto.
  - intros (c & ix & a & nw & Hc & L & Hix & K & Ha & Hn & Hm & Hs).
    rewrite Hc. reduce_or. rewrite L. reduce_or. rewrite Hix. reduce_or.
    rewrite K. reduce_or. rewrite Ha. reduce_or. rewrite Hn. reduce_or.
    rewrite Hm. reduce_or.
    unfold BGPState.IDLE, BGPState.ACTIVE.
    destruct Hs as [-> | ->]; reflexivity.
Qed.

(** A session in state established is never abandoned. *)
Lemma established_never_abandoned
      (self : InternetExchangePeeringSession.t) (db : DB) :
  InternetExchangePeeringSession.bgp_state self = BGPState.ESTABLISHED ->
  InternetExchangePeeringSession_is_abandoned self db <> Ok true.
Proof.
  intros Hs H. apply is_abandoned_iff in H.
  destruct H as (? & ? & ? & ? & _ & _ & _ & _ & _ & _ & _ & [H | H]);
    rewrite Hs in H; discriminate.
Qed.

(** A session whose AS has no cached network record is never abandoned. *)
Lemma no_network_never_abandoned
      (self : InternetExchangePeeringSession.t) (db : DB)
      (autonomous_system : AutonomousSystem.t) :
  related AutonomousSystem.pk (autonomous_systems db)
          (Some (InternetExchangePeeringSession.autonomous_system self))
  = Ok (Some autonomous_system) ->
  AutonomousSystem_peeringdb_network autonomous_system db = Ok None ->
  InternetExchangePeeringSession_is_abandoned self db <> Ok true.
Proof.
  intros Ha Hn H. apply is_abandoned_iff in H.
  destruct H as (? & ? & a & ? & _ & _ & _ & _ & Ha' & Hn' & _).
  rewrite Ha in Ha'. inversion Ha'; subst. congruence.
Qed.

(** ** Available peers *)










(** The member of AS 65001, peered over v4 only, is still available, and
    the result is by ascending ASN. *)
Lemma available_peers_one_family_peered :
  InternetExchange_get_available_peers ix_a peers_db
  = Ok [member_65001; NetworkIXLan.mk 65002 7 None (Some ip_203_0_113_2)].
Proof. vm_compute. reflexivity. Qed.


(** * Further properties of the code *)

Local Open Scope list_scope.

(** ** The normalizer, continued *)

(** An entry the loop body drops leaves the list as it is. *)
Lemma peer_step_dropped (acc : list bgp_peer) (k : string) (det : peer_details) :
  ipaddress.ip_address k = None \/ remote_as det = None ->
  peer_step acc (k, det) = acc.
Proof.
  intros H.
  destruct (peer_step_cases acc (k, det)) as [E | (a & asn & _ & Has & Hip & _)];
    [exact E|].
  simpl in Has, Hip. destruct H; congruence.
Qed.

Lemma all_entries_app (d1 d2 : napalm_dict_t) :
  all_entries (d1 ++ d2) = (all_entries d1 ++ all_entries d2)%list.
Proof. unfold all_entries. apply flat_map_app. Qed.

(** A peer whose key is not an address, or that has no [remote_as], can
    be taken out of the router's answer without changing the result: it
    is dropped alone and the traversal goes on. *)
Theorem normalizer_ignores_dropped_entry
        (vrfs_before vrfs_after : napalm_dict_t) (vrf : string)
        (before after : list (string * peer_details))
        (k : string) (det : peer_details) :
  ipaddress.ip_address k = None \/ remote_as det = None ->
  _napalm_bgp_neighbors_to_peer_list
    (Some (vrfs_before
           ++ (vrf, mkVrf (before ++ (k, det) :: after)) :: vrfs_after)%list)
  = _napalm_bgp_neighbors_to_peer_list
      (Some (vrfs_before ++ (vrf, mkVrf (before ++ after)) :: vrfs_after)%list).
Proof.
  intros H. rewrite !peer_list_flat, !all_entries_app.
  change (all_entries ((vrf, mkVrf (before ++ (k, det) :: after)) :: vrfs_after))
    with ((before ++ (k, det) :: after) ++ all_entries vrfs_after).
  change (all_entries ((vrf, mkVrf (before ++ after)) :: vrfs_after))
    with ((before ++ after) ++ all_entries vrfs_after).
  rewrite !fold_left_app. cbn [fold_left].
  rewrite (@peer_step_dropped _ k det H). reflexivity.
Qed.

Lemma normalizer_ignores_dropped_entry_witness :
  _napalm_bgp_neighbors_to_peer_list
    (Some [("default", mkVrf [("203.0.113.1", mkDetails (Some 65001));
                              ("not-an-address", mkDetails (Some 65002));
                              ("203.0.113.2", mkDetails (Some 65001))])])
  = _napalm_bgp_neighbors_to_peer_list
      (Some [("default", mkVrf [("203.0.113.1", mkDetails (Some 65001));
                                ("203.0.113.2", mkDetails (Some 65001))])]).
Proof.
  apply (@normalizer_ignores_dropped_entry [] [] "default"
           [("203.0.113.1", mkDetails (Some 65001))]
           [("203.0.113.2", mkDetails (Some 65001))]
           "not-an-address" (mkDetails (Some 65002))).
  left. vm_compute. reflexivity.
Defined.

Lemma peer_list_sound_witness :
  exists k det,
    In (k, det)
       (all_entries [("default",
                      mkVrf [("203.0.113.1", mkDetails (Some 65001));
                             ("203.0.113.2", mkDetails None)])])
    /\ remote_as det = Some 65001
    /\ ipaddress.ip_address k = Some ip_203_0_113_1.
Proof.
  apply (@peer_list_sound
           [("default", mkVrf [("203.0.113.1", mkDetails (Some 65001));
                               ("203.0.113.2", mkDetails None)])]
           (mkPeer ip_203_0_113_1 65001)).
  vm_compute. left. reflexivity.
Defined.

Lemma peer_list_nodup_canonical_witness :
  NoDup (List.map ip_address
           (_napalm_bgp_neighbors_to_peer_list
              (Some [("default", mkVrf [("203.0.113.1", mkDetails (Some 65001))]);
                     ("customers",
                      mkVrf [("203.0.113.1", mkDetails (Some 65001));
                             ("2001:db8::1", mkDetails (Some 65002))])]))).
Proof.
  apply peer_list_nodup_canonical.
  repeat constructor; intros a H; vm_compute in H; inversion H; subst;
    vm_compute; reflexivity.
Defined.

(** ** Reasoning on loops and blocks *)

Lemma bind_rel {A B : Type} (R : DB -> DB -> Prop)
      (m : M A) (f : A -> M B) (db : DB) :
  (forall a b c, R a b -> R b c -> R a c) ->
  R db (snd (m db)) ->
  (forall a db1, R db1 (snd (f a db1))) ->
  R db (snd (bind m f db)).
Proof.
  intros Ht H1 H2. unfold bind.
  destruct (m db) as [[a|e] db1]; simpl in *; [|exact H1].
  eapply Ht; [exact H1|apply H2].
Qed.

Lemma atomic_rel {A : Type} (R : DB -> DB -> Prop) (m : M A) (db : DB) :
  R db db -> R db (snd (m db)) -> R db (snd (atomic m db)).
Proof.
  intros Hr H. unfold atomic. destruct (m db) as [[a|e] db1]; simpl in *; auto.
Qed.

Lemma for_each_rel {A : Type} (R : DB -> DB -> Prop)
      (body : A -> M unit) (l : list A) :
  (forall db, R db db) ->
  (forall a b c, R a b -> R b c -> R a c) ->
  (forall x, In x l -> forall db, R db (snd (body x db))) ->
  forall db, R db (snd (for_each l body db)).
Proof.
  intros Hr Ht. induction l as [|x l IH]; intros Hb db; simpl.
  - apply Hr.
  - apply bind_rel; [exact Ht|apply Hb; left; reflexivity|].
    intros _ db1. apply IH. intros y Hy. apply Hb. right. exact Hy.
Qed.

Lemma replace_row_keys {A : Type} (key : A -> Z) (obj : A) (table : list A) :
  List.map key (replace_row key obj table) = List.map key table.
Proof.
  unfold replace_row. rewrite map_map. apply map_ext_in. intros row _.
  destruct (key row =? key obj) eqn:E; [|reflexivity].
  apply Z.eqb_eq in E. auto.
Qed.

(** ** What the polls leave alone *)

Lemma keeps_rows_refl (db : DB) : keeps_rows db db.
Proof. unfold keeps_rows. repeat split; reflexivity. Qed.

Lemma keeps_rows_trans (a b c : DB) :
  keeps_rows a b -> keeps_rows b c -> keeps_rows a c.
Proof.
  unfold keeps_rows.
  intros (A1 & A2 & A3 & A4 & A5 & A6 & A7 & A8 & A9 & A10 & A11)
         (B1 & B2 & B3 & B4 & B5 & B6 & B7 & B8 & B9 & B10 & B11).
  repeat split; congruence.
Qed.

Lemma BGPGroup_poll_one_keeps_rows (self : BGPGroup.t) (router : Z)
      (session : neighbor_detail) (db : DB) :
  keeps_rows db (snd (BGPGroup_poll_one self router session db)).
Proof.
  unfold BGPGroup_poll_one, bind, get_db, timezone_now, lift.
  destruct (objects_get _ (direct_sessions db)) as [found|e].
  - destruct (DirectPeeringSession_update_fields found session (now db))
      as [updated|e] eqn:U; simpl; [|apply keeps_rows_refl].
    rewrite (@DirectPeeringSession_save_updated _ _ _ _ db U).
    unfold keeps_rows; simpl. rewrite replace_row_keys. repeat split.
  - destruct e; simpl; apply keeps_rows_refl.
Qed.

Lemma InternetExchange_poll_one_keeps_rows (self : InternetExchange.t)
      (session : neighbor_detail) (db : DB) :
  keeps_rows db (snd (InternetExchange_poll_one self session db)).
Proof.
  unfold InternetExchange_poll_one, bind, get_db, timezone_now, lift.
  destruct (objects_get _ (ixp_sessions db)) as [found|e].
  - destruct (InternetExchangePeeringSession_update_fields found session (now db))
      as [updated|e]; simpl; [|apply keeps_rows_refl].
    destruct (InternetExchangePeeringSession_save_cases updated db)
      as [(_ & _ & ->) | ->]; [|apply keeps_rows_refl].
    unfold keeps_rows; simpl. rewrite replace_row_keys. repeat split.
  - destruct e; simpl; apply keeps_rows_refl.
Qed.

Lemma BGPGroup_poll_block_keeps_rows (self : BGPGroup.t)
      (details : list (Z * list neighbor_detail)) (db : DB) :
  keeps_rows db (snd (BGPGroup_poll_block self details db)).
Proof.
  unfold BGPGroup_poll_block.
  apply bind_rel; [exact keeps_rows_trans| |].
  - apply for_each_rel; [exact keeps_rows_refl|exact keeps_rows_trans|].
    intros e _ db0.
    apply for_each_rel; [exact keeps_rows_refl|exact keeps_rows_trans|].
    intros n _ db1. apply BGPGroup_poll_one_keeps_rows.
  - intros _ db1. unfold bind, timezone_now, BGPGroup_save. simpl.
    unfold keeps_rows; simpl. rewrite replace_row_keys. repeat split.
Qed.

Lemma InternetExchange_poll_vrf_keeps_rows (self : InternetExchange.t)
      (as_details : list (Z * list neighbor_detail)) (db : DB) :
  keeps_rows db (snd (InternetExchange_poll_vrf self as_details db)).
Proof.
  unfold InternetExchange_poll_vrf.
  apply bind_rel; [exact keeps_rows_trans| |].
  - apply for_each_rel; [exact keeps_rows_refl|exact keeps_rows_trans|].
    intros e _ db0.
    apply for_each_rel; [exact keeps_rows_refl|exact keeps_rows_trans|].
    intros n _ db1. apply InternetExchange_poll_one_keeps_rows.
  - intros _ db1. unfold bind, timezone_now, InternetExchange_save. simpl.
    unfold keeps_rows; simpl. rewrite replace_row_keys. repeat split.
Qed.

Lemma InternetExchange_poll_routers_keeps_rows
      (get_detail : Z -> neighbors_detail_t) (self : InternetExchange.t)
      (connected_routers : list Z) :
  forall db,
    keeps_rows db (snd (InternetExchange_poll_routers get_detail self
                                                      connected_routers db)).
Proof.
  induction connected_routers as [|r l IH]; intros db;
    cbn [InternetExchange_poll_routers]; [apply keeps_rows_refl|].
  destruct (get_detail r) as [|vrf vrfs]; [apply keeps_rows_refl|].
  apply bind_rel; [exact keeps_rows_trans| |intros _ db1; apply IH].
  apply for_each_rel; [exact keeps_rows_refl|exact keeps_rows_trans|].
  intros v _ db1. apply InternetExchange_poll_vrf_keeps_rows.
Qed.

(** Whatever the routers report and however the poll ends, a poll of a
    BGP group or of an exchange creates and removes no row and leaves the
    PeeringDB cache, the AS records, the connections and the routers as
    they are: a live neighbor without stored session is ignored. *)
Theorem polls_keep_rows
        (get_detail : Z -> neighbors_detail_t)
        (group : BGPGroup.t) (ixp : InternetExchange.t) (db : DB) :
  keeps_rows db (snd (BGPGroup_poll_peering_sessions get_detail group db))
  /\ keeps_rows db
       (snd (InternetExchange_poll_peering_sessions get_detail ixp db)).
Proof.
  split.
  - unfold BGPGroup_poll_peering_sessions.
    destruct (negb (BGPGroup.check_bgp_session_states group));
      [apply keeps_rows_refl|].
    unfold bind at 1, get_db.
    destruct (List.filter _ (direct_sessions db)) as [|s l];
      [apply keeps_rows_refl|].
    unfold bind at 1, lift.
    destruct (gather_details get_detail (s :: l) []) as [[|d ds]|e];
      try apply keeps_rows_refl.
    apply bind_rel; [exact keeps_rows_trans| |intros; apply keeps_rows_refl].
    apply atomic_rel; [apply keeps_rows_refl|].
    apply BGPGroup_poll_block_keeps_rows.
  - unfold InternetExchange_poll_peering_sessions.
    apply atomic_rel; [apply keeps_rows_refl|].
    unfold bind, get_db.
    destruct (Z.of_nat _ <? 0); [apply keeps_rows_refl|].
    destruct (negb _); [apply keeps_rows_refl|].
    apply InternetExchange_poll_routers_keeps_rows.
Qed.

(** ** Stored sessions without live neighbor *)

Lemma spares_direct_refl (spared : DirectPeeringSession.t -> Prop) (db : DB) :
  spares_direct spared db db.
Proof. split; auto. Qed.

Lemma spares_direct_trans (spared : DirectPeeringSession.t -> Prop)
      (a b c : DB) :
  spares_direct spared a b -> spares_direct spared b c ->
  spares_direct spared a c.
Proof.
  intros [K1 S1] [K2 S2]. split; [congruence|].
  intros Hnd s Hin Hs. apply S2; [rewrite K1; exact Hnd| |exact Hs].
  apply S1; assumption.
Qed.

Lemma spares_ixp_refl (spared : InternetExchangePeeringSession.t -> Prop)
      (db : DB) :
  spares_ixp spared db db.
Proof. split; auto. Qed.

Lemma spares_ixp_trans (spared : InternetExchangePeeringSession.t -> Prop)
      (a b c : DB) :
  spares_ixp spared a b -> spares_ixp spared b c -> spares_ixp spared a c.
Proof.
  intros [K1 S1] [K2 S2]. split; [congruence|].
  intros Hnd s Hin Hs. apply S2; [rewrite K1; exact Hnd| |exact Hs].
  apply S1; assumption.
Qed.

Lemma same_key_same_row {A : Type} (key : A -> Z) (table : list A) (a b : A) :
  NoDup (List.map key table) -> In a table -> In b table -> key a = key b ->
  a = b.
Proof.
  induction table as [|x l IH]; intros Hnd Ha Hb Heq; [destruct Ha|].
  simpl in Hnd. inversion Hnd as [|? ? Hx Hl]; subst.
  destruct Ha as [-> | Ha], Hb as [-> | Hb]; auto.
  - exfalso. apply Hx. rewrite Heq. apply in_map. exact Hb.
  - exfalso. apply Hx. rewrite <- Heq. apply in_map. exact Ha.
Qed.

Lemma BGPGroup_poll_one_spares (self : BGPGroup.t) (router : Z)
      (session : neighbor_detail) (db : DB) :
  spares_direct
    (fun s => direct_lookup self router (remote_address session) s = false)
    db (snd (BGPGroup_poll_one self router session db)).
Proof.
  split.
  - pose proof (BGPGroup_poll_one_keeps_rows self router session db) as K.
    unfold keeps_rows in K. tauto.
  - intros Hnd s Hin Hs. apply BGPGroup_poll_one_exact; assumption.
Qed.

Lemma InternetExchange_poll_one_spares (self : InternetExchange.t)
      (session : neighbor_detail) (db : DB) :
  spares_ixp
    (fun s => InternetExchangePeeringSession.ip_address s
              <> remote_address session)
    db (snd (InternetExchange_poll_one self session db)).
Proof.
  split.
  - pose proof (InternetExchange_poll_one_keeps_rows self session db) as K.
    unfold keeps_rows in K. tauto.
  - intros Hnd s Hin Hs.
    unfold InternetExchange_poll_one, bind, get_db, timezone_now, lift.
    destruct (objects_get _ (ixp_sessions db)) as [found|e] eqn:G.
    + apply objects_get_ok in G. destruct G as (Hf & Hl & _).
      destruct (InternetExchangePeeringSession_update_fields found session
                                                             (now db))
        as [updated|e] eqn:U; [|exact Hin].
      destruct (InternetExchangePeeringSession_save_cases updated db)
        as [(_ & _ & ->) | ->]; [|exact Hin].
      simpl. apply replace_row_other; [exact Hin|].
      rewrite (ixp_update_keeps_pk _ _ _ U). intros Heq.
      assert (s = found) by (eapply same_key_same_row; eassumption).
      subst s. apply ipaddress_eqb_eq in Hl. contradiction.
    + destruct e; exact Hin.
Qed.

Lemma spares_direct_weaken (P Q : DirectPeeringSession.t -> Prop) (db db' : DB) :
  (forall s, Q s -> P s) -> spares_direct P db db' -> spares_direct Q db db'.
Proof. intros H [K S]. split; auto. Qed.

Lemma spares_ixp_weaken (P Q : InternetExchangePeeringSession.t -> Prop)
      (db db' : DB) :
  (forall s, Q s -> P s) -> spares_ixp P db db' -> spares_ixp Q db db'.
Proof. intros H [K S]. split; auto. Qed.

(** The dict built by the first loop of the BGP group poll: one entry per
    distinct router of the sessions, holding that router's flattened
    answer, so that each router is asked once. *)
Lemma gather_details_spec (get_detail : Z -> neighbors_detail_t)
      (peering_sessions : list DirectPeeringSession.t) :
  forall acc d,
    gather_details get_detail peering_sessions acc = Ok d ->
    NoDup (List.map fst acc) ->
    (forall e, In e acc ->
               snd e = bgp_neighbors_detail_as_list (get_detail (fst e))) ->
    NoDup (List.map fst d)
    /\ (forall e, In e d ->
                  snd e = bgp_neighbors_detail_as_list (get_detail (fst e)))
    /\ (forall e, In e acc -> In e d)
    /\ (forall s, In s peering_sessions ->
                  exists r, DirectPeeringSession.router s = Some r
                            /\ In r (List.map fst d))
    /\ (forall r, In r (List.map fst d) ->
                  In r (List.map fst acc)
                  \/ exists s, In s peering_sessions
                               /\ DirectPeeringSession.router s = Some r).
Proof.
  induction peering_sessions as [|s l IH]; intros acc d; simpl.
  - intros H; inversion H; subst. intros Hnd Hacc.
    repeat split; auto. intros s [].
  - destruct (DirectPeeringSession.router s) as [r|] eqn:Hr; [|discriminate].
    destruct (existsb (fun e => fst e =? r) acc) eqn:E.
    + intros H Hnd Hacc.
      destruct (IH _ _ H Hnd Hacc) as (A & B & C & D & F).
      repeat split; auto.
      * intros s' [<- | Hin]; [|auto].
        exists r. split; [exact Hr|].
        apply existsb_exists in E. destruct E as (e & He & Heq).
        apply Z.eqb_eq in Heq. subst r. apply in_map. apply C. exact He.
      * intros r' Hin. destruct (F r' Hin) as [|(s' & Hs' & Hr')]; [auto|].
        right. exists s'. auto.
    + intros H Hnd Hacc.
      assert (Hnotin : ~ In r (List.map fst acc)).
      { intros Hin. apply in_map_iff in Hin. destruct Hin as (e & He & Hin).
        assert (existsb (fun e => fst e =? r) acc = true); [|congruence].
        apply existsb_exists. exists e. split; [exact Hin|].
        apply Z.eqb_eq. exact He. }
      destruct (IH _ _ H) as (A & B & C & D & F).
      * rewrite map_app. simpl. clear - Hnd Hnotin.
        induction (List.map fst acc) as [|x xs IHx]; simpl.
        -- constructor; [intros []|constructor].
        -- inversion Hnd; subst. constructor.
           ++ rewrite in_app_iff. simpl. intros [Hx | [Hx | []]]; [auto|].
              apply Hnotin. left. auto.
           ++ apply IHx; [assumption|]. intros Hx. apply Hnotin. right; auto.
      * intros e Hin. apply in_app_or in Hin.
        destruct Hin as [Hin | [<- | []]]; [auto|reflexivity].
      * repeat split; auto.
        -- intros e Hin. apply C. apply in_or_app. left. exact Hin.
        -- intros s' [<- | Hin]; [|auto].
           exists r. split; [exact Hr|].
           change r with (fst (r, bgp_neighbors_detail_as_list (get_detail r))).
           apply in_map. apply C. apply in_or_app. right. left. reflexivity.
        -- intros r' Hin. destruct (F r' Hin) as [Hacc' | (s' & Hs' & Hr')].
           ++ rewrite map_app in Hacc'. apply in_app_or in Hacc'.
              destruct Hacc' as [|[<- | []]]; [auto|].
              right. exists s. auto.
           ++ right. exists s'. auto.
Qed.

(** A stored direct session whose router does not report its address is
    still stored, field for field, after a poll of any BGP group, however
    the poll ends: its last known state persists. *)
Theorem BGPGroup_poll_spares_unreported
        (get_detail : Z -> neighbors_detail_t) (self : BGPGroup.t) (db : DB)
        (s : DirectPeeringSession.t) :
  NoDup (List.map DirectPeeringSession.pk (direct_sessions db)) ->
  In s (direct_sessions db) ->
  (forall r n,
      DirectPeeringSession.router s = Some r ->
      In n (bgp_neighbors_detail_as_list (get_detail r)) ->
      remote_address n <> DirectPeeringSession.ip_address s) ->
  In s (direct_sessions
          (snd (BGPGroup_poll_peering_sessions get_detail self db))).
Proof.
  intros Hnd Hin Hs.
  set (spared := fun x : DirectPeeringSession.t =>
                   forall r n,
                     In n (bgp_neighbors_detail_as_list (get_detail r)) ->
                     direct_lookup self r (remote_address n) x = false).
  assert (Hsp : spared s).
  { intros r n Hn. unfold direct_lookup.
    destruct (ipaddress.eqb (DirectPeeringSession.ip_address s)
                            (remote_address n)) eqn:E; [|reflexivity].
    apply ipaddress_eqb_eq in E.
    destruct (fk_is (DirectPeeringSession.router s) r) eqn:F;
      [|rewrite andb_false_r; reflexivity].
    unfold fk_is, option_Z_eqb in F.
    destruct (DirectPeeringSession.router s) as [r'|] eqn:Hr; [|discriminate].
    apply Z.eqb_eq in F. subst r'. exfalso. eapply Hs; eauto. }
  assert (Hall : spares_direct spared db
                   (snd (BGPGroup_poll_peering_sessions get_detail self db))).
  { unfold BGPGroup_poll_peering_sessions.
    destruct (negb (BGPGroup.check_bgp_session_states self));
      [apply spares_direct_refl|].
    unfold bind at 1, get_db.
    destruct (List.filter _ (direct_sessions db)) as [|s0 l];
      [apply spares_direct_refl|].
    unfold bind at 1, lift.
    destruct (gather_details get_detail (s0 :: l) []) as [d|e] eqn:G;
      [|apply spares_direct_refl].
    destruct (gather_details_spec _ _ _ G) as (_ & Hd & _);
      [constructor|intros e []|].
    destruct d as [|d0 ds]; [apply spares_direct_refl|].
    apply bind_rel; [apply spares_direct_trans|
                     |intros; apply spares_direct_refl].
    apply atomic_rel; [apply spares_direct_refl|].
    unfold BGPGroup_poll_block.
    apply bind_rel; [apply spares_direct_trans| |].
    - apply for_each_rel;
        [apply spares_direct_refl|apply spares_direct_trans|].
      intros e He db0.
      apply for_each_rel;
        [apply spares_direct_refl|apply spares_direct_trans|].
      intros n Hn db1.
      eapply spares_direct_weaken; [|apply BGPGroup_poll_one_spares].
      intros x Hx. apply Hx. rewrite <- (Hd e He). exact Hn.
    - intros _ db1. unfold bind, timezone_now, BGPGroup_save. simpl.
      split; simpl; auto. }
  destruct Hall as [_ Hall]. apply Hall; assumption.
Qed.

Lemma BGPGroup_poll_spares_unreported_witness :
  In (DirectPeeringSession.mk 2 1 ip_203_0_113_2 (Some 1) (Some 10)
                              "established" 4 2 (Some 50))
     (direct_sessions
        (snd (BGPGroup_poll_peering_sessions
                one_neighbor_on_10 group_1
                (mkDB [] [] [] [] [group_1]
                      [DirectPeeringSession.mk 1 1 ip_203_0_113_1 (Some 1)
                                               (Some 10) "idle" 0 0 None;
                       DirectPeeringSession.mk 2 1 ip_203_0_113_2 (Some 1)
                                               (Some 10) "established" 4 2
                                               (Some 50)]
                      [] [] [10] [] 100 [])))).
Proof.
  apply BGPGroup_poll_spares_unreported.
  - simpl. repeat constructor; simpl; intuition discriminate.
  - simpl. auto.
  - intros r n Hr Hn. simpl in Hr. inversion Hr; subst r.
    vm_compute in Hn. destruct Hn as [<- | []]. discriminate.
Defined.

Lemma in_as_list (d : neighbors_detail_t)
      (vrf : string * list (Z * list neighbor_detail))
      (asn : Z * list neighbor_detail) (n : neighbor_detail) :
  In vrf d -> In asn (snd vrf) -> In n (snd asn) ->
  In n (bgp_neighbors_detail_as_list d).
Proof.
  intros Hv Ha Hn. unfold bgp_neighbors_detail_as_list.
  apply in_flat_map. exists vrf. split; [exact Hv|].
  apply in_flat_map. exists asn. auto.
Qed.

(** A stored IXP session whose address no connected router of the polled
    exchange reports is still stored, field for field, after the poll,
    however the poll ends. *)
Theorem InternetExchange_poll_spares_unreported
        (get_detail : Z -> neighbors_detail_t) (self : InternetExchange.t)
        (db : DB) (s : InternetExchangePeeringSession.t) :
  NoDup (List.map InternetExchangePeeringSession.pk (ixp_sessions db)) ->
  In s (ixp_sessions db) ->
  (forall r n,
      In r (InternetExchange_get_routers self db) ->
      In n (bgp_neighbors_detail_as_list (get_detail r)) ->
      remote_address n <> InternetExchangePeeringSession.ip_address s) ->
  In s (ixp_sessions
          (snd (InternetExchange_poll_peering_sessions get_detail self db))).
Proof.
  intros Hnd Hin Hs.
  set (spared := fun x : InternetExchangePeeringSession.t =>
                   forall r n,
                     In r (InternetExchange_get_routers self db) ->
                     In n (bgp_neighbors_detail_as_list (get_detail r)) ->
                     InternetExchangePeeringSession.ip_address x
                     <> remote_address n).
  assert (Hsp : spared s).
  { intros r n Hr Hn Heq. eapply Hs; eauto. }
  assert (Hrouters : forall rs,
             (forall r, In r rs ->
                        In r (InternetExchange_get_routers self db)) ->
             forall db0,
               spares_ixp spared db0
                 (snd (InternetExchange_poll_routers get_detail self rs db0))).
  { induction rs as [|r l IH]; intros Hsub db0;
      cbn [InternetExchange_poll_routers]; [apply spares_ixp_refl|].
    destruct (get_detail r) as [|vrf vrfs] eqn:Hd; [apply spares_ixp_refl|].
    apply bind_rel; [apply spares_ixp_trans|
                     |intros _ db1; apply IH; intros; apply Hsub; right; auto].
    apply for_each_rel; [apply spares_ixp_refl|apply spares_ixp_trans|].
    intros v Hv db1. unfold InternetExchange_poll_vrf.
    apply bind_rel; [apply spares_ixp_trans| |].
    - apply for_each_rel; [apply spares_ixp_refl|apply spares_ixp_trans|].
      intros a Ha db2.
      apply for_each_rel; [apply spares_ixp_refl|apply spares_ixp_trans|].
      intros n Hn db3.
      eapply spares_ixp_weaken; [|apply InternetExchange_poll_one_spares].
      intros x Hx. apply (Hx r n); [apply Hsub; left; reflexivity|].
      rewrite Hd. eapply in_as_list; eassumption.
    - intros _ db2. unfold bind, timezone_now, InternetExchange_save. simpl.
      split; simpl; auto. }
  assert (Hall : spares_ixp spared db
                   (snd (InternetExchange_poll_peering_sessions get_detail
                                                                self db))).
  { unfold InternetExchange_poll_peering_sessions.
    apply atomic_rel; [apply spares_ixp_refl|].
    unfold bind, get_db.
    destruct (Z.of_nat _ <? 0); [apply spares_ixp_refl|].
    destruct (negb _); [apply spares_ixp_refl|].
    apply Hrouters. auto. }
  destruct Hall as [_ Hall]. apply Hall; assumption.
Qed.

Lemma InternetExchange_poll_spares_unreported_witness :
  In (idle_session 2 1 ip_203_0_113_2)
     (ixp_sessions
        (snd (InternetExchange_poll_peering_sessions
                one_neighbor_on_10 ix_a two_sessions_db))).
Proof.
  apply InternetExchange_poll_spares_unreported.
  - simpl. repeat constructor; simpl; intuition discriminate.
  - simpl. auto.
  - intros r n Hr Hn. vm_compute in Hr.
    destruct Hr as [<- | []]. vm_compute in Hn.
    destruct Hn as [<- | []]. discriminate.
Defined.

(** ** The fetch step of the BGP group poll *)

Lemma NoDup_snoc {A : Type} (l : list A) (x : A) :
  NoDup l -> ~ In x l -> NoDup (l ++ [x]).
Proof.
  induction l as [|y l IH]; simpl; intros Hnd Hx.
  - constructor; [intros []|constructor].
  - inversion Hnd; subst. constructor.
    + rewrite in_app_iff. simpl. intros [Hy | [Hy | []]]; [auto|].
      apply Hx. left. auto.
    + apply IH; [assumption|]. intros Hy. apply Hx. right. exact Hy.
Qed.

(** Recording the calls changes nothing to the dict the loop builds. *)
Lemma gather_details_asking_dict (get_detail : Z -> neighbors_detail_t)
      (peering_sessions : list DirectPeeringSession.t) :
  forall acc asked,
    fst (gather_details_asking get_detail peering_sessions acc asked)
    = gather_details get_detail peering_sessions acc.
Proof.
  induction peering_sessions as [|s l IH]; intros acc asked; simpl;
    [reflexivity|].
  destruct (DirectPeeringSession.router s) as [r|]; [|reflexivity].
  destruct (existsb (fun e => fst e =? r) acc); apply IH.
Qed.

(** The routers asked are the keys of the dict, all along the loop: no
    router is asked twice, and a router asked is the router of a
    session. *)
Lemma gather_details_asking_calls (get_detail : Z -> neighbors_detail_t)
      (peering_sessions : list DirectPeeringSession.t) :
  forall acc asked,
    asked = List.map fst acc ->
    NoDup asked ->
    NoDup (snd (gather_details_asking get_detail peering_sessions acc asked))
    /\ (forall r,
           In r (snd (gather_details_asking get_detail peering_sessions
                                            acc asked)) ->
           In r asked
           \/ exists s, In s peering_sessions
                        /\ DirectPeeringSession.router s = Some r)
    /\ (forall d,
           fst (gather_details_asking get_detail peering_sessions acc asked)
           = Ok d ->
           snd (gather_details_asking get_detail peering_sessions acc asked)
           = List.map fst d).
Proof.
  induction peering_sessions as [|s l IH]; intros acc asked Heq Hnd; simpl.
  - split; [exact Hnd|]. split; [auto|].
    intros d H; inversion H; subst. reflexivity.
  - destruct (DirectPeeringSession.router s) as [r|] eqn:Hr.
    2:{ split; [exact Hnd|]. split; [auto|]. discriminate. }
    destruct (existsb (fun e => fst e =? r) acc) eqn:E.
    + destruct (IH acc asked Heq Hnd) as (A & B & C).
      split; [exact A|]. split; [|exact C].
      intros r' Hin. destruct (B r' Hin) as [|(s' & Hs' & Hr')]; [auto|].
      right. exists s'. auto.
    + assert (Hnotin : ~ In r asked).
      { subst asked. intros Hin. apply in_map_iff in Hin.
        destruct Hin as (e & He & Hin).
        assert (existsb (fun e => fst e =? r) acc = true); [|congruence].
        apply existsb_exists. exists e. split; [exact Hin|].
        apply Z.eqb_eq. exact He. }
      destruct (IH (acc ++ [(r, bgp_neighbors_detail_as_list (get_detail r))])
                   (asked ++ [r])) as (A & B & C).
      * subst asked. rewrite map_app. reflexivity.
      * apply NoDup_snoc; assumption.
      * split; [exact A|]. split; [|exact C].
        intros r' Hin. destruct (B r' Hin) as [Hold | (s' & Hs' & Hr')].
        -- apply in_app_or in Hold. destruct Hold as [|[<- | []]]; [auto|].
           right. exists s. auto.
        -- right. exists s'. auto.
Qed.

(** The first loop of the BGP group poll asks each router once.  With the
    calls recorded, the loop builds the dict the poll uses; no router is
    asked twice, whether the loop ends normally or not, and a router asked
    is the router of one of the group's sessions.  When the loop ends
    normally, the routers asked are the keys of the dict, in order: the
    router of every session was asked, and each entry holds the flattened
    answer of its router. *)
Theorem BGPGroup_asks_each_router_once
        (get_detail : Z -> neighbors_detail_t)
        (peering_sessions : list DirectPeeringSession.t) :
  fst (gather_details_asking get_detail peering_sessions [] [])
  = gather_details get_detail peering_sessions []
  /\ NoDup (snd (gather_details_asking get_detail peering_sessions [] []))
  /\ (forall r,
         In r (snd (gather_details_asking get_detail peering_sessions [] [])) ->
         exists s, In s peering_sessions
                   /\ DirectPeeringSession.router s = Some r)
  /\ (forall d,
         gather_details get_detail peering_sessions [] = Ok d ->
         snd (gather_details_asking get_detail peering_sessions [] [])
         = List.map fst d
         /\ (forall s, In s peering_sessions ->
                       exists r, DirectPeeringSession.router s = Some r
                                 /\ In r (List.map fst d))
         /\ (forall e, In e d ->
                       snd e
                       = bgp_neighbors_detail_as_list (get_detail (fst e)))).
Proof.
  destruct (@gather_details_asking_calls get_detail peering_sessions [] [])
    as (A & B & C); [reflexivity|constructor|].
  split; [apply gather_details_asking_dict|]. split; [exact A|]. split.
  - intros r Hin. destruct (B r Hin) as [[] | H]. exact H.
  - intros d G.
    destruct (gather_details_spec _ _ _ G) as (_ & V & _ & D & _);
      [constructor|intros e []|].
    split; [|split; [exact D|exact V]].
    apply C. rewrite gather_details_asking_dict. exact G.
Qed.

(** Three sessions on routers 10, 20 and 10: router 10 is asked once. *)
Lemma BGPGroup_asks_each_router_once_witness :
  snd (gather_details_asking one_neighbor_on_10
         [DirectPeeringSession.mk 1 1 ip_203_0_113_1 (Some 1) (Some 10)
                                  "idle" 0 0 None;
          DirectPeeringSession.mk 2 1 ip_203_0_113_2 (Some 1) (Some 20)
                                  "idle" 0 0 None;
          DirectPeeringSession.mk 3 1 ip_203_0_113_2 (Some 1) (Some 10)
                                  "idle" 0 0 None] [] [])
  = List.map fst
      [(10, bgp_neighbors_detail_as_list (one_neighbor_on_10 10));
       (20, bgp_neighbors_detail_as_list (one_neighbor_on_10 20))].
Proof.
  apply (proj2 (proj2 (proj2 (BGPGroup_asks_each_router_once
                                one_neighbor_on_10 _)))).
  vm_compute. reflexivity.
Defined.

(** A session of the group without router makes the poll fail with
    [AttributeError] before anything is written. *)
Lemma gather_details_raises (get_detail : Z -> neighbors_detail_t)
      (peering_sessions : list DirectPeeringSession.t) :
  forall acc e,
    gather_details get_detail peering_sessions acc = Raise e ->
    e = AttributeError
    /\ exists s, In s peering_sessions
                 /\ DirectPeeringSession.router s = None.
Proof.
  induction peering_sessions as [|s l IH]; intros acc e; simpl; [discriminate|].
  destruct (DirectPeeringSession.router s) as [r|] eqn:Hr.
  - destruct (existsb _ acc); intros H; destruct (IH _ _ H) as (A & s' & B & C);
      (split; [exact A|exists s'; auto]).
  - intros H; inversion H; subst. split; [reflexivity|]. exists s. auto.
Qed.

(** ** The prefix counts of direct sessions *)




(** ** What the return value of a BGP group poll tells *)

(** A BGP group poll that returns false has written nothing: false comes
    only from the preconditions (checks disabled, no session in the
    group). *)
Theorem BGPGroup_poll_false_writes_nothing
        (get_detail : Z -> neighbors_detail_t) (self : BGPGroup.t)
        (db db' : DB) :
  BGPGroup_poll_peering_sessions get_detail self db = (Ok false, db') ->
  db' = db
  /\ (BGPGroup.check_bgp_session_states self = false
      \/ forall s, In s (direct_sessions db) ->
                   DirectPeeringSession.bgp_group s
                   <> Some (BGPGroup.pk self)).
Proof.
  unfold BGPGroup_poll_peering_sessions.
  destruct (BGPGroup.check_bgp_session_states self); cbn [negb];
    [|intros H; inversion H; auto].
  unfold bind at 1, get_db.
  destruct (List.filter _ (direct_sessions db)) as [|s0 l] eqn:F.
  - intros H; inversion H; subst db'. split; [reflexivity|]. right.
    intros s Hin Hg.
    assert (In s (List.filter
                    (fun s => fk_is (DirectPeeringSession.bgp_group s)
                                    (BGPGroup.pk self))
                    (direct_sessions db))) as Hf; [|rewrite F in Hf; exact Hf].
    apply filter_In. split; [exact Hin|]. unfold fk_is. rewrite Hg. simpl.
    apply Z.eqb_refl.
  - unfold bind at 1, lift.
    destruct (gather_details get_detail (s0 :: l) []) as [[|d0 ds]|e] eqn:G;
      [|unfold bind;
        match goal with
        | |- context [atomic ?m db] => destruct (atomic m db) as [[u|e] db1]
        end; discriminate
       |discriminate].
    exfalso.
    destruct (gather_details_spec _ _ _ G) as (_ & _ & _ & D & _);
      [constructor|intros e []|].
    destruct (D s0 (or_introl eq_refl)) as (r & _ & []).
Qed.

Lemma BGPGroup_poll_false_writes_nothing_witness :
  snd (BGPGroup_poll_peering_sessions
         one_neighbor_on_10 (BGPGroup.mk 1 "transit" false None) direct_db)
  = direct_db.
Proof.
  apply (@BGPGroup_poll_false_writes_nothing
           one_neighbor_on_10 (BGPGroup.mk 1 "transit" false None)
           direct_db _).
  vm_compute. reflexivity.
Defined.

(** ** The preconditions of the exchange poll *)

(** With session checks disabled the exchange poll returns false and
    writes nothing; with checks enabled and no connected router it returns
    true and writes nothing, not even the last-poll time: the test
    [connected_routers.count() < 0] never holds. *)
Theorem InternetExchange_poll_preconditions
        (get_detail : Z -> neighbors_detail_t) (self : InternetExchange.t)
        (db : DB) :
  (InternetExchange.check_bgp_session_states self = false ->
   InternetExchange_poll_peering_sessions get_detail self db = (Ok false, db))
  /\ (InternetExchange.check_bgp_session_states self = true ->
      InternetExchange_get_routers self db = [] ->
      InternetExchange_poll_peering_sessions get_detail self db = (Ok true, db)).
Proof.
  unfold InternetExchange_poll_peering_sessions, atomic, bind, get_db.
  split.
  - intros ->.
    destruct (Z.of_nat (List.length (InternetExchange_get_routers self db)) <? 0)
      eqn:E; [apply Z.ltb_lt in E; lia|]. reflexivity.
  - intros -> ->. reflexivity.
Qed.

Lemma InternetExchange_poll_preconditions_witness :
  InternetExchange_poll_peering_sessions one_neighbor_on_10 ix_a
                                         (ixp_world [] [])
  = (Ok true, ixp_world [] []).
Proof.
  apply (proj2 (InternetExchange_poll_preconditions one_neighbor_on_10 ix_a
                                                    (ixp_world [] [])));
    reflexivity.
Defined.

(** ** Exceptions and transactions *)

(** An exception that leaves a poll or an import undoes every write of
    the call: the database is as before. *)
Theorem exceptions_roll_back
        (get_detail : Z -> neighbors_detail_t)
        (device : Z -> option napalm_dict_t)
        (group : BGPGroup.t) (ixp : InternetExchange.t)
        (connection : Connection.t) (db db' : DB) (e : exn) :
  (BGPGroup_poll_peering_sessions get_detail group db = (Raise e, db')
   \/ InternetExchange_poll_peering_sessions get_detail ixp db = (Raise e, db')
   \/ InternetExchange_import_sessions device ixp connection db
      = (Raise e, db')) ->
  db' = db.
Proof.
  intros [H | [H | H]].
  - eapply BGPGroup_poll_rollback; exact H.
  - eapply InternetExchange_poll_rollback; exact H.
  - eapply atomic_rollback; exact H.
Qed.

(** Two stored sessions have the reported address: the lookup of the
    exchange poll raises [MultipleObjectsReturned] after the first VRF was
    processed, and the update of that VRF is undone. *)
Lemma exceptions_roll_back_witness :
  snd (InternetExchange_poll_peering_sessions
         two_vrfs_on_10 ix_a
         (ixp_world [Connection.mk 1 (Some 1) (Some 10) (Some 70)]
                    [idle_session 1 1 ip_203_0_113_1;
                     idle_session 2 1 ip_203_0_113_2;
                     idle_session 3 1 ip_203_0_113_2]))
  = ixp_world [Connection.mk 1 (Some 1) (Some 10) (Some 70)]
              [idle_session 1 1 ip_203_0_113_1;
               idle_session 2 1 ip_203_0_113_2;
               idle_session 3 1 ip_203_0_113_2].
Proof.
  apply exceptions_roll_back
    with (get_detail := two_vrfs_on_10) (device := import_neighbors)
         (group := group_1) (ixp := ix_a) (connection := connection_1)
         (e := MultipleObjectsReturned).
  right; left. vm_compute. reflexivity.
Defined.

Lemma BGPGroup_poll_stamps_once_at_the_end_witness :
  exists ws,
    writes (snd (BGPGroup_poll_peering_sessions one_neighbor_on_10 group_1
                                                direct_db))
    = writes direct_db ++ ws ++ [SaveBGPGroup 1]
    /\ Forall is_direct_session_save ws
    /\ List.find (fun g => BGPGroup.pk g =? 1)
                 (bgp_groups
                    (snd (BGPGroup_poll_peering_sessions one_neighbor_on_10
                                                         group_1 direct_db)))
       = option_map (fun _ => BGPGroup_stamp group_1 100)
                    (List.find (fun g => BGPGroup.pk g =? 1)
                               (bgp_groups direct_db)).
Proof.
  apply (@BGPGroup_poll_stamps_once_at_the_end one_neighbor_on_10 group_1
           direct_db _).
  vm_compute. reflexivity.
Defined.

(** ** Session import, continued *)

Lemma import_counts_equal_witness : (2 : Z) = 2.
Proof.
  apply (@import_counts_equal import_neighbors ix_a connection_1
           (import_db [as_64500])
           (snd (InternetExchange_import_sessions
                   import_neighbors ix_a connection_1 (import_db [as_64500])))
           2 2).
  vm_compute. reflexivity.
Defined.




(** An exchange without PeeringDB record has no allowed prefix: its import
    creates nothing and returns (0, 0), whatever the router reports. *)
Theorem import_of_unlinked_exchange
        (device : Z -> option napalm_dict_t) (self : InternetExchange.t)
        (connection : Connection.t) (router : Z) (db : DB) :
  InternetExchange.peeringdb_ixlan self = None ->
  Connection.router connection = Some router ->
  InternetExchange_import_sessions device self connection db = (Ok (0, 0), db).
Proof.
  intros Hl Hr. unfold InternetExchange_import_sessions, atomic, bind, get_db.
  rewrite Hr. unfold InternetExchange_get_prefixes. rewrite Hl.
  assert (Hq : Forall (quiet [] connection db)
                      (Router_get_bgp_neighbors device router)).
  { apply Forall_forall. intros n _. left. reflexivity. }
  destruct (import_loop_quiet Hq (mkImport 0 0 [])) as (st & H & Hs & Ha).
  rewrite H. simpl in Hs, Ha. unfold ret. rewrite Hs, Ha. reflexivity.
Qed.

Lemma import_of_unlinked_exchange_witness :
  InternetExchange_import_sessions
    import_neighbors (InternetExchange.mk 1 "ix-a" None (Some 1) true None)
    connection_1 (import_db [as_64500])
  = (Ok (0, 0), import_db [as_64500]).
Proof.
  apply (@import_of_unlinked_exchange import_neighbors _ connection_1 10);
    reflexivity.
Defined.

Lemma import_one_keeps_unique (allowed : list IXLanPrefix.t)
      (connection : Connection.t) (st st' : import_state) (n : bgp_peer)
      (db db' : DB) :
  import_one allowed connection st n db = (Ok st', db') ->
  unique_on connection db -> unique_on connection db'.
Proof.
  intros H Hu ip.
  destruct (import_one_effect _ _ _ _ _ H)
    as (_ & _ & [[Hs _] | (s & Hs & Hnone & Hip & Hc)]).
  - rewrite Hs. apply Hu.
  - rewrite Hs, filter_app, length_app. simpl.
    rewrite (import_lookup_created _ _ _ Hc), Hip.
    destruct (ipaddress.eqb (ip_address n) ip) eqn:E.
    + apply ipaddress_eqb_eq in E. subst ip. rewrite Hnone. simpl. lia.
    + simpl. specialize (Hu ip). lia.
Qed.

Lemma import_loop_keeps_unique (allowed : list IXLanPrefix.t)
      (connection : Connection.t) (l : list bgp_peer) :
  forall st st' db db',
    import_loop allowed connection l st db = (Ok st', db') ->
    unique_on connection db -> unique_on connection db'.
Proof.
  induction l as [|n l IH]; intros st st' db db'; simpl.
  - intros H; inversion H; subst; auto.
  - unfold bind.
    destruct (import_one allowed connection st n db) as [[st1|e] db1] eqn:E1;
      [|discriminate].
    intros H Hu. eapply IH; [exact H|].
    eapply import_one_keeps_unique; eassumption.
Qed.

(** Import never creates a duplicate: when no two stored sessions of the
    connection share an address before a successful import, none do
    after it, even if the router lists an address twice. *)
Theorem import_keeps_addresses_unique
        (device : Z -> option napalm_dict_t) (self : InternetExchange.t)
        (connection : Connection.t) (db db' : DB) (sessions asns : Z) :
  InternetExchange_import_sessions device self connection db
  = (Ok (sessions, asns), db') ->
  unique_on connection db -> unique_on connection db'.
Proof.
  unfold InternetExchange_import_sessions, atomic, bind, get_db.
  destruct (Connection.router connection) as [router|]; [|discriminate].
  destruct (import_loop _ connection _ _ db) as [[st|e] db1] eqn:E;
    [|discriminate].
  unfold ret. intros H; inversion H; subst; clear H.
  eapply import_loop_keeps_unique; exact E.
Qed.

Lemma import_keeps_addresses_unique_witness :
  unique_on connection_1
            (snd (InternetExchange_import_sessions
                    import_neighbors ix_a connection_1 (import_db [as_64500]))).
Proof.
  apply (@import_keeps_addresses_unique import_neighbors ix_a connection_1
           (import_db [as_64500]) _ 2 2).
  - vm_compute. reflexivity.
  - intros ip. simpl. lia.
Defined.

(** ** [AutonomousSystem.create_from_peeringdb] *)

(** [create_from_peeringdb] is a get-or-create keyed by the ASN: the
    record it returns has the asked ASN and is stored; asking again
    returns the same answer and writes nothing; and it never stores a
    second record for an ASN. *)
Theorem create_from_peeringdb_get_or_create (asn : Z) (db db' : DB)
        (r : option AutonomousSystem.t) :
  AutonomousSystem_create_from_peeringdb asn db = (Ok r, db') ->
  AutonomousSystem_create_from_peeringdb asn db' = (Ok r, db')
  /\ (forall a, r = Some a ->
                AutonomousSystem.asn a = asn
                /\ In a (autonomous_systems db'))
  /\ (NoDup (List.map AutonomousSystem.asn (autonomous_systems db)) ->
      NoDup (List.map AutonomousSystem.asn (autonomous_systems db'))).
Proof.
  unfold AutonomousSystem_create_from_peeringdb, bind, get_db.
  destruct (objects_get _ (networks db)) as [network|e] eqn:G.
  - pose proof (objects_get_ok _ _ G) as (_ & Hasn & _).
    apply Z.eqb_eq in Hasn.
    destruct (objects_get _ (autonomous_systems db)) as [a|e] eqn:A.
    + intros H; inversion H; subst db' r. rewrite G, A.
      pose proof (objects_get_ok _ _ A) as (Hin & Ha & _).
      apply Z.eqb_eq in Ha.
      split; [reflexivity|]. split; [|auto].
      intros x Hx; inversion Hx; subst x. split; [congruence|exact Hin].
    + destruct e; try (intros H; discriminate H).
      intros H; inversion H; subst db' r; clear H. simpl.
      assert (Hnone : List.filter
                        (fun a => AutonomousSystem.asn a =? Network.asn network)
                        (autonomous_systems db) = []).
      { unfold objects_get in A.
        destruct (List.filter _ (autonomous_systems db)) as [|x [|y l]];
          [reflexivity|discriminate|discriminate]. }
      rewrite G. unfold objects_get at 1. rewrite filter_app, Hnone. simpl.
      rewrite Z.eqb_refl. simpl.
      split; [reflexivity|]. split.
      * intros x Hx; inversion Hx; subst x. simpl. split; [exact Hasn|].
        apply in_or_app. right. left. reflexivity.
      * intros Hnd. rewrite map_app. simpl.
        assert (Hnot : ~ In (Network.asn network)
                          (List.map AutonomousSystem.asn (autonomous_systems db))).
        { intros Hin. apply in_map_iff in Hin. destruct Hin as (x & Hx & Hin).
          assert (In x (List.filter
                          (fun a => AutonomousSystem.asn a
                                    =? Network.asn network)
                          (autonomous_systems db))) as Hf;
            [|rewrite Hnone in Hf; exact Hf].
          apply filter_In. split; [exact Hin|]. apply Z.eqb_eq. exact Hx. }
        clear - Hnd Hnot.
        induction (List.map AutonomousSystem.asn (autonomous_systems db))
          as [|x xs IHx]; simpl.
        -- constructor; [intros []|constructor].
        -- inversion Hnd; subst. constructor.
           ++ rewrite in_app_iff. simpl. intros [Hx | [Hx | []]]; [auto|].
              apply Hnot. left. auto.
           ++ apply IHx; [assumption|]. intros Hx. apply Hnot. right; auto.
  - destruct e; try (intros H; discriminate H).
    intros H; inversion H; subst db' r. rewrite G.
    split; [reflexivity|]. split; [|auto].
    intros a Ha; discriminate Ha.
Qed.

Lemma create_from_peeringdb_get_or_create_witness :
  AutonomousSystem_create_from_peeringdb
    65001 (snd (AutonomousSystem_create_from_peeringdb
                  65001 (import_db [as_64500])))
  = (Ok (Some as_65001),
     snd (AutonomousSystem_create_from_peeringdb 65001 (import_db [as_64500]))).
Proof.
  apply (@create_from_peeringdb_get_or_create 65001 (import_db [as_64500])).
  vm_compute. reflexivity.
Defined.

(** ** [exists_in_peeringdb] *)


(** ** [find_bgp_neighbor_detail] *)

Lemma records_of_as_list (d : neighbors_detail_t) :
  bgp_neighbors_detail_as_list d = records_of d.
Proof. reflexivity. Qed.

Lemma find_in_neighbors_app (ip : ipaddress.IPAddress)
      (l1 l2 : list napalm_neighbor) :
  find_in_neighbors ip (l1 ++ l2)
  = match find_in_neighbors ip l1 with
    | Ok None => find_in_neighbors ip l2
    | found_or_raised => found_or_raised
    end.
Proof.
  induction l1 as [|n l1 IH]; simpl; [reflexivity|].
  destruct (ipaddress.ip_address (neighbor_remote_address n)) as [a|];
    [|reflexivity].
  destruct (ipaddress.eqb ip a); [reflexivity|exact IH].
Qed.

Lemma find_in_asns_flat (ip : ipaddress.IPAddress)
      (asn : list (Z * list napalm_neighbor)) :
  find_in_asns ip asn = find_in_neighbors ip (flat_map (fun a => snd a) asn).
Proof.
  induction asn as [|a l IH]; simpl; [reflexivity|].
  rewrite find_in_neighbors_app.
  destruct (find_in_neighbors ip (snd a)) as [[n|]|e]; auto.
Qed.

(** The three nested loops visit the records in the order in which
    [bgp_neighbors_detail_as_list] lists them. *)
Lemma find_in_vrfs_flat (ip : ipaddress.IPAddress)
      (d : list (string * list (Z * list napalm_neighbor))) :
  find_in_vrfs ip d = find_in_neighbors ip (records_of d).
Proof.
  induction d as [|v l IH]; simpl; [reflexivity|].
  unfold records_of in *. simpl. rewrite find_in_neighbors_app.
  rewrite find_in_asns_flat.
  destruct (find_in_neighbors ip (flat_map (fun a => snd a) (snd v)))
    as [[n|]|e]; auto.
Qed.

(** When every reported address is well-formed text,
    [find_bgp_neighbor_detail] returns the first record, in the order of
    [bgp_neighbors_detail_as_list], whose address is the one sought, and
    [None] when there is none. *)
Theorem find_bgp_neighbor_detail_is_first_match
        (d : list (string * list (Z * list napalm_neighbor)))
        (ip : ipaddress.IPAddress) :
  Forall (fun n => ipaddress.ip_address (neighbor_remote_address n) <> None)
         (records_of d) ->
  Router_find_bgp_neighbor_detail (Dict d) (AsAddress ip)
  = Ok (List.find
          (fun n => match ipaddress.ip_address (neighbor_remote_address n) with
                    | Some a => ipaddress.eqb ip a
                    | None => false
                    end)
          (records_of d)).
Proof.
  unfold Router_find_bgp_neighbor_detail. rewrite find_in_vrfs_flat.
  induction 1 as [|n l Hn _ IH]; simpl; [reflexivity|].
  destruct (ipaddress.ip_address (neighbor_remote_address n)) as [a|];
    [|congruence].
  destruct (ipaddress.eqb ip a); [reflexivity|exact IH].
Qed.

Lemma find_bgp_neighbor_detail_is_first_match_witness :
  Router_find_bgp_neighbor_detail
    (Dict [("global", [(65001, [mkNeighbor "203.0.113.2" "Idle" (PInt 0) (PInt 0)]);
                       (65002, [mkNeighbor "203.0.113.1" "Established"
                                           (PInt 10) (PInt 5)])]);
           ("customers", [(65001, [mkNeighbor "203.0.113.1" "Active"
                                              (PInt 0) (PInt 0)])])])
    (AsAddress ip_203_0_113_1)
  = Ok (Some (mkNeighbor "203.0.113.1" "Established" (PInt 10) (PInt 5))).
Proof.
  rewrite find_bgp_neighbor_detail_is_first_match; [reflexivity|].
  repeat constructor; vm_compute; discriminate.
Defined.

(** A record with a malformed address that is met before any match makes
    [find_bgp_neighbor_detail] raise [ValueError], even when a later
    record has the address sought. *)
Theorem find_bgp_neighbor_detail_malformed_first
        (d : list (string * list (Z * list napalm_neighbor)))
        (ip : ipaddress.IPAddress)
        (before after : list napalm_neighbor) (bad : napalm_neighbor) :
  records_of d = before ++ bad :: after ->
  Forall (fun n => exists a,
                     ipaddress.ip_address (neighbor_remote_address n) = Some a
                     /\ a <> ip)
         before ->
  ipaddress.ip_address (neighbor_remote_address bad) = None ->
  Router_find_bgp_neighbor_detail (Dict d) (AsAddress ip) = Raise ValueError.
Proof.
  intros Hd Hb Hbad. unfold Router_find_bgp_neighbor_detail.
  rewrite find_in_vrfs_flat, Hd, find_in_neighbors_app.
  assert (Hnone : find_in_neighbors ip before = Ok None).
  { clear - Hb. induction Hb as [|n l (a & Ha & Hne) _ IH]; simpl;
      [reflexivity|].
    rewrite Ha. destruct (ipaddress.eqb ip a) eqn:E; [|exact IH].
    apply ipaddress_eqb_eq in E. congruence. }
  rewrite Hnone. simpl. rewrite Hbad. reflexivity.
Qed.

Lemma find_bgp_neighbor_detail_malformed_first_witness :
  Router_find_bgp_neighbor_detail
    (Dict [("global", [(65001, [mkNeighbor "203.0.113.2" "Idle" (PInt 0) (PInt 0);
                                mkNeighbor "203.0.113" "Idle" (PInt 0) (PInt 0)]);
                       (65002, [mkNeighbor "203.0.113.1" "Established"
                                           (PInt 10) (PInt 5)])])])
    (AsAddress ip_203_0_113_1)
  = Raise ValueError.
Proof.
  apply find_bgp_neighbor_detail_malformed_first
    with (before := [mkNeighbor "203.0.113.2" "Idle" (PInt 0) (PInt 0)])
         (bad := mkNeighbor "203.0.113" "Idle" (PInt 0) (PInt 0))
         (after := [mkNeighbor "203.0.113.1" "Established" (PInt 10) (PInt 5)]).
  - reflexivity.
  - constructor; [|constructor]. exists ip_203_0_113_2.
    split; [vm_compute; reflexivity|discriminate].
  - vm_compute. reflexivity.
Defined.

(** ** [InternetExchangePeeringSession.poll] *)

Lemma ixp_poll_fields_spec (self updated : InternetExchangePeeringSession.t)
      (detail : napalm_neighbor) (t : Z) :
  InternetExchangePeeringSession_poll_fields self detail t = Ok updated ->
  InternetExchangePeeringSession.pk updated
  = InternetExchangePeeringSession.pk self
  /\ InternetExchangePeeringSession.ip_address updated
     = InternetExchangePeeringSession.ip_address self
  /\ InternetExchangePeeringSession.bgp_state updated
     = lower (neighbor_connection_state detail)
  /\ 0 <= InternetExchangePeeringSession.received_prefix_count updated
  /\ 0 <= InternetExchangePeeringSession.advertised_prefix_count updated.
Proof.
  unfold InternetExchangePeeringSession_poll_fields. intros H.
  destruct (getitem _ (neighbor_received_prefix_count detail)) as [r|];
    [|discriminate].
  destruct (getitem _ (neighbor_advertised_prefix_count detail)) as [a|];
    [|discriminate].
  destruct (positive_or_zero r) as [rc|] eqn:Hr; [|discriminate].
  destruct (positive_or_zero a) as [ac|] eqn:Ha; [|discriminate].
  inversion H; subst; simpl.
  repeat split; eapply positive_or_zero_nonneg; eassumption.
Qed.

(** The poll of one IXP session.  When it returns true, the router of the
    session's connection has a platform and reports a neighbor at the
    session's address; the session is saved once, with the reported state
    in lower case and counts that are not negative, and nothing else is
    written.  When it returns false, nothing is written. *)
Theorem InternetExchangePeeringSession_poll_outcomes
        (router_platform : Z -> option Z)
        (device : Z -> napalm_answer)
        (self : InternetExchangePeeringSession.t) (db db' : DB)
        (polled : bool) :
  InternetExchangePeeringSession_poll router_platform device self db
  = (Ok polled, db') ->
  if polled then
    exists connection router detail updated,
      related Connection.pk (connections db)
              (InternetExchangePeeringSession.ixp_connection self)
      = Ok (Some connection)
      /\ Connection.router connection = Some router
      /\ router_platform router <> None
      /\ Router_find_bgp_neighbor_detail
           (device router)
           (AsAddress (InternetExchangePeeringSession.ip_address self))
         = Ok (Some detail)
      /\ InternetExchangePeeringSession.pk updated
         = InternetExchangePeeringSession.pk self
      /\ InternetExchangePeeringSession.bgp_state updated
         = lower (neighbor_connection_state detail)
      /\ 0 <= InternetExchangePeeringSession.received_prefix_count updated
      /\ 0 <= InternetExchangePeeringSession.advertised_prefix_count updated
      /\ db' = snd (InternetExchangePeeringSession_save updated db)
  else db' = db.
Proof.
  destruct polled.
  - intros H. apply InternetExchangePeeringSession_poll_true in H.
    destruct H as (c & r & detail & updated & Hc & Hr & Hp & Hd & U & S).
    destruct (ixp_poll_fields_spec _ _ _ U) as (A & _ & B & C & D).
    exists c, r, detail, updated.
    split; [exact Hc|]. split; [exact Hr|]. split; [exact Hp|].
    split; [exact Hd|]. split; [exact A|]. split; [exact B|].
    split; [exact C|]. split; [exact D|]. rewrite S. reflexivity.
  - unfold InternetExchangePeeringSession_poll, bind, get_db, lift.
    destruct (related Connection.pk (connections db)
                      (InternetExchangePeeringSession.ixp_connection self))
      as [[c|]|e] eqn:Hc; simpl; try discriminate.
    destruct (Connection.router c) as [r|] eqn:Hr; simpl.
    2:{ intros H; inversion H; subst. reflexivity. }
    destruct (List.find (fun row => row =? r) (routers db)) as [r'|] eqn:Hf;
      [|discriminate].
    destruct (router_platform r') as [p|] eqn:Hp.
    2:{ intros H; inversion H; subst. reflexivity. }
    unfold Router_get_bgp_neighbor_detail.
    destruct (Router_find_bgp_neighbor_detail (device r') _) as [[detail|]|e]
      eqn:Hd; [| |discriminate].
    2:{ intros H; inversion H; subst. reflexivity. }
    unfold timezone_now.
    destruct (InternetExchangePeeringSession_poll_fields self detail (now db))
      as [updated|e] eqn:U; [|discriminate].
    destruct (InternetExchangePeeringSession_save updated db) as [[u|e] db1];
      discriminate.
Qed.

Lemma InternetExchangePeeringSession_poll_outcomes_witness :
  exists connection router detail updated,
    related Connection.pk (connections own_session_db) (Some 1)
    = Ok (Some connection)
    /\ Connection.router connection = Some router
    /\ (fun _ : Z => Some 1) router <> None
    /\ Router_find_bgp_neighbor_detail
         ((fun _ : Z =>
             Dict [("global", [(65001, [mkNeighbor "203.0.113.1" "Established"
                                                   (PInt (-1)) (PInt 5)])])])
            router)
         (AsAddress ip_203_0_113_1)
       = Ok (Some detail)
    /\ InternetExchangePeeringSession.pk updated = 1
    /\ InternetExchangePeeringSession.bgp_state updated
       = lower (neighbor_connection_state detail)
    /\ 0 <= InternetExchangePeeringSession.received_prefix_count updated
    /\ 0 <= InternetExchangePeeringSession.advertised_prefix_count updated
    /\ snd (InternetExchangePeeringSession_poll
              (fun _ => Some 1)
              (fun _ =>
                 Dict [("global", [(65001, [mkNeighbor "203.0.113.1"
                                                       "Established"
                                                       (PInt (-1)) (PInt 5)])])])
              (idle_session 1 1 ip_203_0_113_1) own_session_db)
       = snd (InternetExchangePeeringSession_save updated own_session_db).
Proof.
  apply (@InternetExchangePeeringSession_poll_outcomes
           (fun _ => Some 1)
           (fun _ =>
              Dict [("global", [(65001, [mkNeighbor "203.0.113.1" "Established"
                                                    (PInt (-1)) (PInt 5)])])])
           (idle_session 1 1 ip_203_0_113_1) own_session_db _ true).
  vm_compute. reflexivity.
Defined.

(** ** [link_to_peeringdb] and [has_connected_routers] *)

Lemma link_scan_some (netixlan_ixlan : Z -> Z) (l : list Connection.t) :
  forall acc ixlan,
    link_scan netixlan_ixlan l acc = Some (Some ixlan) ->
    (forall c n, In c l -> Connection.peeringdb_netixlan c = Some n ->
                 netixlan_ixlan n = ixlan)
    /\ (acc = Some ixlan
        \/ acc = None
           /\ exists c n, In c l
                          /\ Connection.peeringdb_netixlan c = Some n).
Proof.
  induction l as [|c l IH]; intros acc ixlan; simpl.
  - intros H; inversion H; subst. split; [intros c n []|left; reflexivity].
  - destruct (Connection.peeringdb_netixlan c) as [n|] eqn:Hn.
    + destruct acc as [x|].
      * destruct (x =? netixlan_ixlan n) eqn:E; simpl; [|discriminate].
        apply Z.eqb_eq in E. intros H.
        destruct (IH _ _ H) as [Hall [Hacc | [Hacc _]]]; [|discriminate].
        inversion Hacc; subst x. split; [|left; reflexivity].
        intros c' n' [<- | Hin] Hn'; [congruence|eauto].
      * intros H.
        destruct (IH _ _ H) as [Hall [Hacc | [Hacc _]]]; [|discriminate].
        inversion Hacc as [Heq]. split.
        -- intros c' n' [<- | Hin] Hn'; [congruence|rewrite Heq; eauto].
        -- right. split; [reflexivity|]. exists c, n. auto.
    + intros H. destruct (IH _ _ H) as [Hall Hacc]. split.
      * intros c' n' [<- | Hin] Hn'; [congruence|eauto].
      * destruct Hacc as [Hacc | [Hacc (c' & n' & Hin & Hn')]]; [auto|].
        right. split; [exact Hacc|]. exists c', n'. auto.
Qed.

(** [link_to_peeringdb] links the exchange to a LAN only when at least
    one of its connections has a PeeringDB member record and all those
    records are on that LAN; it then saves the exchange with that link
    and writes nothing else.  When it returns [None] (no connection is
    linked, or two disagree) it writes nothing. *)
Theorem link_to_peeringdb_outcomes
        (netixlan_ixlan : Z -> Z) (self : InternetExchange.t) (db db' : DB)
        (linked : option Z) :
  InternetExchange_link_to_peeringdb netixlan_ixlan self db = (Ok linked, db') ->
  match linked with
  | Some ixlan =>
      (exists c n, In c (InternetExchange_get_connections self db)
                   /\ Connection.peeringdb_netixlan c = Some n)
      /\ (forall c n, In c (InternetExchange_get_connections self db) ->
                      Connection.peeringdb_netixlan c = Some n ->
                      netixlan_ixlan n = ixlan)
      /\ db' = snd (InternetExchange_save (InternetExchange_link self ixlan) db)
  | None => db' = db
  end.
Proof.
  unfold InternetExchange_link_to_peeringdb, bind, get_db.
  fold (InternetExchange_get_connections self db).
  destruct (link_scan netixlan_ixlan (InternetExchange_get_connections self db)
                      None) as [[ixlan|]|] eqn:S.
  - unfold InternetExchange_save, ret. intros H; inversion H; subst; clear H.
    destruct (link_scan_some _ _ _ S) as [Hall [Hacc | [_ Hex]]];
      [discriminate|].
    repeat split; auto.
  - intros H; inversion H; subst. reflexivity.
  - intros H; inversion H; subst. reflexivity.
Qed.

Lemma link_to_peeringdb_outcomes_witness :
  (exists c n,
      In c (InternetExchange_get_connections
              (InternetExchange.mk 1 "ix-a" None (Some 1) true None)
              session_on_10_db)
      /\ Connection.peeringdb_netixlan c = Some n)
  /\ (forall c n,
         In c (InternetExchange_get_connections
                 (InternetExchange.mk 1 "ix-a" None (Some 1) true None)
                 session_on_10_db) ->
         Connection.peeringdb_netixlan c = Some n ->
         (fun _ : Z => 7) n = 7)
  /\ snd (InternetExchange_link_to_peeringdb
            (fun _ => 7)
            (InternetExchange.mk 1 "ix-a" None (Some 1) true None)
            session_on_10_db)
     = snd (InternetExchange_save
              (InternetExchange_link
                 (InternetExchange.mk 1 "ix-a" None (Some 1) true None) 7)
              session_on_10_db).
Proof.
  apply (@link_to_peeringdb_outcomes
           (fun _ => 7) (InternetExchange.mk 1 "ix-a" None (Some 1) true None)
           session_on_10_db _ (Some 7)).
  vm_compute. reflexivity.
Defined.

(** When every router key held by a connection is the key of a stored
    router, [has_connected_routers] holds exactly when [get_routers]
    returns a router. *)
Theorem has_connected_routers_iff_get_routers
        (self : InternetExchange.t) (db : DB) :
  (forall c r, In c (connections db) -> Connection.router c = Some r ->
               In r (routers db)) ->
  (InternetExchange_has_connected_routers self db = true
   <-> InternetExchange_get_routers self db <> []).
Proof.
  intros Hfk. unfold InternetExchange_has_connected_routers,
                InternetExchange_get_routers, InternetExchange_get_connections.
  rewrite Z.ltb_lt. split.
  - intros Hpos.
    destruct (List.filter
                (fun c => fk_is (Connection.internet_exchange_point c)
                                (InternetExchange.pk self)
                          && negb (is_none (Connection.router c)))
                (connections db)) as [|c l] eqn:F; [simpl in Hpos; lia|].
    assert (Hin : In c (List.filter
                          (fun c => fk_is (Connection.internet_exchange_point c)
                                          (InternetExchange.pk self)
                                    && negb (is_none (Connection.router c)))
                          (connections db))) by (rewrite F; left; reflexivity).
    apply filter_In in Hin. destruct Hin as [Hin Hc].
    apply andb_true_iff in Hc. destruct Hc as [Hix Hr].
    destruct (Connection.router c) as [r|] eqn:Er; [|discriminate].
    intros Hnil.
    assert (In r (List.filter
                    (fun r0 =>
                       existsb (fun c0 => fk_is (Connection.router c0) r0)
                               (List.filter
                                  (fun c0 =>
                                     fk_is (Connection.internet_exchange_point c0)
                                           (InternetExchange.pk self))
                                  (connections db)))
                    (routers db))) as Hr'; [|rewrite Hnil in Hr'; exact Hr'].
    apply filter_In. split; [eapply Hfk; eassumption|].
    apply existsb_exists. exists c. split.
    + apply filter_In. auto.
    + unfold fk_is. rewrite Er. simpl. apply Z.eqb_refl.
  - intros Hne.
    destruct (List.filter _ (routers db)) as [|r l] eqn:F; [congruence|].
    assert (Hin : In r (List.filter
                          (fun r0 =>
                             existsb (fun c0 => fk_is (Connection.router c0) r0)
                                     (List.filter
                                        (fun c0 =>
                                           fk_is (Connection.internet_exchange_point c0)
                                                 (InternetExchange.pk self))
                                        (connections db)))
                          (routers db))) by (rewrite F; left; reflexivity).
    apply filter_In in Hin. destruct Hin as [_ Hex].
    apply existsb_exists in Hex. destruct Hex as (c & Hc & Hr).
    apply filter_In in Hc. destruct Hc as [Hin Hix].
    assert (Hf : In c (List.filter
                         (fun c => fk_is (Connection.internet_exchange_point c)
                                         (InternetExchange.pk self)
                                   && negb (is_none (Connection.router c)))
                         (connections db))).
    { apply filter_In. split; [exact Hin|]. rewrite Hix. simpl.
      unfold fk_is, option_Z_eqb in Hr.
      destruct (Connection.router c); [reflexivity|discriminate]. }
    destruct (List.filter
                (fun c => fk_is (Connection.internet_exchange_point c)
                                (InternetExchange.pk self)
                          && negb (is_none (Connection.router c)))
                (connections db)); [destruct Hf|simpl; lia].
Qed.

Lemma has_connected_routers_iff_get_routers_witness :
  InternetExchange_has_connected_routers ix_a session_on_10_db = true
  <-> InternetExchange_get_routers ix_a session_on_10_db <> [].
Proof.
  apply has_connected_routers_iff_get_routers.
  intros c r Hin Hr. simpl in Hin.
  destruct Hin as [<- | [<- | []]]; simpl in Hr; inversion Hr; subst;
    simpl; auto.
Defined.

(** ** The arguments of the NAPALM driver *)

Lemma dict_get_set (k k' v : string) (d : dict) :
  dict_get k (dict_set k' v d)
  = if String.eqb k' k then Some v else dict_get k d.
Proof.
  induction d as [|[k0 v0] d IH]; simpl.
  - reflexivity.
  - destruct (String.eqb k0 k') eqn:E0; simpl.
    + apply String.eqb_eq in E0. subst k0.
      destruct (String.eqb k' k); reflexivity.
    + destruct (String.eqb k0 k) eqn:E1; [|exact IH].
      apply String.eqb_eq in E1. subst k0. rewrite String.eqb_sym in E0.
      rewrite E0. reflexivity.
Qed.

Lemma dict_get_absent (k : string) (d : dict) :
  ~ In k (List.map fst d) -> dict_get k d = None.
Proof.
  induction d as [|[k0 v0] d IH]; simpl; [reflexivity|].
  intros Hn. destruct (String.eqb k0 k) eqn:E.
  - apply String.eqb_eq in E. exfalso. apply Hn. left. exact E.
  - apply IH. intros Hin. apply Hn. right. exact Hin.
Qed.

(** After [d.update(other)] a key has the value [other] gives it, and
    else the value it had. *)
Lemma dict_get_update (k : string) (other : dict) :
  distinct_keys other ->
  forall d,
    dict_get k (dict_update d other)
    = match dict_get k other with
      | Some v => Some v
      | None => dict_get k d
      end.
Proof.
  unfold dict_update, distinct_keys.
  induction other as [|[k0 v0] other IH]; intros Hnd d; simpl; [reflexivity|].
  inversion Hnd as [|? ? Hnot Hnd']; subst.
  rewrite (IH Hnd'), dict_get_set.
  destruct (String.eqb k0 k) eqn:E.
  - apply String.eqb_eq in E. subst k0.
    rewrite (dict_get_absent _ _ Hnot). reflexivity.
  - reflexivity.
Qed.

Lemma dict_update_nil (d : dict) : dict_update d [] = d.
Proof. reflexivity. Qed.

Lemma truthy_update (d : dict) (other : option dict) :
  (if dict_truthy other then dict_update d (args_of other) else d)
  = dict_update d (args_of other).
Proof. destruct other as [[|kv o]|]; reflexivity. Qed.

(** What [get_napalm_device] builds, when it builds a device. *)
Lemma get_napalm_device_some (driver_installed : string -> bool)
      (self : Router.t) (settings settings' : settings_t) (d : napalm_device) :
  Router_get_napalm_device driver_installed self settings = (Some d, settings') ->
  exists platform driver,
    Router.platform self = Some platform
    /\ Platform.napalm_driver platform = Some driver
    /\ driver <> EmptyString
    /\ driver_installed driver = true
    /\ optional_args d
       = dict_update (dict_update (NAPALM_ARGS settings)
                                  (args_of (Platform.napalm_args platform)))
                     (args_of (Router.napalm_args self))
    /\ NAPALM_ARGS settings' = optional_args d
    /\ device_hostname d = Router.hostname self.
Proof.
  unfold Router_get_napalm_device.
  destruct (Router.platform self) as [platform|] eqn:Hp; [|discriminate].
  destruct (Platform.napalm_driver platform) as [driver|] eqn:Hd;
    [|discriminate].
  destruct (String.eqb driver EmptyString) eqn:E; [discriminate|].
  destruct (driver_installed driver) eqn:I; [|discriminate].
  simpl. rewrite !truthy_update. intros H; inversion H; subst; simpl.
  exists platform, driver. apply String.eqb_neq in E. repeat split; auto.
Qed.

(** The arguments passed to the driver: for every key, the router's value
    if the router sets the key, else the platform's if the platform sets
    it, else the process-wide default. *)
Theorem napalm_args_precedence
        (driver_installed : string -> bool) (self : Router.t)
        (platform : Platform.t) (settings settings' : settings_t)
        (d : napalm_device) (k : string) :
  Router_get_napalm_device driver_installed self settings = (Some d, settings') ->
  Router.platform self = Some platform ->
  distinct_keys (args_of (Router.napalm_args self)) ->
  distinct_keys (args_of (Platform.napalm_args platform)) ->
  dict_get k (optional_args d)
  = match dict_get k (args_of (Router.napalm_args self)) with
    | Some v => Some v
    | None =>
        match dict_get k (args_of (Platform.napalm_args platform)) with
        | Some v => Some v
        | None => dict_get k (NAPALM_ARGS settings)
        end
    end.
Proof.
  intros H Hp Hr Hpl.
  destruct (get_napalm_device_some _ _ _ H)
    as (p & driver & Hp' & _ & _ & _ & Hargs & _).
  rewrite Hp in Hp'. inversion Hp'; subst p.
  rewrite Hargs, (dict_get_update k Hr), (dict_get_update k Hpl). reflexivity.
Qed.

Lemma napalm_args_precedence_witness :
  dict_get "port"
           (optional_args
              (mkDevice "edge1.example.net" "napalm" "secret" 30
                        [("port", "22"); ("transport", "ssh");
                         ("keepalive", "5")]))
  = Some "22".
Proof.
  rewrite (@napalm_args_precedence any_driver edge1 junos process_settings
             (mkSettings "napalm" "secret" 30
                         [("port", "22"); ("transport", "ssh");
                          ("keepalive", "5")])
             _ "port"); try reflexivity.
  - unfold distinct_keys. simpl. repeat constructor; simpl; intuition discriminate.
  - unfold distinct_keys. simpl. repeat constructor; simpl; intuition discriminate.
Defined.

(** The driver's arguments are merged into the one process-wide
    [NAPALM_ARGS] dict: what a router and its platform set stays there,
    and a router handled next that sets nothing of its own (nor does its
    platform) gets exactly the arguments of the router before it. *)
Theorem napalm_args_carry_over
        (driver_installed : string -> bool) (first next : Router.t)
        (settings settings1 settings2 : settings_t) (d1 d2 : napalm_device) :
  Router_get_napalm_device driver_installed first settings
  = (Some d1, settings1) ->
  Router_get_napalm_device driver_installed next settings1
  = (Some d2, settings2) ->
  args_of (Router.napalm_args next) = [] ->
  (forall p, Router.platform next = Some p ->
             args_of (Platform.napalm_args p) = []) ->
  optional_args d2 = optional_args d1
  /\ NAPALM_ARGS settings2 = optional_args d1.
Proof.
  intros H1 H2 Hr Hp.
  destruct (get_napalm_device_some _ _ _ H1) as (_ & _ & _ & _ & _ & _ & _ & L1 & _).
  destruct (get_napalm_device_some _ _ _ H2)
    as (p & _ & Hp2 & _ & _ & _ & A2 & L2 & _).
  rewrite (Hp p Hp2), Hr in A2. simpl in A2.
  rewrite L2, A2, L1. auto.
Qed.

Lemma napalm_args_carry_over_witness :
  optional_args
    (mkDevice "edge2.example.net" "ops" "secret" 60
              [("port", "22"); ("transport", "ssh"); ("keepalive", "5")])
  = optional_args
      (mkDevice "edge1.example.net" "napalm" "secret" 30
                [("port", "22"); ("transport", "ssh"); ("keepalive", "5")])
  /\ NAPALM_ARGS
       (snd (Router_get_napalm_device
               any_driver edge2
               (snd (Router_get_napalm_device any_driver edge1
                                              process_settings))))
     = optional_args
         (mkDevice "edge1.example.net" "napalm" "secret" 30
                   [("port", "22"); ("transport", "ssh"); ("keepalive", "5")]).
Proof.
  apply (@napalm_args_carry_over any_driver edge1 edge2 process_settings
           (snd (Router_get_napalm_device any_driver edge1 process_settings)));
    try reflexivity.
  intros p Hp. inversion Hp; subst. reflexivity.
Defined.

(** ** Pushing a configuration *)

Lemma open_napalm_device_spec (behaviour : napalm_device -> napalm_behaviour)
      (device : option napalm_device) (calls : list device_call) :
  Router_open_napalm_device behaviour device calls
  = match device with
    | None => (false, calls)
    | Some d => (match on_open (behaviour d) with
                 | Done _ => true
                 | Raised _ => false
                 end, calls ++ [CallOpen])
    end.
Proof.
  unfold Router_open_napalm_device. destruct device as [d|]; [|reflexivity].
  destruct (on_open (behaviour d)); reflexivity.
Qed.

(** What the [try] block does: the calls it adds, when it commits, and
    what it leaves in [error] and [changes]. *)
Lemma merge_candidate_spec (behaviour : napalm_device -> napalm_behaviour)
      (self : Router.t) (d : napalm_device) (config : string) (commit : bool)
      (calls calls' : list device_call) (error changes : option string) :
  merge_candidate behaviour self d config commit calls
  = (error, changes, calls') ->
  exists made,
    calls' = calls ++ made
    /\ ~ In CallOpen made /\ ~ In CallClose made
    /\ (In CallCommitConfig made ->
        commit = true
        /\ (exists u, on_load_merge_candidate (behaviour d) config = Done u)
        /\ exists c, on_compare_config (behaviour d) = Done c)
    /\ (In CallDiscardConfig made -> commit = false)
    /\ (error = None ->
        exists c, changes = Some c /\ on_compare_config (behaviour d) = Done c)
    /\ (error <> None -> changes = None).
Proof.
  unfold merge_candidate.
  destruct (on_load_merge_candidate (behaviour d) config) as [u|e] eqn:L.
  2:{ intros H; inversion H; subst. eexists [_]. split; [reflexivity|].
      simpl. repeat split; try solve [intuition discriminate]. }
  destruct (on_compare_config (behaviour d)) as [c|e] eqn:C.
  2:{ intros H; inversion H; subst. eexists [_; _].
      rewrite <- app_assoc. split; [reflexivity|].
      simpl. repeat split; try solve [intuition discriminate]. }
  destruct commit.
  - destruct (on_commit_config (behaviour d)) as [u'|e];
      intros H; inversion H; subst; eexists [_; _; _];
      rewrite <- !app_assoc; (split; [reflexivity|]); simpl;
      repeat split; try solve [intuition discriminate]; eauto.
  - destruct (on_discard_config (behaviour d)) as [u'|e];
      intros H; inversion H; subst; eexists [_; _; _];
      rewrite <- !app_assoc; (split; [reflexivity|]); simpl;
      repeat split; try solve [intuition discriminate]; eauto.
Qed.

(** A disabled router, or a configuration that is [None], no text or
    blank, ends [set_napalm_configuration] with an error message and no
    changes before any device is built or called. *)
Theorem set_configuration_refused_early
        (driver_installed : string -> bool)
        (behaviour : napalm_device -> napalm_behaviour)
        (self : Router.t) (config : config_arg) (commit : bool)
        (settings : settings_t) :
  Router.device_state self = DeviceState.DISABLED
  \/ config = ConfigNone \/ config = ConfigNotText
  \/ (exists text, config = ConfigText text /\ blank text = true) ->
  exists message,
    Router_set_napalm_configuration driver_installed behaviour self config
                                    commit settings
    = (Done (Some message, None), settings, []).
Proof.
  intros H. unfold Router_set_napalm_configuration.
  destruct (String.eqb (Router.device_state self) DeviceState.DISABLED) eqn:E;
    [eexists; reflexivity|].
  destruct H as [H | [-> | [-> | (text & -> & Hb)]]].
  - apply String.eqb_neq in E. contradiction.
  - eexists; reflexivity.
  - eexists; reflexivity.
  - rewrite Hb. eexists; reflexivity.
Qed.

Lemma set_configuration_refused_early_witness :
  exists message,
    Router_set_napalm_configuration
      any_driver (fun _ => healthy) edge1
      (ConfigText (String (ascii_of_N 32) (String (ascii_of_N 10) EmptyString)))
      true process_settings
    = (Done (Some message, None), process_settings, []).
Proof.
  apply set_configuration_refused_early.
  right; right; right. eexists. split; reflexivity.
Defined.

(** [set_napalm_configuration] commits only on request: a [commit_config]
    call is made only when [commit] is true and the candidate was loaded
    and compared without error, and a [discard_config] call only when
    [commit] is false. *)
Theorem set_configuration_commits_on_request
        (driver_installed : string -> bool)
        (behaviour : napalm_device -> napalm_behaviour)
        (self : Router.t) (config : config_arg) (commit : bool)
        (settings settings' : settings_t)
        (result : outcome (option string * option string))
        (calls : list device_call) :
  Router_set_napalm_configuration driver_installed behaviour self config
                                  commit settings
  = (result, settings', calls) ->
  (In CallCommitConfig calls ->
   commit = true
   /\ exists d text u c,
        fst (Router_get_napalm_device driver_installed self settings) = Some d
        /\ config = ConfigText text
        /\ on_load_merge_candidate (behaviour d) text = Done u
        /\ on_compare_config (behaviour d) = Done c)
  /\ (In CallDiscardConfig calls -> commit = false).
Proof.
  unfold Router_set_napalm_configuration.
  destruct (String.eqb (Router.device_state self) DeviceState.DISABLED);
    [intros H; inversion H; subst; split; intros []|].
  destruct config as [| |text];
    try (intros H; inversion H; subst; split; intros []).
  destruct (blank text); [intros H; inversion H; subst; split; intros []|].
  destruct (Router_get_napalm_device driver_installed self settings)
    as [device s1] eqn:G.
  rewrite open_napalm_device_spec.
  destruct device as [d|];
    [|intros H; inversion H; subst; split; intros []].
  destruct (on_open (behaviour d)) as [u0|e0].
  2:{ intros H; inversion H; subst. split; intros [H0|[]]; discriminate H0. }
  destruct (merge_candidate behaviour self d text commit ([] ++ [CallOpen]))
    as [[error changes] calls1] eqn:Mc.
  destruct (merge_candidate_spec _ _ _ _ _ _ Mc)
    as (made & Hc & _ & _ & Hcommit & Hdiscard & _).
  unfold Router_close_napalm_device.
  assert (Hin : forall call,
             call <> CallOpen -> call <> CallClose ->
             In call (calls1 ++ [CallClose]) -> In call made).
  { intros call H1 H2 Hin. rewrite Hc in Hin. simpl in Hin.
    destruct Hin as [Hin | Hin]; [congruence|].
    apply in_app_or in Hin. destruct Hin as [Hin | [Hin | []]];
      [exact Hin|congruence]. }
  destruct (on_close (behaviour d)) as [u1|e1];
    intros H; inversion H; subst; clear H; split; intros Hcall.
  - assert (Hm : In CallCommitConfig made)
      by (apply Hin; [discriminate|discriminate|exact Hcall]).
    destruct (Hcommit Hm) as (A & (u & B) & (c & C)).
    split; [exact A|]. exists d, text, u, c. auto.
  - apply Hdiscard. apply Hin; [discriminate|discriminate|exact Hcall].
  - assert (Hm : In CallCommitConfig made)
      by (apply Hin; [discriminate|discriminate|exact Hcall]).
    destruct (Hcommit Hm) as (A & (u & B) & (c & C)).
    split; [exact A|]. exists d, text, u, c. auto.
  - apply Hdiscard. apply Hin; [discriminate|discriminate|exact Hcall].
Qed.

Lemma set_configuration_commits_on_request_witness :
  (In CallCommitConfig
      [CallOpen; CallLoadMergeCandidate "set protocols bgp"; CallCompareConfig;
       CallDiscardConfig; CallClose] ->
   false = true
   /\ exists d text u c,
        fst (Router_get_napalm_device any_driver edge1 process_settings)
        = Some d
        /\ ConfigText "set protocols bgp" = ConfigText text
        /\ on_load_merge_candidate ((fun _ => healthy) d) text = Done u
        /\ on_compare_config ((fun _ => healthy) d) = Done c)
  /\ (In CallDiscardConfig
         [CallOpen; CallLoadMergeCandidate "set protocols bgp";
          CallCompareConfig; CallDiscardConfig; CallClose] ->
      false = false).
Proof.
  apply (@set_configuration_commits_on_request
           any_driver (fun _ => healthy) edge1
           (ConfigText "set protocols bgp") false process_settings
           (snd (Router_get_napalm_device any_driver edge1 process_settings))
           (Done (None, Some "+ neighbor 203.0.113.1"))).
  vm_compute. reflexivity.
Defined.

(** When [set_napalm_configuration] returns, a connection it opened has
    been closed by its last call, whatever happened in between, and its
    answer has changes exactly when it has no error; the changes are the
    device's comparison. *)
Theorem set_configuration_closes_and_reports
        (driver_installed : string -> bool)
        (behaviour : napalm_device -> napalm_behaviour)
        (self : Router.t) (config : config_arg) (commit : bool)
        (settings settings' : settings_t)
        (error changes : option string) (calls : list device_call) :
  Router_set_napalm_configuration driver_installed behaviour self config
                                  commit settings
  = (Done (error, changes), settings', calls) ->
  (calls = []
   \/ (calls = [CallOpen] /\ error <> None)
   \/ exists made, calls = CallOpen :: made ++ [CallClose]
                   /\ ~ In CallOpen made /\ ~ In CallClose made)
  /\ (error = None ->
      exists d c, fst (Router_get_napalm_device driver_installed self settings)
                  = Some d
                  /\ on_compare_config (behaviour d) = Done c
                  /\ changes = Some c)
  /\ (error <> None -> changes = None).
Proof.
  unfold Router_set_napalm_configuration.
  destruct (String.eqb (Router.device_state self) DeviceState.DISABLED).
  { intros H; inversion H; subst. repeat split; auto; discriminate. }
  assert (Hno : forall s c,
             (Done (Some "no configuration found to be merged", None), s, [])
             = (Done (error, changes), settings', c) ->
             (c = []
              \/ (c = [CallOpen] /\ error <> None)
              \/ exists made, c = CallOpen :: made ++ [CallClose]
                              /\ ~ In CallOpen made /\ ~ In CallClose made)
             /\ (error = None ->
                 exists d c0,
                   fst (Router_get_napalm_device driver_installed self settings)
                   = Some d
                   /\ on_compare_config (behaviour d) = Done c0
                   /\ changes = Some c0)
             /\ (error <> None -> changes = None)).
  { intros s c H; inversion H; subst. repeat split; auto; discriminate. }
  destruct config as [| |text]; try apply Hno.
  destruct (blank text); [apply Hno|]. clear Hno.
  destruct (Router_get_napalm_device driver_installed self settings)
    as [device s1] eqn:G.
  rewrite open_napalm_device_spec.
  destruct device as [d|].
  2:{ intros H; inversion H; subst. repeat split; auto; discriminate. }
  destruct (on_open (behaviour d)) as [u0|e0].
  2:{ intros H; inversion H; subst. split; [|split; [discriminate|auto]].
      right; left. split; [reflexivity|discriminate]. }
  destruct (merge_candidate behaviour self d text commit ([] ++ [CallOpen]))
    as [[error1 changes1] calls1] eqn:Mc.
  destruct (merge_candidate_spec _ _ _ _ _ _ Mc)
    as (made & Hc & Hopen & Hclose & _ & _ & Hnone & Hsome).
  unfold Router_close_napalm_device.
  destruct (on_close (behaviour d)) as [u1|e1]; [|discriminate].
  intros H; inversion H; subst; clear H. split; [|split].
  - right; right. exists made. auto.
  - intros He. destruct (Hnone He) as (c & Hch & Hcmp). exists d, c. auto.
  - exact Hsome.
Qed.

Lemma set_configuration_closes_and_reports_witness :
  ([CallOpen; CallLoadMergeCandidate "set protocols bgp"; CallClose] = []
   \/ ([CallOpen; CallLoadMergeCandidate "set protocols bgp"; CallClose]
       = [CallOpen]
       /\ Some ("unable to merge configuration on edge1.example.net reason "
                ++ dquote ++ "syntax error" ++ dquote)%string <> None)
   \/ exists made,
        [CallOpen; CallLoadMergeCandidate "set protocols bgp"; CallClose]
        = CallOpen :: made ++ [CallClose]
        /\ ~ In CallOpen made /\ ~ In CallClose made)
  /\ (Some ("unable to merge configuration on edge1.example.net reason "
            ++ dquote ++ "syntax error" ++ dquote)%string = None ->
      exists d c,
        fst (Router_get_napalm_device any_driver edge1 process_settings)
        = Some d
        /\ on_compare_config ((fun _ => refusing) d) = Done c
        /\ @None string = Some c)
  /\ (Some ("unable to merge configuration on edge1.example.net reason "
            ++ dquote ++ "syntax error" ++ dquote)%string <> None ->
      @None string = None).
Proof.
  apply (@set_configuration_closes_and_reports
           any_driver (fun _ => refusing) edge1
           (ConfigText "set protocols bgp") true process_settings
           (snd (Router_get_napalm_device any_driver edge1 process_settings))).
  vm_compute. reflexivity.
Defined.

(** ** Testing the connection and fetching the neighbors *)

(** [test_napalm_connection] answers true exactly when a device could be
    built, opened, reported alive and closed.  A device that opens but
    does not report itself alive is not closed. *)
Theorem test_napalm_connection_outcomes
        (driver_installed : string -> bool)
        (behaviour : napalm_device -> napalm_behaviour)
        (self : Router.t) (settings settings' : settings_t)
        (result : outcome bool) (calls : list device_call) :
  Router_test_napalm_connection driver_installed behaviour self settings
  = (result, settings', calls) ->
  (result = Done true
   <-> exists d,
         fst (Router_get_napalm_device driver_installed self settings) = Some d
         /\ (exists u, on_open (behaviour d) = Done u)
         /\ on_is_alive (behaviour d) = true
         /\ exists u, on_close (behaviour d) = Done u)
  /\ (forall d,
         fst (Router_get_napalm_device driver_installed self settings) = Some d ->
         (exists u, on_open (behaviour d) = Done u) ->
         on_is_alive (behaviour d) = false ->
         calls = [CallOpen; CallIsAlive]).
Proof.
  unfold Router_test_napalm_connection.
  destruct (Router_get_napalm_device driver_installed self settings)
    as [device s1] eqn:G.
  rewrite open_napalm_device_spec. simpl fst.
  destruct device as [d|].
  2:{ intros H; inversion H; subst. split; [|intros d H0; discriminate H0].
      split; [discriminate|intros (d & H0 & _); discriminate H0]. }
  destruct (on_open (behaviour d)) as [u0|e0] eqn:O.
  2:{ intros H; inversion H; subst. split.
      - split; [discriminate|].
        intros (d' & H0 & (u & H1) & _). inversion H0; subst. congruence.
      - intros d' H0 (u & H1) _. inversion H0; subst. congruence. }
  destruct (on_is_alive (behaviour d)) eqn:A.
  2:{ intros H; inversion H; subst. split.
      - split; [discriminate|].
        intros (d' & H0 & _ & H1 & _). inversion H0; subst. congruence.
      - intros d' H0 _ _. reflexivity. }
  unfold Router_close_napalm_device.
  destruct (on_close (behaviour d)) as [u1|e1] eqn:C;
    intros H; inversion H; subst; clear H; split.
  - split; [|reflexivity]. intros _. exists d. repeat split; eauto.
  - intros d' H0 _ H1. inversion H0; subst. congruence.
  - split; [discriminate|].
    intros (d' & H0 & _ & _ & (u & H1)). inversion H0; subst. congruence.
  - intros d' H0 _ H1. inversion H0; subst. congruence.
Qed.

Lemma test_napalm_connection_outcomes_witness :
  (Done false = Done true
   <-> exists d,
         fst (Router_get_napalm_device any_driver edge1 process_settings)
         = Some d
         /\ (exists u, on_open ((fun _ => stale) d) = Done u)
         /\ on_is_alive ((fun _ => stale) d) = true
         /\ exists u, on_close ((fun _ => stale) d) = Done u)
  /\ (forall d,
         fst (Router_get_napalm_device any_driver edge1 process_settings)
         = Some d ->
         (exists u, on_open ((fun _ => stale) d) = Done u) ->
         on_is_alive ((fun _ => stale) d) = false ->
         [CallOpen; CallIsAlive] = [CallOpen; CallIsAlive]).
Proof.
  apply (@test_napalm_connection_outcomes
           any_driver (fun _ => stale) edge1 process_settings
           (snd (Router_get_napalm_device any_driver edge1 process_settings))).
  vm_compute. reflexivity.
Defined.

(** [get_napalm_bgp_neighbors] returns the normalized list of the
    device's answer and closes the connection after it; it returns the
    empty list without asking when no device can be built or opened.
    When the device raises while answering, the exception leaves the
    method and the connection is not closed. *)
Theorem get_napalm_bgp_neighbors_outcomes
        (driver_installed : string -> bool)
        (behaviour : napalm_device -> napalm_behaviour)
        (self : Router.t) (settings settings' : settings_t)
        (result : outcome (list bgp_peer)) (calls : list device_call) :
  Router_get_napalm_bgp_neighbors driver_installed behaviour self settings
  = (result, settings', calls) ->
  match fst (Router_get_napalm_device driver_installed self settings) with
  | None => result = Done [] /\ calls = []
  | Some d =>
      match on_open (behaviour d) with
      | Raised _ => result = Done [] /\ calls = [CallOpen]
      | Done _ =>
          match on_get_bgp_neighbors (behaviour d) with
          | Raised e =>
              result = Raised e /\ calls = [CallOpen; CallGetBgpNeighbors]
          | Done answer =>
              calls = [CallOpen; CallGetBgpNeighbors; CallClose]
              /\ match on_close (behaviour d) with
                 | Done _ =>
                     result
                     = Done (_napalm_bgp_neighbors_to_peer_list (Some answer))
                 | Raised e => result = Raised e
                 end
          end
      end
  end.
Proof.
  unfold Router_get_napalm_bgp_neighbors.
  destruct (Router_get_napalm_device driver_installed self settings)
    as [device s1] eqn:G.
  rewrite open_napalm_device_spec. simpl fst.
  destruct device as [d|]; [|intros H; inversion H; auto].
  destruct (on_open (behaviour d)) as [u0|e0];
    [|intros H; inversion H; auto].
  destruct (on_get_bgp_neighbors (behaviour d)) as [answer|e];
    [|intros H; inversion H; auto].
  unfold Router_close_napalm_device.
  destruct (on_close (behaviour d)) as [u1|e1];
    intros H; inversion H; auto.
Qed.

(** ** [is_usable_for_task] *)

(** A router is usable for a task exactly when it is not disabled (a
    router in maintenance is usable) and has a platform with a NAPALM
    driver; the job result is left alone when it is usable and gets
    exactly one more error message when it is not. *)
Theorem is_usable_for_task_outcomes
        (self : Router.t) (job_result : option (list string)) :
  (fst (Router_is_usable_for_task self job_result) = true
   <-> Router.device_state self <> DeviceState.DISABLED
       /\ exists platform driver,
            Router.platform self = Some platform
            /\ Platform.napalm_driver platform = Some driver
            /\ driver <> EmptyString)
  /\ (fst (Router_is_usable_for_task self job_result) = true ->
      snd (Router_is_usable_for_task self job_result) = job_result)
  /\ (fst (Router_is_usable_for_task self job_result) = false ->
      match job_result with
      | None => snd (Router_is_usable_for_task self job_result) = None
      | Some marks =>
          exists message,
            snd (Router_is_usable_for_task self job_result)
            = Some (marks ++ [message])
      end).
Proof.
  unfold Router_is_usable_for_task.
  destruct (String.eqb (Router.device_state self) DeviceState.DISABLED) eqn:E.
  { apply String.eqb_eq in E. simpl. repeat split; try discriminate.
    - intros [H _]. contradiction.
    - intros _. destruct job_result; eauto. }
  apply String.eqb_neq in E.
  destruct (Router.platform self) as [platform|] eqn:P.
  2:{ simpl. repeat split; try discriminate.
      - intros (_ & p & d & H & _). discriminate H.
      - intros _. destruct job_result; eauto. }
  destruct (Platform.napalm_driver platform) as [driver|] eqn:D; simpl.
  2:{ repeat split; try discriminate.
      - intros (_ & p & d & H & H' & _). inversion H; subst. congruence.
      - intros _. destruct job_result; eauto. }
  destruct (String.eqb driver EmptyString) eqn:N; simpl.
  - apply String.eqb_eq in N. repeat split; try discriminate.
    + intros (_ & p & d & H & H' & H''). inversion H; subst. congruence.
    + intros _. destruct job_result; eauto.
  - apply String.eqb_neq in N. repeat split; auto; try discriminate.
    exists platform, driver. auto.
Qed.

Lemma get_napalm_bgp_neighbors_outcomes_witness :
  Done [mkPeer ip_203_0_113_1 65001]
  = Done (_napalm_bgp_neighbors_to_peer_list
            (Some [("default",
                    mkVrf [("203.0.113.1", mkDetails (Some 65001))])])).
Proof.
  pose proof (@get_napalm_bgp_neighbors_outcomes
                any_driver (fun _ => healthy) edge1 process_settings
                (snd (Router_get_napalm_device any_driver edge1
                                               process_settings))
                (Done [mkPeer ip_203_0_113_1 65001])
                [CallOpen; CallGetBgpNeighbors; CallClose]) as H.
  vm_compute in H. apply H. reflexivity.
Defined.

(** ** What [is_abandoned] decides on *)

